(** * ABTestSimu: the bucketing, planning and audit logic of [ab_sim.py] and
    [bayesian.py], embedded in Rocq.

    Conventions of the embedding.
    - A Python [str] is a Rocq [string] holding its UTF-8 bytes, so that
      [str.encode()] is the passage to [list byte].
    - A Python [int] is a [Z]; a Python or NumPy [float] is a binary64
      [float] of the kernel (IEEE 754, round to nearest even).
    - A call that can raise returns a [result]; an exception is named by its
      Python class.
    - Code that runs inside the interpreter process is written in the monad
      [Py W], [W] being the state of the process that the libraries keep
      behind the scenes (NumPy's global generator). *)

From Stdlib Require Import ZArith List String Ascii Bool Lia Floats.
From Stdlib.Strings Require Import Byte.
From stdpp Require Import base strings pretty gmap sorting.
Import ListNotations.

#[local] Open Scope string_scope.
#[local] Open Scope Z_scope.

(** ** Results and the interpreter monad *)

Definition exn := string.

Inductive result (A : Type) : Type :=
| Ok (a : A)
| Raise (e : exn).

Arguments Ok {A} a.
Arguments Raise {A} e.

Definition Py (W A : Type) : Type := W -> result A * W.

Definition ret {W A} (a : A) : Py W A := fun w => (Ok a, w).

Definition throw {W A} (e : exn) : Py W A := fun w => (Raise e, w).

Definition bind {W A B} (m : Py W A) (k : A -> Py W B) : Py W B :=
  fun w => match m w with
           | (Ok a, w') => k a w'
           | (Raise e, w') => (Raise e, w')
           end.

Definition lift {W A} (r : result A) : Py W A := fun w => (r, w).

(** [try: body / except: handler], the bare [except] of the scripts: every
    exception is caught, and its class is not looked at. *)
Definition try_except {W A} (body : Py W A) (handler : Py W A) : Py W A :=
  fun w => match body w with
           | (Ok a, w') => (Ok a, w')
           | (Raise _, w') => handler w'
           end.

Declare Scope py_scope.
Delimit Scope py_scope with py.
Notation "x <- m ;; k" := (bind m (fun x => k))
  (at level 100, m at next level, right associativity) : py_scope.

(** ** hashlib.md5 (RFC 1321) *)

Module Hashlib.

Definition mask32 : Z := 0xFFFFFFFF.

Definition add32 (x y : Z) : Z := Z.land (x + y) mask32.

Definition not32 (x : Z) : Z := Z.lxor x mask32.

Definition rotl32 (x n : Z) : Z :=
  Z.land (Z.lor (Z.shiftl x n) (Z.shiftr x (32 - n))) mask32.

Definition K : list Z :=
  [ 0xd76aa478; 0xe8c7b756; 0x242070db; 0xc1bdceee; 0xf57c0faf; 0x4787c62a; 0xa8304613; 0xfd469501;
    0x698098d8; 0x8b44f7af; 0xffff5bb1; 0x895cd7be; 0x6b901122; 0xfd987193; 0xa679438e; 0x49b40821;
    0xf61e2562; 0xc040b340; 0x265e5a51; 0xe9b6c7aa; 0xd62f105d; 0x02441453; 0xd8a1e681; 0xe7d3fbc8;
    0x21e1cde6; 0xc33707d6; 0xf4d50d87; 0x455a14ed; 0xa9e3e905; 0xfcefa3f8; 0x676f02d9; 0x8d2a4c8a;
    0xfffa3942; 0x8771f681; 0x6d9d6122; 0xfde5380c; 0xa4beea44; 0x4bdecfa9; 0xf6bb4b60; 0xbebfbc70;
    0x289b7ec6; 0xeaa127fa; 0xd4ef3085; 0x04881d05; 0xd9d4d039; 0xe6db99e5; 0x1fa27cf8; 0xc4ac5665;
    0xf4292244; 0x432aff97; 0xab9423a7; 0xfc93a039; 0x655b59c3; 0x8f0ccc92; 0xffeff47d; 0x85845dd1;
    0x6fa87e4f; 0xfe2ce6e0; 0xa3014314; 0x4e0811a1; 0xf7537e82; 0xbd3af235; 0x2ad7d2bb; 0xeb86d391 ].

Definition shifts : list Z :=
  [ 7; 12; 17; 22; 7; 12; 17; 22; 7; 12; 17; 22; 7; 12; 17; 22;
    5;  9; 14; 20; 5;  9; 14; 20; 5;  9; 14; 20; 5;  9; 14; 20;
    4; 11; 16; 23; 4; 11; 16; 23; 4; 11; 16; 23; 4; 11; 16; 23;
    6; 10; 15; 21; 6; 10; 15; 21; 6; 10; 15; 21; 6; 10; 15; 21 ].

Record state := { sA : Z; sB : Z; sC : Z; sD : Z }.

Definition init : state :=
  {| sA := 0x67452301; sB := 0xefcdab89; sC := 0x98badcfe; sD := 0x10325476 |}.

(** The round function and the index of the message word of step [i]. *)
Definition round (i : nat) (b c d : Z) : Z * nat :=
  if (i <? 16)%nat then (Z.lor (Z.land b c) (Z.land (not32 b) d), i)
  else if (i <? 32)%nat then (Z.lor (Z.land d b) (Z.land (not32 d) c), ((5 * i + 1) mod 16)%nat)
  else if (i <? 48)%nat then (Z.lxor (Z.lxor b c) d, ((3 * i + 5) mod 16)%nat)
  else (Z.lxor c (Z.lor b (not32 d)), ((7 * i) mod 16)%nat).

Definition step (M : list Z) (st : state) (i : nat) : state :=
  let '(f, g) := round i (sB st) (sC st) (sD st) in
  let f' := add32 (add32 (add32 f (sA st)) (nth i K 0)) (nth g M 0) in
  {| sA := sD st;
     sB := add32 (sB st) (rotl32 f' (nth i shifts 0));
     sC := sB st;
     sD := sC st |}.

Definition byteZ (b : byte) : Z := Z.of_N (Byte.to_N b).

Definition Zbyte (z : Z) : byte :=
  match Byte.of_N (Z.to_N (Z.land z 0xFF)) with
  | Some b => b
  | None => x00
  end.

(** Little-endian 32-bit words of a block of bytes. *)
Fixpoint words_le (bs : list byte) : list Z :=
  match bs with
  | b0 :: b1 :: b2 :: b3 :: rest =>
      (byteZ b0 + 256 * (byteZ b1 + 256 * (byteZ b2 + 256 * byteZ b3))) :: words_le rest
  | _ => []
  end.

Definition bytes_le (n : nat) (z : Z) : list byte :=
  map (fun i => Zbyte (Z.shiftr z (8 * Z.of_nat i))) (seq 0 n).

Definition compress (h : state) (block : list byte) : state :=
  let r := fold_left (step (words_le block)) (seq 0 64) h in
  {| sA := add32 (sA h) (sA r);
     sB := add32 (sB h) (sB r);
     sC := add32 (sC h) (sC r);
     sD := add32 (sD h) (sD r) |}.

(** The message followed by 0x80, zeros up to 56 modulo 64, and the length
    in bits on 64 bits, little-endian. *)
Definition pad (msg : list byte) : list byte :=
  let len := List.length msg in
  msg ++ x80 :: repeat x00 ((55 + 64 - len mod 64) mod 64)%nat
      ++ bytes_le 8 (Z.land (8 * Z.of_nat len) 0xFFFFFFFFFFFFFFFF).

Fixpoint blocks (fuel : nat) (bs : list byte) : list (list byte) :=
  match fuel, bs with
  | O, _ | _, [] => []
  | S fuel', _ => firstn 64 bs :: blocks fuel' (skipn 64 bs)
  end.

Definition final (msg : list byte) : state :=
  let p := pad msg in
  fold_left compress (blocks (List.length p) p) init.

(** [hashlib.md5(data).digest()]: the four state words, little-endian. *)
Definition digest_of (st : state) : list byte :=
  bytes_le 4 (sA st) ++ bytes_le 4 (sB st) ++ bytes_le 4 (sC st) ++ bytes_le 4 (sD st).

Definition md5 (msg : list byte) : list byte := digest_of (final msg).

Definition hexchar (n : Z) : ascii :=
  match String.get (Z.to_nat n) "0123456789abcdef" with
  | Some c => c
  | None => "0"%char
  end.

(** [.hexdigest()]: two lower-case hexadecimal digits per byte. *)
Fixpoint hex (bs : list byte) : string :=
  match bs with
  | [] => EmptyString
  | b :: rest =>
      String (hexchar (byteZ b / 16)) (String (hexchar (byteZ b mod 16)) (hex rest))
  end.

Definition hexdigest (msg : list byte) : string := hex (md5 msg).

End Hashlib.

(** ** Builtins *)

(** [s.encode()]: the UTF-8 bytes of the text. *)
Definition encode (s : string) : list byte := list_byte_of_string s.

Definition hexval (c : ascii) : option Z :=
  let n := Z.of_N (N_of_ascii c) in
  if (48 <=? n) && (n <=? 57) then Some (n - 48)
  else if (97 <=? n) && (n <=? 102) then Some (n - 87)
  else if (65 <=? n) && (n <=? 70) then Some (n - 55)
  else None.

Fixpoint int16_from (acc : Z) (s : string) : result Z :=
  match s with
  | EmptyString => Ok acc
  | String c rest =>
      match hexval c with
      | Some d => int16_from (16 * acc + d) rest
      | None => Raise "ValueError"
      end
  end.

(** [int(s, 16)] on a string of hexadecimal digits; the empty string and any
    other character raise [ValueError] (signs, prefixes, underscores and
    blanks, which Python also reads, do not occur in a hex digest). *)
Definition int16 (s : string) : result Z :=
  match s with
  | EmptyString => Raise "ValueError"
  | _ => int16_from 0 s
  end.

(** *** Numbers *)

Definition f_0_8 : float := 0x1.999999999999ap-1%float.   (* 0.8 *)
Definition f_0_05 : float := 0x1.999999999999ap-5%float.  (* 0.05 *)

(** The exact value of a float is [sf_num x / sf_den x], with [sf_den x] a
    power of two. *)
Definition sf_num (x : spec_float) : Z :=
  match x with
  | S754_finite s m e => (if s then Z.neg m else Z.pos m) * 2 ^ Z.max e 0
  | _ => 0
  end.

Definition sf_den (x : spec_float) : Z :=
  match x with
  | S754_finite _ _ e => 2 ^ Z.max (- e) 0
  | _ => 1
  end.

(** [math.ceil(x)] of a float: an [int], exactly. *)
Definition math_ceil (x : float) : result Z :=
  match Prim2SF x with
  | S754_nan => Raise "ValueError"
  | S754_infinity _ => Raise "OverflowError"
  | v => Ok (- ((- sf_num v) / sf_den v))
  end.

Definition sf_of_Z (n : Z) : spec_float :=
  match n with
  | Z0 => S754_zero false
  | Z.pos p => S754_finite false p 0
  | Z.neg p => S754_finite true p 0
  end.

(** Conversion of an integer (a NumPy [int64], a small Python [int]) to the
    nearest float. *)
Definition float_of_Z (n : Z) : float :=
  SF2Prim (binary_normalize FloatOps.prec FloatOps.emax n 0 false).

(** [n / d] rounded to the nearest integer, ties to the even one
    ([0 <= n], [0 < d]). *)
Definition round_half_even (n d : Z) : Z :=
  let q := n / d in
  let r := n mod d in
  if 2 * r <? d then q
  else if d <? 2 * r then q + 1
  else if Z.even q then q else q + 1.

(** [a / (b * 2^e)] as a fraction of integers, and rounded to the nearest
    integer. *)
Definition scaled_num (a e : Z) : Z := a * 2 ^ Z.max (- e) 0.

Definition scaled_den (b e : Z) : Z := b * 2 ^ Z.max e 0.

Definition quotient_at (a b e : Z) : Z :=
  round_half_even (scaled_num a e) (scaled_den b e).

(** The float nearest to [a / b], for [0 < a] and [0 < b], as a mantissa
    below [2^53] and an exponent: the exponent is the one at which the
    quotient has 53 bits, or the least exponent -1074 of the format. When
    the rounding carries into a 54th bit the next exponent is taken. *)
Definition round_quotient (a b : Z) : Z * Z :=
  let e0 := Z.max (Z.log2 a - Z.log2 b - 53) (-1074) in
  let m0 := quotient_at a b e0 in
  if m0 <? 2 ^ 53 then (m0, e0)
  else
    let m1 := quotient_at a b (e0 + 1) in
    if m1 <? 2 ^ 53 then (m1, e0 + 1) else (2 ^ 52, e0 + 2).

(** [a / b] of two Python [int]s: the float nearest to the exact quotient;
    [ZeroDivisionError] when [b] is zero, [OverflowError] when the nearest
    float would be an infinity; a quotient too small for a float is a
    zero. *)
Definition truediv (a b : Z) : result float :=
  if b =? 0 then Raise "ZeroDivisionError"
  else
    let s := xorb (a <? 0) (b <? 0) in
    if a =? 0 then Ok (SF2Prim (S754_zero s))
    else
      let (m, e) := round_quotient (Z.abs a) (Z.abs b) in
      match m with
      | Z.pos p =>
          if e <=? 971 then Ok (SF2Prim (S754_finite s p e)) else Raise "OverflowError"
      | _ => Ok (SF2Prim (S754_zero s))
      end.

(** Twice the least magnitude that rounds to an infinity:
    [2 * (2^1024 - 2^970)]. *)
Definition dbl_overflow2 : Z := 2 ^ 1025 - 2 ^ 971.

(** [a / b] of two NumPy [int64] scalars: both are converted, then divided;
    a zero divisor gives an infinity or a NaN (and a warning), not an
    exception. *)
Definition np_true_divide (a b : Z) : float :=
  (float_of_Z a / float_of_Z b)%float.

(** [format(x, ".1f")]: the decimal with one digit after the point that is
    nearest to the exact value of [x]. *)
Definition format_f1 (x : float) : string :=
  match Prim2SF x with
  | S754_nan => "nan"
  | S754_infinity s => if s then "-inf" else "inf"
  | S754_zero s => if s then "-0.0" else "0.0"
  | S754_finite s m e =>
      let tenths := round_half_even (10 * (Z.pos m * 2 ^ Z.max e 0)) (2 ^ Z.max (- e) 0) in
      (if s then "-" else "") ++ pretty (tenths / 10) ++ "." ++ pretty (tenths mod 10)
  end.

(** [format(x, ".1%")], the [{x:.1%}] of an f-string: [x] times 100, as a
    float, with one digit after the point and a percent sign. *)
Definition format_percent1 (x : float) : string :=
  format_f1 (x * 100)%float ++ "%".

(** A string of digits, filled with zeros on the left up to [width]. *)
Definition pad_zeros (width : nat) (s : string) : string :=
  String.concat "" (repeat "0" (width - String.length s)%nat) ++ s.

(** [format(x, ".4f")], the [{x:.4f}] of an f-string: the decimal with four
    digits after the point that is nearest to the exact value of [x]. *)
Definition format_f4 (x : float) : string :=
  match Prim2SF x with
  | S754_nan => "nan"
  | S754_infinity s => if s then "-inf" else "inf"
  | S754_zero s => if s then "-0.0000" else "0.0000"
  | S754_finite s m e =>
      let units := round_half_even (10000 * (Z.pos m * 2 ^ Z.max e 0)) (2 ^ Z.max (- e) 0) in
      (if s then "-" else "") ++ pretty (units / 10000) ++ "."
        ++ pad_zeros 4 (pretty (units mod 10000))
  end.

(** *** Python values *)

#[local] Set Warnings "-register-all".
Inductive pyval : Type :=
| PyNone
| PyInt (n : Z)
| PyFloat (x : float)
| PyObject (attrs : list (string * pyval)).
#[local] Set Warnings "register-all".

Fixpoint assoc {A} (k : string) (l : list (string * A)) : option A :=
  match l with
  | [] => None
  | (k', v) :: rest => if String.eqb k k' then Some v else assoc k rest
  end.

Definition hasattr (v : pyval) (name : string) : bool :=
  match v with
  | PyObject attrs => match assoc name attrs with Some _ => true | None => false end
  | _ => false
  end.

Definition getattr (v : pyval) (name : string) : result pyval :=
  match v with
  | PyObject attrs =>
      match assoc name attrs with Some a => Ok a | None => Raise "AttributeError" end
  | _ => Raise "AttributeError"
  end.

(** [float(v)]. *)
Definition float_ (v : pyval) : result float :=
  match v with
  | PyFloat x => Ok x
  | PyInt n =>
      if dbl_overflow2 <=? 2 * Z.abs n then Raise "OverflowError" else Ok (float_of_Z n)
  | _ => Raise "TypeError"
  end.

(** *** pandas: [groupby(...)[...].agg(['count', 'sum'])] and [.loc] *)

(** One row of the frame: the group label and the click (0 or 1). *)
Definition row : Type := string * Z.

(** The aggregate: for each label that occurs, its (count, sum). *)
Definition groupby_agg (rows : list row) : gmap string (Z * Z) :=
  fold_left
    (fun (m : gmap string (Z * Z)) (r : row) =>
       let '(n, s) := default (0, 0) (m !! fst r) in
       <[fst r := (n + 1, s + snd r)]> m)
    rows ∅.

(** [res.loc[label, column]]. *)
Definition loc (res : gmap string (Z * Z)) (label column : string) : result Z :=
  match res !! label with
  | Some v =>
      if String.eqb column "count" then Ok (fst v)
      else if String.eqb column "sum" then Ok (snd v)
      else Raise "KeyError"
  | None => Raise "KeyError"
  end.

(** *** NumPy arrays of floats *)

(** An elementwise operation on two arrays of one shape. *)
Definition np_zip {A} (f : float -> float -> A) (a b : list float) : result (list A) :=
  if (List.length a =? List.length b)%nat then Ok (zip_with f a b)
  else Raise "ValueError".

(** [np.maximum(x, y)]: [x] when [x >= y] or [x] is a NaN, else [y]. *)
Definition np_maximum (x y : float) : float :=
  if (y <=? x)%float || negb (x =? x)%float then x else y.

(** The order in which a sum of [n] floats is bracketed: NumPy adds by
    blocks and pairs, and the order depends on its version and on the
    machine, so the model leaves it to the library. A leaf is the index of
    an element. *)
Inductive addtree : Type :=
| Leaf (i : nat)
| Plus (l r : addtree).

Fixpoint addtree_eval (xs : list float) (t : addtree) : float :=
  match t with
  | Leaf i => nth i xs 0%float
  | Plus l r => (addtree_eval xs l + addtree_eval xs r)%float
  end.

Fixpoint addtree_leaves (t : addtree) : list nat :=
  match t with
  | Leaf i => [i]
  | Plus l r => addtree_leaves l ++ addtree_leaves r
  end.

(** *** The libraries the scripts call *)

(** statsmodels and NumPy's generator are not part of the repository: the
    scripts are modelled over any implementation of them. A call may raise
    and may change the hidden state [W]. *)
Class Libs (W : Type) : Type := {
  (** [proportion_effectsize(prop1, prop2)] *)
  proportion_effectsize : float -> float -> Py W float;
  (** [NormalIndPower().solve_power(effect_size, alpha, power, ratio)] *)
  solve_power : float -> float -> float -> float -> Py W float;
  (** [NormalIndPower().power(effect_size, nobs1, alpha, ratio)] *)
  power : float -> float -> float -> float -> Py W pyval;
  (** [proportions_ztest(count, nobs)] *)
  proportions_ztest : list Z -> list Z -> Py W (float * float);
  (** [np.random.beta(a, b, size)] *)
  np_random_beta : Z -> Z -> Z -> Py W (list float);
  (** the bracketing of [np.add.reduce] on [n] floats *)
  np_add_order : nat -> addtree
}.

(** [arr.mean()] of an array of floats, empty or not. *)
Definition np_mean {W} `{Libs W} (xs : list float) : float :=
  match xs with
  | [] => (0 / 0)%float
  | _ => (addtree_eval xs (np_add_order (List.length xs)) / float_of_Z (Z.of_nat (List.length xs)))%float
  end.

(** [arr.mean()] of an array of booleans: the number of [True], as a float,
    over the size. *)
Definition np_mean_bool (bs : list bool) : float :=
  (float_of_Z (Z.of_nat (List.length (List.filter (fun b : bool => b) bs)))
   / float_of_Z (Z.of_nat (List.length bs)))%float.

(** What streamlit is asked to show. *)
Inductive st_call : Type :=
| st_success (body : string)
| st_warning (body : string)
| st_error (body : string).

(** *** Loops and frames *)

(** [range(n)]: empty when [n] is not positive. *)
Definition range (n : Z) : list Z := map Z.of_nat (seq 0 (Z.to_nat n)).

(** A loop, a comprehension or a [Series.apply] that runs [body] on each
    element in turn and collects the results; the first exception ends
    it. *)
Fixpoint for_each {W A B} (body : A -> Py W B) (xs : list A) : Py W (list B) :=
  match xs with
  | [] => ret []
  | x :: rest =>
      (y <- body x ;;
       ys <- for_each body rest ;;
       ret (y :: ys))%py
  end.

(** A record of [pd.DataFrame(records)]: a dict from column names to
    values. *)
Definition record : Type := list (string * string).

Fixpoint values (name : string) (records : list record) : result (list string) :=
  match records with
  | [] => Ok []
  | r :: rest =>
      match assoc name r, values name rest with
      | Some v, Ok vs => Ok (v :: vs)
      | _, _ => Raise "KeyError"
      end
  end.

(** [pd.DataFrame(records)[name]], for records that have the same keys, as
    those of the scripts have: the frame of an empty list has no column at
    all. *)
Definition df_column (records : list record) (name : string) : result (list string) :=
  match records with
  | [] => Raise "KeyError"
  | _ => values name records
  end.

(** The order of Python on [str], which on UTF-8 bytes is the order of the
    bytes. *)
Definition label_le (a b : string * (Z * Z)) : Prop := String.leb (fst a) (fst b) = true.

#[local] Instance label_le_dec (a b : string * (Z * Z)) : Decision (label_le a b).
Proof. unfold label_le. apply _. Defined.

(** The rows of an aggregate, by increasing label: [groupby] sorts its
    keys. *)
Definition sorted_rows (res : gmap string (Z * Z)) : list (string * (Z * Z)) :=
  merge_sort label_le (map_to_list res).

(** [res[column]]: a column of the aggregate, in the order of its rows. *)
Definition series (res : gmap string (Z * Z)) (column : string) : result (list Z) :=
  if String.eqb column "count" then Ok (map (fun kv => fst (snd kv)) (sorted_rows res))
  else if String.eqb column "sum" then Ok (map (fun kv => snd (snd kv)) (sorted_rows res))
  else Raise "KeyError".

(** *** NumPy's binomial generator and streamlit's slider *)

(** Like the libraries of [Libs], these are outside the repository; the
    value of the slider is the user's. *)
Class Host (W : Type) : Type := {
  (** [np.random.binomial(n, p)] *)
  np_random_binomial : Z -> float -> Py W Z;
  (** [st.slider(label, min_value, max_value, value)] *)
  st_slider : string -> Z -> Z -> Z -> Py W Z
}.

(** *** The sliders of the two rates *)





(** ** What the two scripts compute *)

(** The variables that the planning binds. *)
Record plan : Type := {
  p2_mde : float;
  es : float;
  req_n_per_group : float;
  req_n : Z;
  est_days : Z
}.

(** Either the two metrics are shown, or the message of the [except]. *)
Inductive planned : Type :=
| Planned (p : plan)
| PlanFailed (shown : st_call).

(** *** The names that the planning leaves behind *)

(** The suite of the planning's [try] (lines 48-52 of [ab_sim.py], 71-75 of
    [bayesian.py]) binds one name per statement; the statement that raises
    leaves its name, and the names of the statements after it, unbound for
    the rest of the script. *)
Record names : Type := {
  bound_p2_mde : option float;
  bound_es : option float;
  bound_req_n_per_group : option float;
  bound_req_n : option Z;
  bound_est_days : option Z
}.

Definition planning_names {W} {L : Libs W} (base_p mde_target : float) (dau : Z)
  : Py W names :=
  fun w =>
    let p2_mde := (base_p * (1 + mde_target))%float in
    match proportion_effectsize p2_mde base_p w with
    | (Raise _, w1) =>
        (Ok {| bound_p2_mde := Some p2_mde; bound_es := None;
               bound_req_n_per_group := None; bound_req_n := None;
               bound_est_days := None |}, w1)
    | (Ok es, w1) =>
        match solve_power es f_0_05 f_0_8 1%float w1 with
        | (Raise _, w2) =>
            (Ok {| bound_p2_mde := Some p2_mde; bound_es := Some es;
                   bound_req_n_per_group := None; bound_req_n := None;
                   bound_est_days := None |}, w2)
        | (Ok req_n_per_group, w2) =>
            match math_ceil (req_n_per_group * 2)%float with
            | Raise _ =>
                (Ok {| bound_p2_mde := Some p2_mde; bound_es := Some es;
                       bound_req_n_per_group := Some req_n_per_group;
                       bound_req_n := None; bound_est_days := None |}, w2)
            | Ok req_n =>
                match match truediv req_n dau with
                      | Ok days => math_ceil days
                      | Raise e => Raise e
                      end with
                | Raise _ =>
                    (Ok {| bound_p2_mde := Some p2_mde; bound_es := Some es;
                           bound_req_n_per_group := Some req_n_per_group;
                           bound_req_n := Some req_n; bound_est_days := None |}, w2)
                | Ok est_days =>
                    (Ok {| bound_p2_mde := Some p2_mde; bound_es := Some es;
                           bound_req_n_per_group := Some req_n_per_group;
                           bound_req_n := Some req_n;
                           bound_est_days := Some est_days |}, w2)
                end
            end
        end
    end.

(** The value of a name; [NameError] when it is not bound. *)
Definition name {W A} (binding : option A) : Py W A :=
  match binding with
  | Some a => ret a
  | None => throw "NameError"
  end.

(** The two variables of the audit. *)
Record audit_state : Type := { score : Z; audit_log : list string }.

(** ** ab_sim.py *)

Module AbSim.

Definition get_group {W} (user_id layer_name salt : string) : Py W string :=
  (let input_str := user_id ++ "_" ++ layer_name ++ "_" ++ salt in
   hash_val <- lift (int16 (Hashlib.hexdigest (encode input_str))) ;;
   ret (if hash_val mod 100 <? 50 then "A" else "B"))%py.

(** *** Planning (lines 46-62) *)

Definition plan_body {W} `{Libs W} (base_p mde_target : float) (dau : Z) : Py W plan :=
  (let p2_mde := (base_p * (1 + mde_target))%float in
   es <- proportion_effectsize p2_mde base_p ;;
   req_n_per_group <- solve_power es f_0_05 f_0_8 1%float ;;
   req_n <- lift (math_ceil (req_n_per_group * 2)%float) ;;
   days <- lift (truediv req_n dau) ;;
   est_days <- lift (math_ceil days) ;;
   ret {| p2_mde := p2_mde; es := es; req_n_per_group := req_n_per_group;
          req_n := req_n; est_days := est_days |})%py.

Definition planning {W} `{Libs W} (base_p mde_target : float) (dau : Z) : Py W planned :=
  try_except
    (p <- plan_body base_p mde_target dau ;; ret (Planned p))%py
    (ret (PlanFailed (st_error "计算失败，请调整参数。"))).

(** *** Observed rates and lift (lines 99-102) *)

Record stats : Type := {
  ca : float;
  cb : float;
  obs_lift : pyval;
  z : float;
  p_val : float
}.

Definition analysis {W} `{Libs W} (res : gmap string (Z * Z)) : Py W stats :=
  (a_sum <- lift (loc res "A" "sum") ;;
   a_count <- lift (loc res "A" "count") ;;
   b_sum <- lift (loc res "B" "sum") ;;
   b_count <- lift (loc res "B" "count") ;;
   let ca := np_true_divide a_sum a_count in
   let cb := np_true_divide b_sum b_count in
   let obs_lift := if (0 <? ca)%float then PyFloat (cb / ca - 1)%float else PyInt 0 in
   b_sum' <- lift (loc res "B" "sum") ;;
   a_sum' <- lift (loc res "A" "sum") ;;
   b_count' <- lift (loc res "B" "count") ;;
   a_count' <- lift (loc res "A" "count") ;;
   zp <- proportions_ztest [b_sum'; a_sum'] [b_count'; a_count'] ;;
   ret {| ca := ca; cb := cb; obs_lift := obs_lift; z := fst zp; p_val := snd zp |})%py.

(** *** Power at the live sample size (lines 105-109) *)

(** The suite of the [try]. *)
Definition power_try {W} `{Libs W} (es : float) (current_n : Z) : Py W float :=
  (nobs1 <- lift (truediv current_n 2) ;;
   raw_p <- power es nobs1 f_0_05 1%float ;;
   if hasattr raw_p "power"
   then (a <- lift (getattr raw_p "power") ;; lift (float_ a))
   else lift (float_ raw_p))%py.

Definition curr_power {W} `{Libs W} (es : float) (current_n : Z) : Py W float :=
  try_except (power_try es current_n) (ret 0%float).

(** *** The audit (lines 112-146) *)

Definition sample_check {W} (current_n req_n : Z) (st : audit_state) : Py W audit_state :=
  (if current_n >=? req_n
   then ret {| score := score st + 40;
               audit_log := audit_log st ++ ["✅ **样本充足**：已达到排期要求，规避了‘偷看问题’。"] |}
   else
     ratio <- lift (truediv current_n req_n) ;;
     ret {| score := score st;
            audit_log := audit_log st ++
              ["❌ **样本不足**：仅完成 " ++ format_percent1 ratio ++ "。此时的显著性可能只是随机波动。"] |})%py.

Definition power_check {W} (curr_power : float) (st : audit_state) : Py W audit_state :=
  if (f_0_8 <=? curr_power)%float
  then ret {| score := score st + 30;
              audit_log := audit_log st ++ ["✅ **功效充足**：探测器功率达标，观察到的提升值相对稳健。"] |}
  else ret {| score := score st;
              audit_log := audit_log st ++
                ["❌ **低功效警告**：Power 仅 " ++ format_percent1 curr_power ++ "。小心‘赢家诅咒’（虚高收益）。"] |}.

Definition significance_check {W} (p_val : float) (st : audit_state) : Py W audit_state :=
  if (p_val <? f_0_05)%float
  then ret {| score := score st + 30;
              audit_log := audit_log st ++ ["✅ **结果显著**：P 值低于 0.05，拒绝零假设。"] |}
  else ret {| score := score st;
              audit_log := audit_log st ++ ["❌ **不显著**：数据差异在随机误差范围内。"] |}.

Definition audit {W} (current_n req_n : Z) (curr_power p_val : float) : Py W audit_state :=
  (st1 <- sample_check current_n req_n {| score := 0; audit_log := [] |} ;;
   st2 <- power_check curr_power st1 ;;
   significance_check p_val st2)%py.

Definition verdict (score : Z) : st_call :=
  if score =? 100 then st_success "💎 高可信度：建议采纳结论"
  else if score >=? 70 then st_warning "⚠️ 中可信度：谨慎参考，建议补跑"
  else st_error "🚫 低可信度：结论无效，禁止决策".

(** *** The AA self-check (lines 69-80) *)

Definition aa_report (p_aa : float) : st_call :=
  if (p_aa <? f_0_05)%float
  then st_error ("🚨 AA失败 (P=" ++ format_f4 p_aa ++ ")：两组天生就有差异！此时的AB结论不可信。")
  else st_success ("✅ AA通过 (P=" ++ format_f4 p_aa ++ ")：分流公平，实验环境纯净。").

(** The suite of [if st.button(...)]. *)
Definition aa_check {W} {L : Libs W} {T : Host W}
    (nm : names) (salt_1 : string) (base_p : float) : Py W st_call :=
  (req_n <- name (bound_req_n nm) ;;
   let aa_n := Z.min req_n 5000 in
   aa_users <- for_each
                 (fun i =>
                    g <- get_group ("u_" ++ pretty i) "L1" salt_1 ;;
                    ret [("ID", "u_" ++ pretty i); ("G", g)])
                 (range aa_n) ;;
   g_col <- lift (df_column aa_users "G") ;;
   c_col <- for_each (fun _ => np_random_binomial 1 base_p) g_col ;;
   let aa_res := groupby_agg (combine g_col c_col) in
   sums <- lift (series aa_res "sum") ;;
   counts <- lift (series aa_res "count") ;;
   zp <- proportions_ztest (rev sums) (rev counts) ;;
   ret (aa_report (snd zp)))%py.

(** *** The days run and the simulated traffic (lines 85-99) *)

Definition days_run {W} {T : Host W} (nm : names) : Py W Z :=
  (est_days <- name (bound_est_days nm) ;;
   let max_value := Z.max 30 (est_days + 7) in
   est_days' <- name (bound_est_days nm) ;;
   let value := Z.min 7 est_days' in
   st_slider "实验已运行天数" 1 max_value value)%py.

Definition user_data {W} (salt_1 salt_2 : string) (current_n : Z) : Py W (list record) :=
  for_each
    (fun i =>
       let uid := "user_" ++ pretty i in
       g1 <- get_group uid "L1" salt_1 ;;
       g2 <- get_group uid "L2" salt_2 ;;
       ret [("ID", uid); ("L1", g1); ("L2", g2)])%py
    (range current_n).

(** [df_ab], its column of clicks, and the aggregate [res]. *)
Definition live_data {W} {T : Host W}
    (salt_1 salt_2 : string) (base_p true_lift : float) (current_n : Z)
  : Py W (gmap string (Z * Z)) :=
  (user_data <- user_data salt_1 salt_2 current_n ;;
   labels <- lift (df_column user_data "L1") ;;
   click <- for_each
              (fun x =>
                 np_random_binomial 1
                   (if String.eqb x "B" then (base_p * (1 + true_lift))%float else base_p))
              labels ;;
   ret (groupby_agg (combine labels click)))%py.

(** *** The script, from the planning to the verdict *)

(** The values of the widgets of lines 24-44 and of the button of
    line 69. *)
Record inputs : Type := {
  dau : Z;
  base_p : float;
  salt_1 : string;
  salt_2 : string;
  true_lift : float;
  mde_target : float;
  aa_button : bool
}.

(** What a run that reaches its end has computed and shown. *)
Record report : Type := {
  aa_shown : option st_call;
  days : Z;
  live_n : Z;
  observed : stats;
  live_power : float;
  audited : audit_state;
  verdict_shown : st_call
}.

Definition script {W} {L : Libs W} {T : Host W} (i : inputs) : Py W report :=
  (nm <- planning_names (base_p i) (mde_target i) (dau i) ;;
   aa <- (if aa_button i
          then (shown <- aa_check nm (salt_1 i) (base_p i) ;; ret (Some shown))
          else ret None) ;;
   days_run <- days_run nm ;;
   let current_n := dau i * days_run in
   res <- live_data (salt_1 i) (salt_2 i) (base_p i) (true_lift i) current_n ;;
   st <- analysis res ;;
   curr_power <- try_except (es <- name (bound_es nm) ;; power_try es current_n)
                   (ret 0%float) ;;
   req_n <- name (bound_req_n nm) ;;
   a <- audit current_n req_n curr_power (p_val st) ;;
   ret {| aa_shown := aa; days := days_run; live_n := current_n; observed := st;
          live_power := curr_power; audited := a; verdict_shown := verdict (score a) |})%py.

End AbSim.

(** ** bayesian.py *)

Module Bayesian.

Definition get_group {W} (user_id layer_name salt : string) : Py W string :=
  (let input_str := user_id ++ "_" ++ layer_name ++ "_" ++ salt in
   hash_val <- lift (int16 (Hashlib.hexdigest (encode input_str))) ;;
   ret (if hash_val mod 100 <? 50 then "A" else "B"))%py.

Definition run_bayesian_analysis {W} `{Libs W} (c_clicks c_n t_clicks t_n : Z)
  : Py W (float * float) :=
  (let alpha_a := 1 + c_clicks in
   let beta_a := 1 + c_n - c_clicks in
   let alpha_b := 1 + t_clicks in
   let beta_b := 1 + t_n - t_clicks in
   let samples := 20000 in
   a_samples <- np_random_beta alpha_a beta_a samples ;;
   b_samples <- np_random_beta alpha_b beta_b samples ;;
   b_wins <- lift (np_zip (fun b a => (a <? b)%float) b_samples a_samples) ;;
   let prob_b_better := np_mean_bool b_wins in
   diff <- lift (np_zip (fun a b => (a - b)%float) a_samples b_samples) ;;
   let expected_loss := np_mean (map (fun d => np_maximum d 0%float) diff) in
   ret (prob_b_better, expected_loss))%py.

(** *** Planning (lines 69-85) *)

Definition plan_body {W} `{Libs W} (base_p mde_target : float) (dau : Z) : Py W plan :=
  (let p2_mde := (base_p * (1 + mde_target))%float in
   es <- proportion_effectsize p2_mde base_p ;;
   req_n_per_group <- solve_power es f_0_05 f_0_8 1%float ;;
   req_n <- lift (math_ceil (req_n_per_group * 2)%float) ;;
   days <- lift (truediv req_n dau) ;;
   est_days <- lift (math_ceil days) ;;
   ret {| p2_mde := p2_mde; es := es; req_n_per_group := req_n_per_group;
          req_n := req_n; est_days := est_days |})%py.

Definition planning {W} `{Libs W} (base_p mde_target : float) (dau : Z) : Py W planned :=
  try_except
    (p <- plan_body base_p mde_target dau ;; ret (Planned p))%py
    (ret (PlanFailed (st_error "计算失败，请调整参数。"))).

(** *** The two engines (lines 118-138) and the observed lift (line 192) *)

Record stats : Type := {
  z : float;
  p_val : float;
  prob_b_wins : float;
  exp_loss : float;
  obs_lift : float
}.

(** Line 192. *)
Definition observed_lift (ca_n ca_s cb_n cb_s : Z) : float :=
  (np_true_divide cb_s cb_n / np_true_divide ca_s ca_n - 1)%float.

Definition analysis {W} `{Libs W} (res : gmap string (Z * Z)) : Py W stats :=
  (ca_n <- lift (loc res "A" "count") ;;
   ca_s <- lift (loc res "A" "sum") ;;
   cb_n <- lift (loc res "B" "count") ;;
   cb_s <- lift (loc res "B" "sum") ;;
   zp <- proportions_ztest [cb_s; ca_s] [cb_n; ca_n] ;;
   bayes <- run_bayesian_analysis ca_s ca_n cb_s cb_n ;;
   let obs_lift := observed_lift ca_n ca_s cb_n cb_s in
   ret {| z := fst zp; p_val := snd zp; prob_b_wins := fst bayes; exp_loss := snd bayes;
          obs_lift := obs_lift |})%py.

(** *** Power at the live sample size (lines 152-156) *)

(** The suite of the [try]. *)
Definition power_try {W} `{Libs W} (es : float) (current_n : Z) : Py W float :=
  (nobs1 <- lift (truediv current_n 2) ;;
   raw_p <- power es nobs1 f_0_05 1%float ;;
   if hasattr raw_p "power"
   then (a <- lift (getattr raw_p "power") ;; lift (float_ a))
   else lift (float_ raw_p))%py.

Definition curr_power {W} `{Libs W} (es : float) (current_n : Z) : Py W float :=
  try_except (power_try es current_n) (ret 0%float).

(** *** The audit (lines 158-184) *)

Definition sample_check {W} (current_n req_n : Z) (st : audit_state) : Py W audit_state :=
  (if current_n >=? req_n
   then ret {| score := score st + 40;
               audit_log := audit_log st ++ ["✅ **样本充足**：已跑满排期，规避了‘偷看问题’。"] |}
   else
     ratio <- lift (truediv current_n req_n) ;;
     ret {| score := score st;
            audit_log := audit_log st ++
              ["❌ **样本不足**：仅完成预测量的 " ++ format_percent1 ratio ++ "。"] |})%py.

Definition power_check {W} (curr_power : float) (st : audit_state) : Py W audit_state :=
  if (f_0_8 <=? curr_power)%float
  then ret {| score := score st + 30;
              audit_log := audit_log st ++ ["✅ **功效充足**：探测器功率达标，观察值趋于真相。"] |}
  else ret {| score := score st;
              audit_log := audit_log st ++
                ["❌ **低功效警告**：Power 仅 " ++ format_percent1 curr_power ++ "。小心‘赢家诅咒’。"] |}.

(** No [else] here: a result that is not significant adds nothing. *)
Definition significance_check {W} (p_val : float) (st : audit_state) : Py W audit_state :=
  if (p_val <? f_0_05)%float
  then ret {| score := score st + 30;
              audit_log := audit_log st ++ ["✅ **频率派显著**：证据强度达标。"] |}
  else ret st.

Definition audit {W} (current_n req_n : Z) (curr_power p_val : float) : Py W audit_state :=
  (st1 <- sample_check current_n req_n {| score := 0; audit_log := [] |} ;;
   st2 <- power_check curr_power st1 ;;
   significance_check p_val st2)%py.

Definition verdict (score : Z) : st_call :=
  if score =? 100 then st_success "💎 极高可信度：直接下结论"
  else if score >=? 70 then st_warning "⚠️ 中度可信：建议结合业务风险决策"
  else st_error "🚫 低可信度：拒绝决策".

(** *** The AA self-check (lines 90-101) *)

Definition aa_report (p_aa : float) : st_call :=
  if (p_aa <? f_0_05)%float
  then st_error ("🚨 AA失败 (P=" ++ format_f4 p_aa ++ ")：分流器不公平！此时结论不可信。")
  else st_success ("✅ AA通过 (P=" ++ format_f4 p_aa ++ ")：分流公平，实验环境纯净。").

(** The suite of [if st.button(...)]. *)
Definition aa_check {W} {L : Libs W} {T : Host W}
    (nm : names) (salt_1 : string) (base_p : float) : Py W st_call :=
  (req_n <- name (bound_req_n nm) ;;
   let aa_n := Z.min req_n 5000 in
   aa_users <- for_each
                 (fun i =>
                    g <- get_group ("u_" ++ pretty i) "L1" salt_1 ;;
                    ret [("ID", "u_" ++ pretty i); ("G", g)])
                 (range aa_n) ;;
   g_col <- lift (df_column aa_users "G") ;;
   c_col <- for_each (fun _ => np_random_binomial 1 base_p) g_col ;;
   let aa_res := groupby_agg (combine g_col c_col) in
   sums <- lift (series aa_res "sum") ;;
   counts <- lift (series aa_res "count") ;;
   zp <- proportions_ztest (rev sums) (rev counts) ;;
   ret (aa_report (snd zp)))%py.

(** *** The days run and the simulated traffic (lines 106-118) *)

Definition days_run {W} {T : Host W} (nm : names) : Py W Z :=
  (est_days <- name (bound_est_days nm) ;;
   let max_value := Z.max 30 (est_days + 7) in
   est_days' <- name (bound_est_days nm) ;;
   let value := Z.min 7 est_days' in
   st_slider "实验已运行天数" 1 max_value value)%py.

Definition user_data {W} (salt_1 : string) (current_n : Z) : Py W (list record) :=
  for_each
    (fun i =>
       let uid := "user_" ++ pretty i in
       g1 <- get_group uid "L1" salt_1 ;;
       ret [("ID", uid); ("G", g1)])%py
    (range current_n).

(** [df_ab], its column of clicks, and the aggregate [res]. *)
Definition live_data {W} {T : Host W}
    (salt_1 : string) (base_p true_lift : float) (current_n : Z)
  : Py W (gmap string (Z * Z)) :=
  (user_data <- user_data salt_1 current_n ;;
   labels <- lift (df_column user_data "G") ;;
   click <- for_each
              (fun x =>
                 np_random_binomial 1
                   (if String.eqb x "B" then (base_p * (1 + true_lift))%float else base_p))
              labels ;;
   ret (groupby_agg (combine labels click)))%py.

(** *** The two panels (lines 128-147) *)

Definition f_0_95 : float := 0x1.e666666666666p-1%float.  (* 0.95 *)

Definition frequentist_panel (p_val : float) : st_call :=
  if (p_val <? f_0_05)%float
  then st_success "✅ 结论显著！可以拒绝原假设。"
  else st_error "❌ 不显著。差异可能来自随机波动。".

Definition bayesian_panel (prob_b_wins : float) : st_call :=
  if (f_0_95 <? prob_b_wins)%float
  then st_success "✅ 信心充足！B 组大概率真的更好。"
  else st_warning "⚠️ 信心尚早。虽然可能占优，但仍有风险。".

(** *** The script, from the planning to the verdict *)

(** The values of the widgets of lines 46-67 and of the button of
    line 90. *)
Record inputs : Type := {
  dau : Z;
  base_p : float;
  salt_1 : string;
  salt_2 : string;
  true_lift : float;
  mde_target : float;
  aa_button : bool
}.

(** What a run that reaches its end has computed and shown. *)
Record report : Type := {
  aa_shown : option st_call;
  days : Z;
  live_n : Z;
  observed : stats;
  frequentist_shown : st_call;
  bayesian_shown : st_call;
  live_power : float;
  audited : audit_state;
  verdict_shown : st_call
}.

Definition script {W} {L : Libs W} {T : Host W} (i : inputs) : Py W report :=
  (nm <- planning_names (base_p i) (mde_target i) (dau i) ;;
   aa <- (if aa_button i
          then (shown <- aa_check nm (salt_1 i) (base_p i) ;; ret (Some shown))
          else ret None) ;;
   days_run <- days_run nm ;;
   let current_n := dau i * days_run in
   res <- live_data (salt_1 i) (base_p i) (true_lift i) current_n ;;
   st <- analysis res ;;
   curr_power <- try_except (es <- name (bound_es nm) ;; power_try es current_n)
                   (ret 0%float) ;;
   req_n <- name (bound_req_n nm) ;;
   a <- audit current_n req_n curr_power (p_val st) ;;
   ret {| aa_shown := aa; days := days_run; live_n := current_n; observed := st;
          frequentist_shown := frequentist_panel (p_val st);
          bayesian_shown := bayesian_panel (prob_b_wins st);
          live_power := curr_power; audited := a; verdict_shown := verdict (score a) |})%py.

End Bayesian.

(** ** The spec's reading of the bucketing *)

(** A digest read as one unsigned integer, first byte most significant. *)
Definition unsigned_be (bs : list byte) : Z :=
  fold_left (fun acc b => 256 * acc + Hashlib.byteZ b) bs 0.

(** The assignment in the spec's words: join the three inputs, digest,
    read the digest as an unsigned integer, reduce modulo 100, compare with
    the threshold 50 of the even split. *)
Definition assign_spec (subject_id layer_name salt : string) : string :=
  let digest := Hashlib.md5 (encode (subject_id ++ "_" ++ layer_name ++ "_" ++ salt)) in
  let reduced := unsigned_be digest mod 100 in
  if reduced <? 50 then "A" else "B".

(** The three levels of the verdict: the success banner is the high
    confidence, the warning the medium one, the error the low one. *)
Inductive confidence : Type := High | Medium | Low.

Definition confidence_of (shown : st_call) : confidence :=
  match shown with
  | st_success _ => High
  | st_warning _ => Medium
  | st_error _ => Low
  end.

(** The score in the spec's words: the sum of the weights of the checks
    that pass. *)
Definition score_spec (live_n required_n : Z) (power_at_live_n p_value : float) : Z :=
  (if live_n >=? required_n then 40 else 0)
  + (if (f_0_8 <=? power_at_live_n)%float then 30 else 0)
  + (if (p_value <? f_0_05)%float then 30 else 0).

(** [k] is the least integer not below the fraction [num / den]. *)
Definition is_ceiling (k num den : Z) : Prop :=
  (k - 1) * den < num <= k * den.

(** A float that is a number: neither a NaN nor an infinity. *)
Definition is_finite (x : float) : bool :=
  match Prim2SF x with
  | S754_nan | S754_infinity _ => false
  | _ => true
  end.

(** A float that is a number with the sign [s], zero and infinities
    included. *)
Definition has_sign (s : bool) (v : spec_float) : Prop :=
  match v with
  | S754_zero s' | S754_infinity s' | S754_finite s' _ _ => s' = s
  | S754_nan => False
  end.

(** A float that is not negative: a zero of either sign, a positive
    number, the positive infinity. *)
Definition sf_nonneg (v : spec_float) : Prop :=
  match v with
  | S754_zero _ | S754_infinity false | S754_finite false _ _ => True
  | _ => False
  end.

Definition sf_number (v : spec_float) : Prop :=
  match v with S754_nan => False | _ => True end.


(** A draw of a Beta distribution: a float between 0 and 1. *)
Definition in_unit (x : float) : bool := (0 <=? x)%float && (x <=? 1)%float.

(** [f] holds on the [n] integers from [k] on. *)
Fixpoint all_from (f : Z -> bool) (k : Z) (n : nat) : bool :=
  match n with
  | O => true
  | S n' => f k && all_from f (Z.succ k) n'
  end.

(** What the scripts rely on from NumPy's generator: with positive
    parameters [np.random.beta(a, b, size)] returns [size] draws, each
    between 0 and 1. *)
Class NumpyContract {W} (L : Libs W) : Prop := {
  beta_draws :
    forall (a b size : Z) (w : W),
      0 < a -> 0 < b -> 0 <= size ->
      exists xs w',
        np_random_beta a b size w = (Ok xs, w') /\
        Z.of_nat (List.length xs) = size /\
        Forall (fun x => in_unit x = true) xs;
  add_order_leaves :
    forall n : nat, (0 < n)%nat -> Permutation (addtree_leaves (np_add_order n)) (seq 0 n)
}.

(** The observations of a group: how many, and how many clicks. *)
Definition count_of (label : string) (rows : list row) : Z :=
  Z.of_nat (List.length (List.filter (fun r : row => String.eqb (fst r) label) rows)).

Definition sum_of (label : string) (rows : list row) : Z :=
  fold_right Z.add 0 (map snd (List.filter (fun r : row => String.eqb (fst r) label) rows)).

(** The number of paired draws in which B's draw exceeds A's. *)
Definition b_wins_count (a_samples b_samples : list float) : Z :=
  Z.of_nat (List.length (List.filter (fun ab => (fst ab <? snd ab)%float)
                           (combine a_samples b_samples))).

(** The loss of one paired draw when B is chosen: [max(a - b, 0)]. *)
Definition loss_of_draw (a b : float) : float := np_maximum (a - b)%float 0%float.

(** ** Libraries with canned answers *)

(** A summation that adds the elements from left to right. *)
Fixpoint left_order (n : nat) : addtree :=
  match n with
  | O => Leaf 0
  | S O => Leaf 0
  | S (S k as m) => Plus (left_order m) (Leaf m)
  end.

(** The answers of the libraries in one run of a script. *)
Record answers : Type := {
  ans_effectsize : result float;
  ans_solve_power : result float;
  ans_power : result pyval;
  ans_ztest : result (float * float);
  ans_beta : Z -> Z -> Z -> result (list float)
}.

(** Libraries that give the canned answers and keep no state. *)
Definition canned (a : answers) : Libs unit := {|
  proportion_effectsize := fun _ _ => lift (ans_effectsize a);
  solve_power := fun _ _ _ _ => lift (ans_solve_power a);
  power := fun _ _ _ _ => lift (ans_power a);
  proportions_ztest := fun _ _ => lift (ans_ztest a);
  np_random_beta := fun a_ b_ size => lift (ans_beta a a_ b_ size);
  np_add_order := left_order
|}.

Definition no_answers : answers := {|
  ans_effectsize := Raise "RuntimeError";
  ans_solve_power := Raise "RuntimeError";
  ans_power := Raise "RuntimeError";
  ans_ztest := Raise "RuntimeError";
  ans_beta := fun _ _ _ => Raise "RuntimeError"
|}.

(** A run in which the power computation raises. *)
Definition power_fails : answers := {|
  ans_effectsize := ans_effectsize no_answers;
  ans_solve_power := ans_solve_power no_answers;
  ans_power := Raise "ValueError";
  ans_ztest := ans_ztest no_answers;
  ans_beta := ans_beta no_answers
|}.

(** A run in which the power computed is 0.0. *)
Definition power_zero : answers := {|
  ans_effectsize := ans_effectsize no_answers;
  ans_solve_power := ans_solve_power no_answers;
  ans_power := Ok (PyFloat 0);
  ans_ztest := ans_ztest no_answers;
  ans_beta := ans_beta no_answers
|}.

(** A run of the planning at baseline 0.10 and target 0.05: the effect size
    is about 0.0165 and the power solve gives about 57755.78 per group. *)
Definition plan_example : answers := {|
  ans_effectsize := Ok 0x1.0e1c38925acap-6%float;
  ans_solve_power := Ok 0x1.c3378f9a0e933p+15%float;
  ans_power := ans_power no_answers;
  ans_ztest := ans_ztest no_answers;
  ans_beta := ans_beta no_answers
|}.

(** A generator that draws 0.25 from a Beta whose first parameter is the
    smaller one and 0.75 otherwise. *)
Definition crude_beta (a b size : Z) : result (list float) :=
  if (0 <? a) && (0 <? b)
  then Ok (repeat (if a <? b then 0.25%float else 0.75%float) (Z.to_nat size))
  else Raise "ValueError".

(** A run of the analysis of [bayesian.py] on two groups of two
    observations. *)
Definition small_run : answers := {|
  ans_effectsize := ans_effectsize no_answers;
  ans_solve_power := ans_solve_power no_answers;
  ans_power := ans_power no_answers;
  ans_ztest := Ok (0x1.279a74590331dp+0, 0x1.fc5723859c08p-3)%float;
  ans_beta := crude_beta
|}.

(** ** The names bound by the planning *)

(** The names after a planning that ran to its end. *)
Definition names_of (p : plan) : names := {|
  bound_p2_mde := Some (p2_mde p);
  bound_es := Some (es p);
  bound_req_n_per_group := Some (req_n_per_group p);
  bound_req_n := Some (req_n p);
  bound_est_days := Some (est_days p)
|}.

(** What the planning shows, from the names it has bound: the metrics of
    the plan when the last name is bound, else the message of the
    [except]. *)
Definition planned_of (nm : names) : planned :=
  match bound_p2_mde nm, bound_es nm, bound_req_n_per_group nm, bound_req_n nm,
        bound_est_days nm with
  | Some p2_mde, Some es, Some req_n_per_group, Some req_n, Some est_days =>
      Planned {| p2_mde := p2_mde; es := es; req_n_per_group := req_n_per_group;
                 req_n := req_n; est_days := est_days |}
  | _, _, _, _, _ => PlanFailed (st_error "计算失败，请调整参数。")
  end.

(** ** The simulated traffic *)

(** What the scripts rely on from NumPy's binomial generator: a draw of
    [n] trials is a count between 0 and [n]. *)
Class BinomialContract {W} (T : Host W) : Prop := {
  binomial_range :
    forall (n : Z) (p : float) (w w' : W) (k : Z),
      np_random_binomial n p w = (Ok k, w') -> 0 <= k <= n
}.

(** The record of the simulated user [i] in [ab_sim.py] and in
    [bayesian.py], with the variants of the bucketing. *)
Definition absim_user (salt_1 salt_2 : string) (i : Z) : record :=
  [("ID", "user_" ++ pretty i);
   ("L1", assign_spec ("user_" ++ pretty i) "L1" salt_1);
   ("L2", assign_spec ("user_" ++ pretty i) "L2" salt_2)].

Definition bayesian_user (salt_1 : string) (i : Z) : record :=
  [("ID", "user_" ++ pretty i);
   ("G", assign_spec ("user_" ++ pretty i) "L1" salt_1)].

(** The observations of a group in an aggregate: none when the group has
    no row. *)
Definition group_count (res : gmap string (Z * Z)) (label : string) : Z :=
  match res !! label with
  | Some v => fst v
  | None => 0
  end.

(** A float that is a NaN. *)
Definition is_nan (x : float) : Prop := Prim2SF x = S754_nan.

(** A first run of a script: the slider gives its default value; the
    generator draws a click when the rate is above 0.1. *)
Definition first_run : Host unit := {|
  np_random_binomial := fun n p =>
    if n <? 0 then throw "ValueError"
    else ret (if (0x1.999999999999ap-4 <? p)%float then n else 0);
  st_slider := fun _ _ _ value => ret value
|}.

(** The labels of the column that the scripts group by: the variant of
    each simulated user in layer "L1"; no column when there is no user. *)
Definition live_labels (salt_1 : string) (current_n : Z) : result (list string) :=
  match range current_n with
  | [] => Raise "KeyError"
  | _ => Ok (map (fun i => assign_spec ("user_" ++ pretty i) "L1" salt_1) (range current_n))
  end.

(** The clicks drawn for a column of labels, and their aggregate. *)
Definition aggregate_of {W} {T : Host W} (base_p true_lift : float)
    (labels : result (list string)) : Py W (gmap string (Z * Z)) :=
  (l1 <- lift labels ;;
   click <- for_each
              (fun x =>
                 np_random_binomial 1
                   (if String.eqb x "B" then (base_p * (1 + true_lift))%float else base_p))
              l1 ;;
   ret (groupby_agg (combine l1 click)))%py.

(** The figures of the groups that have observations, those of "B"
    first. *)
Definition b_first (f : string -> list row -> Z) (rows : list row) : list Z :=
  (if 0 <? count_of "B" rows then [f "B" rows] else [])
  ++ (if 0 <? count_of "A" rows then [f "A" rows] else []).

(** The variants of the users of the AA check. *)
Definition aa_labels (salt_1 : string) (req_n : Z) : list string :=
  map (fun i => assign_spec ("u_" ++ pretty i) "L1" salt_1) (range (Z.min req_n 5000)).

(** A run in which every library answers: the planning of [plan_example],
    a power of 0.9, a z-test of p-value 0.01, and the draws of
    [crude_beta]. *)
Definition full_run : answers := {|
  ans_effectsize := ans_effectsize plan_example;
  ans_solve_power := ans_solve_power plan_example;
  ans_power := Ok (PyFloat 0x1.ccccccccccccdp-1%float);
  ans_ztest := Ok (0x1.4p+1, 0x1.47ae147ae147bp-7)%float;
  ans_beta := crude_beta
|}.

(** The AA check after the lookup of [req_n]: the variants of the users,
    one draw at the baseline rate for each, and the z-test on the figures
    of the groups, those of "B" first. *)
Definition aa_core {W} {L : Libs W} {T : Host W} (report : float -> st_call)
    (req_n : Z) (salt_1 : string) (base_p : float) : Py W st_call :=
  (labels <- lift (match range (Z.min req_n 5000) with
                   | [] => Raise "KeyError"
                   | _ => Ok (aa_labels salt_1 req_n)
                   end) ;;
   clicks <- for_each (fun _ => np_random_binomial 1 base_p) labels ;;
   zp <- proportions_ztest (b_first sum_of (combine labels clicks))
           (b_first count_of (combine labels clicks)) ;;
   ret (report (snd zp)))%py.

(** * Properties *)

(** ** Bucketing *)

Example md5_empty : Hashlib.hexdigest (encode "") = "d41d8cd98f00b204e9800998ecf8427e".
Proof. vm_compute. reflexivity. Qed.

Example md5_abc : Hashlib.hexdigest (encode "abc") = "900150983cd24fb0d6963f7d28e17f72".
Proof. vm_compute. reflexivity. Qed.

Example md5_two_blocks :
  Hashlib.hexdigest (encode "aaaaaaaaaaaaaaaaaaaaaaaaaaaaaaaaaaaaaaaaaaaaaaaaaaaaaaaa")
  = "3b0c8ac703f828b04c6c197006d17218".
Proof. vm_compute. reflexivity. Qed.

Example get_group_user_0 :
  AbSim.get_group "user_0" "L1" "UI_EXP" tt = (Ok "B", tt).
Proof. vm_compute. reflexivity. Qed.

Example get_group_user_3 :
  AbSim.get_group "user_3" "L1" "UI_EXP" tt = (Ok "A", tt).
Proof. vm_compute. reflexivity. Qed.

Lemma byteZ_range (b : byte) : 0 <= Hashlib.byteZ b < 256.
Proof.
  unfold Hashlib.byteZ. pose proof (Byte.to_N_bounded b) as Hb.
  split; [apply N2Z.is_nonneg |].
  change 256 with (Z.of_N 256). apply N2Z.inj_lt. lia.
Qed.

Lemma hexval_hexchar (n : Z) : 0 <= n < 16 -> hexval (Hashlib.hexchar n) = Some n.
Proof.
  intros Hn.
  rewrite <- (Z2Nat.id n) by lia.
  assert (Hk : (Z.to_nat n < 16)%nat) by lia.
  revert Hk. generalize (Z.to_nat n) as k. clear n Hn. intros k Hk.
  do 16 (destruct k as [| k]; [reflexivity |]). lia.
Qed.

Lemma int16_from_hex (bs : list byte) (acc : Z) :
  int16_from acc (Hashlib.hex bs)
  = Ok (fold_left (fun a b => 256 * a + Hashlib.byteZ b) bs acc).
Proof.
  revert acc. induction bs as [| b bs IH]; intros acc; [reflexivity |].
  pose proof (byteZ_range b) as Hb.
  cbn [Hashlib.hex int16_from fold_left].
  rewrite hexval_hexchar by (split; [apply Z.div_pos | apply Z.div_lt_upper_bound]; lia).
  rewrite hexval_hexchar by (apply Z.mod_pos_bound; lia).
  rewrite IH. do 2 f_equal.
  pose proof (Z.div_mod (Hashlib.byteZ b) 16). lia.
Qed.

Lemma int16_hex (bs : list byte) :
  bs <> [] -> int16 (Hashlib.hex bs) = Ok (unsigned_be bs).
Proof.
  intros Hne. destruct bs as [| b bs]; [congruence |].
  unfold int16, unsigned_be. rewrite <- int16_from_hex. reflexivity.
Qed.

Lemma fold_be_range (bs : list byte) (acc : Z) :
  0 <= acc ->
  0 <= fold_left (fun a b => 256 * a + Hashlib.byteZ b) bs acc
    < (acc + 1) * 256 ^ Z.of_nat (List.length bs).
Proof.
  revert acc. induction bs as [| b bs IH]; intros acc Hacc.
  - cbn. lia.
  - cbn [fold_left List.length]. pose proof (byteZ_range b) as Hb.
    specialize (IH (256 * acc + Hashlib.byteZ b) ltac:(lia)).
    rewrite Nat2Z.inj_succ, Z.pow_succ_r by lia.
    assert (0 < 256 ^ Z.of_nat (List.length bs)) by (apply Z.pow_pos_nonneg; lia).
    nia.
Qed.

Lemma md5_length (msg : list byte) : List.length (Hashlib.md5 msg) = 16%nat.
Proof. reflexivity. Qed.

Lemma md5_unsigned_range (msg : list byte) :
  0 <= unsigned_be (Hashlib.md5 msg) < 2 ^ 128.
Proof.
  pose proof (fold_be_range (Hashlib.md5 msg) 0 ltac:(lia)) as H.
  rewrite md5_length in H. exact H.
Qed.

Lemma hash_val_md5 (msg : list byte) :
  int16 (Hashlib.hexdigest msg) = Ok (unsigned_be (Hashlib.md5 msg)).
Proof.
  unfold Hashlib.hexdigest. apply int16_hex.
  intros Hnil. pose proof (md5_length msg) as Hlen. rewrite Hnil in Hlen. discriminate.
Qed.

Lemma get_group_run {W} (user_id layer_name salt : string) (w : W) :
  AbSim.get_group user_id layer_name salt w = (Ok (assign_spec user_id layer_name salt), w).
Proof.
  unfold AbSim.get_group, assign_spec, bind, lift, ret.
  rewrite hash_val_md5. reflexivity.
Qed.

Lemma bayesian_get_group_run {W} (user_id layer_name salt : string) (w : W) :
  Bayesian.get_group user_id layer_name salt w = (Ok (assign_spec user_id layer_name salt), w).
Proof.
  unfold Bayesian.get_group, assign_spec, bind, lift, ret.
  rewrite hash_val_md5. reflexivity.
Qed.

Lemma assign_spec_variant (subject_id layer_name salt : string) :
  assign_spec subject_id layer_name salt = "A" \/ assign_spec subject_id layer_name salt = "B".
Proof. unfold assign_spec. cbv zeta. destruct (_ <? 50); auto. Qed.

(** C1. Determinism of the bucketing: whatever the states [w1] and [w2] of
    the processes in which [get_group] is invoked with one triple
    (subject, layer, salt), both invocations return the same variant, "A" or
    "B", and leave the state as it was: the result is a function of the
    three strings alone. This holds for the copy of [get_group] in either
    script. *)
Theorem get_group_deterministic :
  forall (W1 W2 : Type) (w1 : W1) (w2 : W2) (user_id layer_name salt : string),
  exists v : string,
    (v = "A" \/ v = "B") /\
    AbSim.get_group user_id layer_name salt w1 = (Ok v, w1) /\
    AbSim.get_group user_id layer_name salt w2 = (Ok v, w2) /\
    Bayesian.get_group user_id layer_name salt w1 = (Ok v, w1) /\
    Bayesian.get_group user_id layer_name salt w2 = (Ok v, w2).
Proof.
  intros W1 W2 w1 w2 user_id layer_name salt.
  exists (assign_spec user_id layer_name salt).
  split; [apply assign_spec_variant |].
  repeat split; first [apply get_group_run | apply bayesian_get_group_run].
Qed.

(** C2. What [get_group] computes: the three inputs are joined into one
    string, whose MD5 digest has 16 bytes, that is 128 bits; [int(..., 16)]
    of the hex digest is that digest read as an unsigned integer below
    2^128; and the variant returned is "A" exactly when that integer modulo
    100 is below 50, "B" otherwise. Both scripts agree with the spec's
    [assign_spec]. *)
Theorem get_group_threshold :
  forall (W : Type) (w : W) (user_id layer_name salt : string),
    let input_str := user_id ++ "_" ++ layer_name ++ "_" ++ salt in
    let digest := Hashlib.md5 (encode input_str) in
    let hash_val := unsigned_be digest in
    8 * Z.of_nat (List.length digest) = 128 /\
    int16 (Hashlib.hexdigest (encode input_str)) = Ok hash_val /\
    0 <= hash_val < 2 ^ 128 /\
    0 <= hash_val mod 100 < 100 /\
    AbSim.get_group user_id layer_name salt w
      = (Ok (if hash_val mod 100 <? 50 then "A" else "B"), w) /\
    Bayesian.get_group user_id layer_name salt w
      = (Ok (if hash_val mod 100 <? 50 then "A" else "B"), w) /\
    (assign_spec user_id layer_name salt = "A" <-> hash_val mod 100 < 50) /\
    (assign_spec user_id layer_name salt = "B" <-> 50 <= hash_val mod 100).
Proof.
  intros W w user_id layer_name salt input_str digest hash_val.
  rewrite get_group_run, bayesian_get_group_run.
  assert (Hspec : assign_spec user_id layer_name salt
                  = if hash_val mod 100 <? 50 then "A" else "B") by reflexivity.
  rewrite Hspec. clear Hspec.
  split; [unfold digest; rewrite md5_length; reflexivity |].
  split; [apply hash_val_md5 |].
  split; [apply md5_unsigned_range |].
  split; [apply Z.mod_pos_bound; lia |].
  do 2 (split; [reflexivity |]).
  generalize (hash_val mod 100). intros r.
  destruct (Z.ltb_spec r 50) as [Hlt | Hge];
    split; split; intros H; first [reflexivity | discriminate | lia].
Qed.

(** C10. The two copies of [get_group], in [ab_sim.py] and in
    [bayesian.py], are extensionally equal: on every triple of strings, and
    in every state of the process, they return the same result and leave the
    same state. *)
Theorem get_group_copies_agree :
  forall (W : Type) (user_id layer_name salt : string) (w : W),
    AbSim.get_group user_id layer_name salt w
    = Bayesian.get_group user_id layer_name salt w.
Proof.
  intros W user_id layer_name salt w.
  rewrite get_group_run, bayesian_get_group_run. reflexivity.
Qed.

(** ** The audit *)

Example audit_boundary :
  AbSim.audit 57000 57000 f_0_8 0x1.47ae147ae147bp-5%float tt
  = (Ok {| score := 100;
           audit_log :=
             ["✅ **样本充足**：已达到排期要求，规避了‘偷看问题’。";
              "✅ **功效充足**：探测器功率达标，观察到的提升值相对稳健。";
              "✅ **结果显著**：P 值低于 0.05，拒绝零假设。"] |}, tt).
Proof. vm_compute. reflexivity. Qed.

Example audit_short_sample :
  AbSim.audit 7000 57000 f_0_8 0x1.47ae147ae147bp-5%float tt
  = (Ok {| score := 60;
           audit_log :=
             ["❌ **样本不足**：仅完成 12.3%。此时的显著性可能只是随机波动。";
              "✅ **功效充足**：探测器功率达标，观察到的提升值相对稳健。";
              "✅ **结果显著**：P 值低于 0.05，拒绝零假设。"] |}, tt)
  /\ confidence_of (AbSim.verdict 60) = Low.
Proof. vm_compute. split; reflexivity. Qed.

Lemma round_quotient_exponent (a b : Z) :
  let e0 := Z.max (Z.log2 a - Z.log2 b - 53) (-1074) in
  e0 <= snd (round_quotient a b) <= e0 + 2.
Proof.
  unfold round_quotient. cbv zeta.
  destruct (_ <? 2 ^ 53); [cbn [snd]; lia |].
  destruct (_ <? 2 ^ 53); cbn [snd]; lia.
Qed.

(** The quotient of a sample count by a larger requirement is a float. *)
Lemma truediv_fraction (a b : Z) :
  0 <= a < b -> exists r, truediv a b = Ok r.
Proof.
  intros Hab. unfold truediv.
  destruct (Z.eqb_spec b 0) as [-> | _]; [lia |].
  destruct (a =? 0); [eauto |].
  pose proof (round_quotient_exponent (Z.abs a) (Z.abs b)) as He.
  destruct (round_quotient (Z.abs a) (Z.abs b)) as [m e].
  cbv zeta in He. cbn [snd] in He.
  destruct m as [| p | p]; [eauto | | eauto].
  assert (Hlog : Z.log2 (Z.abs a) <= Z.log2 (Z.abs b))
    by (apply Z.log2_le_mono; lia).
  destruct (Z.leb_spec e 971) as [_ | Hgt]; [eauto | lia].
Qed.

Lemma absim_sample_check_run {W} (current_n req_n : Z) (st : audit_state) (w : W) :
  0 <= current_n ->
  exists line,
    AbSim.sample_check current_n req_n st w
    = (Ok {| score := score st + (if current_n >=? req_n then 40 else 0);
             audit_log := audit_log st ++ [line] |}, w).
Proof.
  intros Hn. unfold AbSim.sample_check.
  destruct (current_n >=? req_n) eqn:Hge.
  - eexists. reflexivity.
  - destruct (truediv_fraction current_n req_n) as [r Hr]; [lia |].
    unfold bind, lift, ret. rewrite Hr, Z.add_0_r. eexists. reflexivity.
Qed.

Lemma bayesian_sample_check_run {W} (current_n req_n : Z) (st : audit_state) (w : W) :
  0 <= current_n ->
  exists line,
    Bayesian.sample_check current_n req_n st w
    = (Ok {| score := score st + (if current_n >=? req_n then 40 else 0);
             audit_log := audit_log st ++ [line] |}, w).
Proof.
  intros Hn. unfold Bayesian.sample_check.
  destruct (current_n >=? req_n) eqn:Hge.
  - eexists. reflexivity.
  - destruct (truediv_fraction current_n req_n) as [r Hr]; [lia |].
    unfold bind, lift, ret. rewrite Hr, Z.add_0_r. eexists. reflexivity.
Qed.

Lemma absim_audit_state_eq {W} (s s' : Z) (l l' : list string) (w : W) :
  s = s' -> l = l' ->
  (Ok {| score := s; audit_log := l |}, w)
  = (Ok {| score := s'; audit_log := l' |}, w).
Proof. intros -> ->. reflexivity. Qed.

Lemma bayesian_audit_state_eq {W} (s s' : Z) (l l' : list string) (w : W) :
  s = s' -> l = l' ->
  (Ok {| score := s; audit_log := l |}, w)
  = (Ok {| score := s'; audit_log := l' |}, w).
Proof. intros -> ->. reflexivity. Qed.

(** The audit of [ab_sim.py] completes, with the spec's score and one line
    per check. *)
Lemma absim_audit_run {W} (current_n req_n : Z) (curr_power p_val : float) (w : W) :
  0 <= current_n ->
  exists l1 l2 l3,
    AbSim.audit current_n req_n curr_power p_val w
    = (Ok {| score := score_spec current_n req_n curr_power p_val;
             audit_log := [l1; l2; l3] |}, w).
Proof.
  intros Hn. unfold AbSim.audit, score_spec.
  destruct (absim_sample_check_run current_n req_n
              {| score := 0; audit_log := [] |} w Hn) as [l1 H1].
  unfold bind at 1. rewrite H1. cbn [score audit_log app].
  unfold bind, AbSim.power_check, AbSim.significance_check, ret.
  cbn [score audit_log].
  destruct (f_0_8 <=? curr_power)%float, (p_val <? f_0_05)%float;
    cbn [score audit_log app];
    do 3 eexists; (apply absim_audit_state_eq; [lia | reflexivity]).
Qed.

(** The audit of [bayesian.py] completes, with the spec's score; its log
    has a third line only when the result is significant. *)
Lemma bayesian_audit_run {W} (current_n req_n : Z) (curr_power p_val : float) (w : W) :
  0 <= current_n ->
  exists l1 l2 l3,
    Bayesian.audit current_n req_n curr_power p_val w
    = (Ok {| score := score_spec current_n req_n curr_power p_val;
             audit_log :=
               if (p_val <? f_0_05)%float then [l1; l2; l3] else [l1; l2] |}, w).
Proof.
  intros Hn. unfold Bayesian.audit, score_spec.
  destruct (bayesian_sample_check_run current_n req_n
              {| score := 0; audit_log := [] |} w Hn) as [l1 H1].
  unfold bind at 1. rewrite H1. cbn [score audit_log app].
  unfold bind, Bayesian.power_check, Bayesian.significance_check, ret.
  cbn [score audit_log].
  destruct (f_0_8 <=? curr_power)%float, (p_val <? f_0_05)%float;
    cbn [score audit_log app];
    eexists; eexists; exists "✅ **频率派显著**：证据强度达标。";
    (apply bayesian_audit_state_eq; [lia | reflexivity]).
Qed.

Lemma score_spec_values (live_n required_n : Z) (power_at_live_n p_value : float) :
  let s := score_spec live_n required_n power_at_live_n p_value in
  s = 0 \/ s = 30 \/ s = 40 \/ s = 60 \/ s = 70 \/ s = 100.
Proof.
  unfold score_spec.
  destruct (live_n >=? required_n), (f_0_8 <=? power_at_live_n)%float,
    (p_value <? f_0_05)%float; cbn; auto 10.
Qed.

Lemma absim_verdict_levels (s : Z) :
  (confidence_of (AbSim.verdict s) = High <-> s = 100) /\
  (confidence_of (AbSim.verdict s) = Medium <-> 70 <= s /\ s <> 100) /\
  (confidence_of (AbSim.verdict s) = Low <-> s < 70).
Proof.
  unfold AbSim.verdict.
  destruct (Z.eqb_spec s 100) as [-> | Hne]; cbn.
  - repeat split; try discriminate; try lia; intros; lia.
  - destruct (s >=? 70) eqn:Hge; cbn; repeat split; try discriminate; try lia;
      intros; lia.
Qed.

Lemma bayesian_verdict_levels (s : Z) :
  (confidence_of (Bayesian.verdict s) = High <-> s = 100) /\
  (confidence_of (Bayesian.verdict s) = Medium <-> 70 <= s /\ s <> 100) /\
  (confidence_of (Bayesian.verdict s) = Low <-> s < 70).
Proof.
  unfold Bayesian.verdict.
  destruct (Z.eqb_spec s 100) as [-> | Hne]; cbn.
  - repeat split; try discriminate; try lia; intros; lia.
  - destruct (s >=? 70) eqn:Hge; cbn; repeat split; try discriminate; try lia;
      intros; lia.
Qed.

(** C3. The audit score and the verdict. For every live sample count (a
    count: not negative), every required sample size, power and p-value,
    the audit of either script completes, and its score is the sum of the
    weights of the checks that pass: 40 when [live_n >= required_n], 30 when
    [power_at_live_n >= 0.8], 30 when [p_value < 0.05]. The score lies
    between 0 and 100; the verdict is the high confidence exactly when the
    score is 100, the medium one exactly when [70 <= score < 100], the low
    one exactly when [score < 70]. *)
Theorem audit_score_and_verdict :
  forall (W : Type) (w : W) (live_n required_n : Z) (power_at_live_n p_value : float),
    0 <= live_n ->
    let s := score_spec live_n required_n power_at_live_n p_value in
    (exists log, AbSim.audit live_n required_n power_at_live_n p_value w
                 = (Ok {| score := s; audit_log := log |}, w)) /\
    (exists log, Bayesian.audit live_n required_n power_at_live_n p_value w
                 = (Ok {| score := s; audit_log := log |}, w)) /\
    0 <= s <= 100 /\
    (confidence_of (AbSim.verdict s) = High <-> s = 100) /\
    (confidence_of (AbSim.verdict s) = Medium <-> 70 <= s < 100) /\
    (confidence_of (AbSim.verdict s) = Low <-> s < 70) /\
    (confidence_of (Bayesian.verdict s) = High <-> s = 100) /\
    (confidence_of (Bayesian.verdict s) = Medium <-> 70 <= s < 100) /\
    (confidence_of (Bayesian.verdict s) = Low <-> s < 70).
Proof.
  intros W w live_n required_n power_at_live_n p_value Hn s.
  destruct (absim_audit_run live_n required_n power_at_live_n p_value w Hn)
    as (l1 & l2 & l3 & Ha).
  destruct (bayesian_audit_run live_n required_n power_at_live_n p_value w Hn)
    as (k1 & k2 & k3 & Hb).
  pose proof (score_spec_values live_n required_n power_at_live_n p_value) as Hs.
  fold s in Ha, Hb. cbv zeta in Hs. fold s in Hs.
  destruct (absim_verdict_levels s) as (Hah & Ham & Hal).
  destruct (bayesian_verdict_levels s) as (Hbh & Hbm & Hbl).
  split; [eauto |]. split; [eauto |].
  split; [lia |].
  split; [exact Hah |]. split; [rewrite Ham; lia |]. split; [exact Hal |].
  split; [exact Hbh |]. split; [rewrite Hbm; lia |]. exact Hbl.
Qed.

Lemma audit_score_and_verdict_witness :
  exists log,
    AbSim.audit 7000 57000 f_0_8 f_0_05 tt
    = (Ok {| score := 30; audit_log := log |}, tt).
Proof.
  exact (proj1 (audit_score_and_verdict unit tt 7000 57000 f_0_8 f_0_05
                  (Pos2Z.is_nonneg 7000))).
Defined.

(** Under the same assumption the log of [ab_sim.py] has three lines, and
    the log of [bayesian.py] has three lines when the result is significant
    and two when it is not. *)
Lemma audit_log_length {W} (w : W) (live_n required_n : Z) (power_at_live_n p_value : float) :
  0 <= live_n ->
  (exists st, AbSim.audit live_n required_n power_at_live_n p_value w = (Ok st, w)
              /\ List.length (audit_log st) = 3%nat) /\
  (exists st, Bayesian.audit live_n required_n power_at_live_n p_value w = (Ok st, w)
              /\ List.length (audit_log st)
                 = if (p_value <? f_0_05)%float then 3%nat else 2%nat).
Proof.
  intros Hn.
  destruct (absim_audit_run live_n required_n power_at_live_n p_value w Hn)
    as (l1 & l2 & l3 & Ha).
  destruct (bayesian_audit_run live_n required_n power_at_live_n p_value w Hn)
    as (k1 & k2 & k3 & Hb).
  split; eexists; (split; [eassumption |]); cbn [audit_log audit_log].
  - reflexivity.
  - destruct (p_value <? f_0_05)%float; reflexivity.
Qed.

(** C9. One entry per check. At 7000 live samples for 57000 required, power
    0.5 and p-value 0.5, all three checks fail: [ab_sim.py] logs three
    lines, one per check, and [bayesian.py] logs two, for want of the
    [else] of the significance check. *)
Theorem bayesian_audit_log_misses_line :
  AbSim.audit 7000 57000 0.5%float 0.5%float tt
  = (Ok {| score := 0;
           audit_log :=
             ["❌ **样本不足**：仅完成 12.3%。此时的显著性可能只是随机波动。";
              "❌ **低功效警告**：Power 仅 50.0%。小心‘赢家诅咒’（虚高收益）。";
              "❌ **不显著**：数据差异在随机误差范围内。"] |}, tt)
  /\
  Bayesian.audit 7000 57000 0.5%float 0.5%float tt
  = (Ok {| score := 0;
           audit_log :=
             ["❌ **样本不足**：仅完成预测量的 12.3%。";
              "❌ **低功效警告**：Power 仅 50.0%。小心‘赢家诅咒’。"] |}, tt).
Proof. split; vm_compute; reflexivity. Qed.

(** ** Power at the live sample size *)

Lemma absim_curr_power_never_raises {W} `{Libs W} (es : float) (current_n : Z) (w : W) :
  exists x w', AbSim.curr_power es current_n w = (Ok x, w').
Proof.
  unfold AbSim.curr_power, try_except, ret.
  destruct (AbSim.power_try es current_n w) as [[x | e] w']; eauto.
Qed.

Lemma bayesian_curr_power_never_raises {W} `{Libs W} (es : float) (current_n : Z) (w : W) :
  exists x w', Bayesian.curr_power es current_n w = (Ok x, w').
Proof.
  unfold Bayesian.curr_power, try_except, ret.
  destruct (Bayesian.power_try es current_n w) as [[x | e] w']; eauto.
Qed.

Lemma curr_power_copies_agree {W} `{Libs W} (es : float) (current_n : Z) (w : W) :
  Bayesian.curr_power es current_n w = AbSim.curr_power es current_n w.
Proof. reflexivity. Qed.

(** C4, as stated, fails. In a run where the power computation raises,
    [curr_power] is 0.0, and no exception reaches the caller; in a run where
    the computation returns 0.0, [curr_power] is 0.0 as well: the failure is
    not told apart from a power of 0.0. *)
Lemma curr_power_zero_on_failure :
  power (Libs := canned power_fails) 0.5%float 500%float f_0_05 1%float tt
    = (Raise "ValueError", tt)
  /\ AbSim.curr_power (H := canned power_fails) 0.5%float 1000 tt = (Ok 0%float, tt)
  /\ Bayesian.curr_power (H := canned power_fails) 0.5%float 1000 tt = (Ok 0%float, tt)
  /\ power (Libs := canned power_zero) 0.5%float 500%float f_0_05 1%float tt
    = (Ok (PyFloat 0), tt)
  /\ AbSim.curr_power (H := canned power_zero) 0.5%float 1000 tt = (Ok 0%float, tt)
  /\ Bayesian.curr_power (H := canned power_zero) 0.5%float 1000 tt = (Ok 0%float, tt).
Proof. repeat split; vm_compute; reflexivity. Qed.

(** C4, amended. [curr_power] never raises. When the division of the live
    count by two, the library's power computation or the conversion of its
    result raises, whatever the exception, [curr_power] is 0.0; when the
    library returns a float [x], or an object whose attribute [power] is a
    float [x], [curr_power] is [x]. There is no [PlanningError]. *)
Theorem curr_power_defaults_to_zero :
  forall (W : Type) (L : Libs W) (es : float) (current_n : Z) (w : W),
    (exists x w', AbSim.curr_power es current_n w = (Ok x, w')) /\
    Bayesian.curr_power es current_n w = AbSim.curr_power es current_n w /\
    (forall e w', AbSim.power_try es current_n w = (Raise e, w') ->
                  AbSim.curr_power es current_n w = (Ok 0%float, w')) /\
    (forall nobs1 e w',
        truediv current_n 2 = Ok nobs1 ->
        power es nobs1 f_0_05 1%float w = (Raise e, w') ->
        AbSim.curr_power es current_n w = (Ok 0%float, w')) /\
    (forall nobs1 x w',
        truediv current_n 2 = Ok nobs1 ->
        power es nobs1 f_0_05 1%float w = (Ok (PyFloat x), w') ->
        AbSim.curr_power es current_n w = (Ok x, w')) /\
    (forall nobs1 x attrs w',
        truediv current_n 2 = Ok nobs1 ->
        power es nobs1 f_0_05 1%float w = (Ok (PyObject attrs), w') ->
        assoc "power" attrs = Some (PyFloat x) ->
        AbSim.curr_power es current_n w = (Ok x, w')).
Proof.
  intros W L es current_n w.
  split; [apply absim_curr_power_never_raises |].
  split; [reflexivity |].
  unfold AbSim.curr_power, AbSim.power_try, try_except, bind, lift, ret.
  split; [intros e w' ->; reflexivity |].
  split; [intros nobs1 e w' -> ->; reflexivity |].
  split; [intros nobs1 x w' -> ->; reflexivity |].
  intros nobs1 x attrs w' -> -> Hattr.
  cbn [hasattr getattr]. rewrite Hattr. reflexivity.
Qed.

Lemma curr_power_defaults_to_zero_witness :
  AbSim.curr_power (H := canned power_fails) 0.5%float 1000 tt = (Ok 0%float, tt).
Proof.
  refine (proj1 (proj2 (proj2 (proj2
    (curr_power_defaults_to_zero unit (canned power_fails) 0.5%float 1000 tt))))
    500%float "ValueError" tt _ _); vm_compute; reflexivity.
Defined.

(** ** Rounding and floats *)

Section RoundHalfEven.

Variables n d : Z.
Hypothesis d_pos : 0 < d.

Lemma round_half_even_cases :
  let q := n / d in
  let r := n mod d in
  n = d * q + r /\ 0 <= r < d /\
  ((2 * r < d /\ round_half_even n d = q) \/
   (d <= 2 * r /\ (round_half_even n d = q + 1 \/ (2 * r = d /\ round_half_even n d = q)))).
Proof.
  cbv zeta. pose proof (Z.div_mod n d ltac:(lia)) as Hdm.
  pose proof (Z.mod_pos_bound n d d_pos) as Hr.
  split; [exact Hdm |]. split; [exact Hr |].
  unfold round_half_even.
  destruct (Z.ltb_spec (2 * (n mod d)) d) as [Hlt | Hge]; [left; split; [lia | reflexivity] |].
  right. split; [lia |].
  destruct (Z.ltb_spec d (2 * (n mod d))) as [Hgt | Hle]; [left; reflexivity |].
  destruct (Z.even (n / d)); [right; split; [lia | reflexivity] | left; reflexivity].
Qed.

Lemma round_half_even_le (k : Z) : n <= k * d -> round_half_even n d <= k.
Proof.
  intros Hk. destruct round_half_even_cases as (Hn & Hr & [[H1 ->] | [H1 [-> | [H2 ->]]]]); nia.
Qed.

Lemma round_half_even_ge (k : Z) : k * d <= n -> k <= round_half_even n d.
Proof.
  intros Hk. destruct round_half_even_cases as (Hn & Hr & [[H1 ->] | [H1 [-> | [H2 ->]]]]); nia.
Qed.

(** Above [k - 1/2] the nearest integer is at least [k]. *)
Lemma round_half_even_above_half (k : Z) :
  (2 * k - 1) * d < 2 * n -> k <= round_half_even n d.
Proof.
  intros Hk. destruct round_half_even_cases as (Hn & Hr & [[H1 ->] | [H1 [-> | [H2 ->]]]]); nia.
Qed.

(** A nearest integer of at least [k] comes from at least [k - 1/2]. *)
Lemma round_half_even_from_half (k : Z) :
  k <= round_half_even n d -> (2 * k - 1) * d <= 2 * n.
Proof.
  intros Hk. destruct round_half_even_cases as (Hn & Hr & [[H1 Hq] | [H1 [Hq | [H2 Hq]]]]);
    rewrite Hq in Hk; nia.
Qed.

End RoundHalfEven.

Lemma digits2_log2 (p : positive) : Z.pos (digits2_pos p) = Z.log2 (Z.pos p) + 1.
Proof.
  induction p as [p IH | p IH |]; [| | reflexivity].
  - change (Z.pos p~1) with (2 * Z.pos p + 1).
    rewrite Z.log2_succ_double by lia. cbn [digits2_pos]. lia.
  - change (Z.pos p~0) with (2 * Z.pos p).
    rewrite Z.log2_double by lia. cbn [digits2_pos]. lia.
Qed.

Lemma digits2_bounds (p : positive) (k : Z) :
  0 <= k -> 2 ^ k <= Z.pos p < 2 ^ (k + 1) -> Z.pos (digits2_pos p) = k + 1.
Proof.
  intros Hk Hp. rewrite digits2_log2. f_equal. apply Z.log2_unique; [lia |].
  replace (Z.succ k) with (k + 1) by lia. exact Hp.
Qed.

Lemma digits2_small (p : positive) (k : Z) :
  0 <= k -> Z.pos p < 2 ^ k -> Z.pos (digits2_pos p) <= k.
Proof.
  intros Hk Hp. rewrite digits2_log2.
  assert (Z.log2 (Z.pos p) < k) by (apply Z.log2_lt_pow2; lia). lia.
Qed.

(** A mantissa of 53 bits, or a shorter one at the least exponent, is a
    float of the format whatever its sign, and survives the passage
    through the kernel's floats. *)
Lemma Prim2SF_SF2Prim_finite (s : bool) (p : positive) (e : Z) :
  Z.pos p < 2 ^ 53 ->
  2 ^ 52 <= Z.pos p \/ e = -1074 ->
  -1074 <= e <= 971 ->
  Prim2SF (SF2Prim (S754_finite s p e)) = S754_finite s p e.
Proof.
  intros Hlt Hnorm He. apply Prim2SF_SF2Prim.
  unfold valid_binary, bounded, canonical_mantissa, fexp, SpecFloat.emin.
  apply andb_true_intro. split; [| apply Z.leb_le; unfold FloatOps.emax, FloatOps.prec; lia].
  apply Z.eqb_eq. unfold FloatOps.emax, FloatOps.prec.
  destruct Hnorm as [Hge | ->].
  - rewrite (digits2_bounds p 52) by lia. lia.
  - pose proof (digits2_small p 53 ltac:(lia) Hlt). lia.
Qed.

Lemma scaled_den_pos (b e : Z) : 0 < b -> 0 < scaled_den b e.
Proof.
  intros Hb. unfold scaled_den.
  apply Z.mul_pos_pos; [exact Hb | apply Z.pow_pos_nonneg; lia].
Qed.

Lemma scaled_num_pos (a e : Z) : 0 < a -> 0 < scaled_num a e.
Proof.
  intros Ha. unfold scaled_num.
  apply Z.mul_pos_pos; [exact Ha | apply Z.pow_pos_nonneg; lia].
Qed.

(** One exponent up, the scaled quotient is halved. *)
Lemma quotient_scale (a b e : Z) :
  scaled_num a e * scaled_den b (e + 1) = 2 * (scaled_num a (e + 1) * scaled_den b e).
Proof.
  unfold scaled_num, scaled_den.
  destruct (Z_lt_le_dec e 0) as [Hneg | Hpos].
  - replace (Z.max (- e) 0) with (Z.max (- (e + 1)) 0 + 1) by lia.
    replace (Z.max (e + 1) 0) with 0 by lia. replace (Z.max e 0) with 0 by lia.
    rewrite Z.pow_add_r by lia. ring.
  - replace (Z.max (- e) 0) with 0 by lia. replace (Z.max (- (e + 1)) 0) with 0 by lia.
    replace (Z.max (e + 1) 0) with (Z.max e 0 + 1) by lia.
    rewrite Z.pow_add_r by lia. ring.
Qed.

(** At the exponent [log2 a - log2 b - 53 + k] the scaled quotient lies
    strictly between [2^52 / 2^k] and [2^54 / 2^k]. *)
Lemma quotient_window (a b e k : Z) :
  0 < a -> 0 < b ->
  0 <= k -> e = Z.log2 a - Z.log2 b - 53 + k ->
  2 ^ 52 * scaled_den b e < scaled_num a e * 2 ^ k /\
  scaled_num a e * 2 ^ k < 2 ^ 54 * scaled_den b e.
Proof.
  intros a_pos b_pos Hk He.
  pose proof (Z.log2_spec a a_pos) as Ha. pose proof (Z.log2_spec b b_pos) as Hb.
  pose proof (Z.log2_nonneg a) as Hla. pose proof (Z.log2_nonneg b) as Hlb.
  set (la := Z.log2 a) in *. set (lb := Z.log2 b) in *.
  replace (Z.succ la) with (la + 1) in Ha by lia.
  replace (Z.succ lb) with (lb + 1) in Hb by lia.
  assert (Hpow : 2 ^ la * 2 ^ Z.max (- e) 0 * 2 ^ k = 2 ^ lb * 2 ^ 53 * 2 ^ Z.max e 0).
  { rewrite <- !Z.pow_add_r by lia. f_equal. lia. }
  assert (0 < 2 ^ la) by (apply Z.pow_pos_nonneg; lia).
  assert (0 < 2 ^ lb) by (apply Z.pow_pos_nonneg; lia).
  assert (0 < 2 ^ k) by (apply Z.pow_pos_nonneg; lia).
  assert (0 < 2 ^ Z.max (- e) 0) by (apply Z.pow_pos_nonneg; lia).
  assert (0 < 2 ^ Z.max e 0) by (apply Z.pow_pos_nonneg; lia).
  rewrite !Z.pow_add_r in Ha, Hb by lia. change (2 ^ 1) with 2 in Ha, Hb.
  unfold scaled_num, scaled_den.
  set (A := 2 ^ la) in *. set (B := 2 ^ lb) in *. set (K := 2 ^ k) in *.
  set (P := 2 ^ Z.max (- e) 0) in *. set (D := 2 ^ Z.max e 0) in *.
  change (2 ^ 52) with 4503599627370496. change (2 ^ 54) with 18014398509481984.
  change (2 ^ 53) with 9007199254740992 in Hpow.
  split.
  - apply Z.lt_le_trans with (m := 4503599627370496 * ((2 * B) * D)).
    + apply Z.mul_lt_mono_pos_l; [lia |]. apply Z.mul_lt_mono_pos_r; lia.
    + replace (4503599627370496 * (2 * B * D)) with (A * P * K) by lia.
      apply Z.mul_le_mono_nonneg_r; [lia |]. apply Z.mul_le_mono_nonneg_r; lia.
  - apply Z.lt_le_trans with (m := (2 * A) * P * K).
    + apply Z.mul_lt_mono_pos_r; [lia |]. apply Z.mul_lt_mono_pos_r; lia.
    + replace (2 * A * P * K) with (18014398509481984 * (B * D)) by lia.
      apply Z.mul_le_mono_nonneg_l; [lia |]. apply Z.mul_le_mono_nonneg_r; lia.
Qed.

(** What [round_quotient] returns: a mantissa [m] below [2^53] and an
    exponent [e] of the format, normal ([2^52 <= m]) or at the least
    exponent, whose value [m * 2^e] is the quotient rounded to an integer at
    an exponent [e'], equal to [e] or one below. *)
Lemma round_quotient_spec (a b : Z) :
  0 < a -> 0 < b ->
  let e0 := Z.max (Z.log2 a - Z.log2 b - 53) (-1074) in
  exists m e e',
    round_quotient a b = (m, e) /\
    0 <= m < 2 ^ 53 /\
    (2 ^ 52 <= m \/ e = -1074) /\
    e0 <= e' <= e0 + 1 /\ e' <= e <= e' + 1 /\
    m * 2 ^ (e - e') = quotient_at a b e'.
Proof.
  intros Ha Hb e0.
  set (k0 := e0 - (Z.log2 a - Z.log2 b - 53)).
  assert (Hk0 : 0 <= k0) by (unfold k0, e0; lia).
  destruct (quotient_window a b e0 k0 Ha Hb Hk0 ltac:(unfold k0; lia)) as [Hlo0 Hhi0].
  destruct (quotient_window a b (e0 + 1) (k0 + 1) Ha Hb ltac:(lia) ltac:(unfold k0; lia))
    as [Hlo1 Hhi1].
  pose proof (scaled_den_pos b e0 Hb) as Hd0.
  pose proof (scaled_den_pos b (e0 + 1) Hb) as Hd1.
  pose proof (scaled_num_pos a e0 Ha) as Hn0.
  pose proof (scaled_num_pos a (e0 + 1) Ha) as Hn1.
  pose proof (quotient_scale a b e0) as Hsc.
  assert (HK0 : 1 <= 2 ^ k0) by (assert (0 < 2 ^ k0) by (apply Z.pow_pos_nonneg; lia); lia).
  rewrite Z.pow_add_r in Hlo1, Hhi1 by lia. change (2 ^ 1) with 2 in Hlo1, Hhi1.
  unfold round_quotient. fold e0. cbv zeta. unfold quotient_at.
  set (n0 := scaled_num a e0) in *. set (d0 := scaled_den b e0) in *.
  set (n1 := scaled_num a (e0 + 1)) in *. set (d1 := scaled_den b (e0 + 1)) in *.
  set (K := 2 ^ k0) in *.
  change (2 ^ 52) with 4503599627370496 in *. change (2 ^ 53) with 9007199254740992 in *.
  change (2 ^ 54) with 18014398509481984 in *.
  destruct (Z.ltb_spec (round_half_even n0 d0) 9007199254740992) as [Hm0 | Hm0].
  - exists (round_half_even n0 d0), e0, e0.
    split; [reflexivity |].
    split; [split; [apply round_half_even_ge; lia | exact Hm0] |].
    split.
    { destruct (Z.eq_dec k0 0) as [Hz | Hnz].
      - left. apply round_half_even_ge; [exact Hd0 |].
        unfold K in Hlo0. rewrite Hz in Hlo0. change (2 ^ 0) with 1 in Hlo0. lia.
      - right. unfold k0, e0 in *. lia. }
    split; [lia |]. split; [lia |].
    rewrite Z.sub_diag. apply Z.mul_1_r.
  - apply (round_half_even_from_half n0 d0 Hd0) in Hm0.
    assert (Hm1lo : 4503599627370496 <= round_half_even n1 d1).
    { apply round_half_even_above_half; [exact Hd1 |]. nia. }
    assert (Hm1hi : round_half_even n1 d1 <= 9007199254740992).
    { apply round_half_even_le; [exact Hd1 |]. nia. }
    destruct (Z.ltb_spec (round_half_even n1 d1) 9007199254740992) as [Hm1 | Hm1].
    + exists (round_half_even n1 d1), (e0 + 1), (e0 + 1).
      split; [reflexivity |]. split; [lia |]. split; [left; lia |].
      split; [lia |]. split; [lia |].
      rewrite Z.sub_diag. apply Z.mul_1_r.
    + exists 4503599627370496, (e0 + 2), (e0 + 1).
      split; [reflexivity |]. split; [lia |]. split; [left; lia |].
      split; [lia |]. split; [lia |].
      replace (e0 + 2 - (e0 + 1)) with 1 by lia. change (2 ^ 1) with 2.
      fold n1 d1. lia.
Qed.

(** ** [math.ceil] and the division of two integers *)

Lemma sf_den_pos (v : spec_float) : 0 < sf_den v.
Proof. destruct v; cbn [sf_den]; [lia .. |]. apply Z.pow_pos_nonneg; lia. Qed.

Lemma ceiling_div (num den : Z) : 0 < den -> is_ceiling (- ((- num) / den)) num den.
Proof.
  intros Hd. unfold is_ceiling.
  pose proof (Z.div_mod (- num) den ltac:(lia)) as Hdm.
  pose proof (Z.mod_pos_bound (- num) den Hd) as Hr.
  nia.
Qed.

Lemma is_ceiling_unique (k k' num den : Z) :
  0 < den -> is_ceiling k num den -> is_ceiling k' num den -> k = k'.
Proof. unfold is_ceiling. intros Hd Hk Hk'. nia. Qed.

(** [math.ceil] of a finite float is the ceiling of its exact value. *)
Lemma math_ceil_finite (x : float) :
  is_finite x = true ->
  exists k, math_ceil x = Ok k /\
            is_ceiling k (sf_num (Prim2SF x)) (sf_den (Prim2SF x)).
Proof.
  unfold is_finite, math_ceil. intros Hfin.
  destruct (Prim2SF x) as [s | s | | s m e] eqn:Hx; try discriminate;
    (eexists; split; [reflexivity | apply ceiling_div; apply (sf_den_pos (S754_finite s m e)) || reflexivity]).
Qed.

Lemma math_ceil_is_ceiling (x : float) (k : Z) :
  math_ceil x = Ok k -> is_ceiling k (sf_num (Prim2SF x)) (sf_den (Prim2SF x)).
Proof.
  unfold math_ceil. intros Hk.
  destruct (Prim2SF x) as [s | s | | s m e] eqn:Hx; try discriminate;
    injection Hk as <-; apply ceiling_div; apply (sf_den_pos (S754_finite s m e)) || reflexivity.
Qed.

Lemma Prim2SF_SF2Prim_zero (s : bool) : Prim2SF (SF2Prim (S754_zero s)) = S754_zero s.
Proof. apply Prim2SF_SF2Prim. reflexivity. Qed.

(** The result of [truediv] on two integers that are not zero. *)
Lemma truediv_cases (a b : Z) :
  a <> 0 -> b <> 0 ->
  let s := xorb (a <? 0) (b <? 0) in
  let e0 := Z.max (Z.log2 (Z.abs a) - Z.log2 (Z.abs b) - 53) (-1074) in
  exists m e e',
    0 <= m < 2 ^ 53 /\
    (2 ^ 52 <= m \/ e = -1074) /\
    e0 <= e' <= e0 + 1 /\ e' <= e <= e' + 1 /\
    m * 2 ^ (e - e') = quotient_at (Z.abs a) (Z.abs b) e' /\
    truediv a b
    = match m with
      | Z.pos p =>
          if e <=? 971 then Ok (SF2Prim (S754_finite s p e)) else Raise "OverflowError"
      | _ => Ok (SF2Prim (S754_zero s))
      end.
Proof.
  intros Ha Hb s e0.
  destruct (round_quotient_spec (Z.abs a) (Z.abs b) ltac:(lia) ltac:(lia))
    as (m & e & e' & Hrq & Hm & Hnorm & He' & He & Hval).
  exists m, e, e'. repeat (split; [assumption |]).
  unfold truediv.
  destruct (Z.eqb_spec b 0) as [? | _]; [contradiction |].
  destruct (Z.eqb_spec a 0) as [? | _]; [contradiction |].
  rewrite Hrq. reflexivity.
Qed.

(** The largest finite float, [(2^53 - 1) * 2^971]. *)
Lemma truediv_total (a b : Z) :
  Z.abs a <= (2 ^ 53 - 1) * 2 ^ 971 -> b <> 0 ->
  exists q, truediv a b = Ok q /\ is_finite q = true.
Proof.
  intros Ha Hb.
  destruct (Z.eq_dec a 0) as [-> | Hnz].
  { unfold truediv. destruct (Z.eqb_spec b 0) as [? | _]; [contradiction |].
    cbn [Z.eqb]. eexists. split; [reflexivity |].
    unfold is_finite. rewrite Prim2SF_SF2Prim_zero. reflexivity. }
  destruct (truediv_cases a b Hnz Hb) as (m & e & e' & Hm & Hnorm & He' & He & Hval & Htd).
  rewrite Htd. clear Htd.
  destruct m as [| p | p]; [| | lia].
  { eexists. split; [reflexivity |].
    unfold is_finite. rewrite Prim2SF_SF2Prim_zero. reflexivity. }
  assert (Hlog : Z.log2 (Z.abs a) < 1024).
  { apply Z.log2_lt_pow2; [lia |].
    change (2 ^ 1024) with (2 ^ 53 * 2 ^ 971). nia. }
  pose proof (Z.log2_nonneg (Z.abs b)) as Hlb.
  assert (He'971 : e' <= 971) by lia.
  assert (Hq : quotient_at (Z.abs a) (Z.abs b) e' <= (2 ^ 53 - 1) * 2 ^ (971 - e')).
  { unfold quotient_at. apply round_half_even_le; [apply scaled_den_pos; lia |].
    unfold scaled_num, scaled_den.
    assert (Hpow : 2 ^ 971 * 2 ^ Z.max (- e') 0 = 2 ^ (971 - e') * 2 ^ Z.max e' 0).
    { rewrite <- !Z.pow_add_r by lia. f_equal. lia. }
    assert (0 < 2 ^ Z.max (- e') 0) by (apply Z.pow_pos_nonneg; lia).
    assert (0 < 2 ^ Z.max e' 0) by (apply Z.pow_pos_nonneg; lia).
    assert (0 < 2 ^ (971 - e')) by (apply Z.pow_pos_nonneg; lia).
    apply Z.le_trans with (m := (2 ^ 53 - 1) * 2 ^ 971 * 2 ^ Z.max (- e') 0).
    - apply Z.mul_le_mono_nonneg_r; lia.
    - replace ((2 ^ 53 - 1) * 2 ^ 971 * 2 ^ Z.max (- e') 0)
        with ((2 ^ 53 - 1) * 2 ^ (971 - e') * (1 * 2 ^ Z.max e' 0)) by lia.
      apply Z.mul_le_mono_nonneg_l; [lia |].
      apply Z.mul_le_mono_nonneg_r; lia. }
  assert (He971 : e <= 971).
  { destruct (Z_le_gt_dec e 971) as [Hle | Hgt]; [exact Hle | exfalso].
    assert (e = 972 /\ e' = 971) as [-> ->] by lia.
    rewrite <- Hval in Hq. change (2 ^ (972 - 971)) with 2 in Hq.
    change (2 ^ (971 - 971)) with 1 in Hq.
    change (2 ^ 52) with 4503599627370496 in Hnorm.
    change (2 ^ 53) with 9007199254740992 in Hq. lia. }
  destruct (Z.leb_spec e 971) as [_ | ?]; [| lia].
  eexists. split; [reflexivity |].
  unfold is_finite. rewrite Prim2SF_SF2Prim_finite by lia. reflexivity.
Qed.

(** Below [2^53], [math.ceil(a / b)] is the ceiling of the exact quotient:
    the rounding of the division never crosses an integer. *)
Lemma truediv_exact_ceiling (a b : Z) :
  0 < a < 2 ^ 53 -> 0 < b < 2 ^ 53 ->
  exists q, truediv a b = Ok q /\ math_ceil q = Ok ((a + b - 1) / b).
Proof.
  intros Ha Hb.
  destruct (truediv_cases a b ltac:(lia) ltac:(lia))
    as (m & e & e' & Hm & Hnorm & He' & He & Hval & Htd).
  rewrite !Z.abs_eq in * by lia.
  replace (xorb (a <? 0) (b <? 0)) with false in Htd
    by (destruct (Z.ltb_spec a 0), (Z.ltb_spec b 0); (reflexivity || lia)).
  pose proof (Z.log2_spec a ltac:(lia)) as Hla. pose proof (Z.log2_spec b ltac:(lia)) as Hlb.
  pose proof (Z.log2_nonneg a) as Hla0. pose proof (Z.log2_nonneg b) as Hlb0.
  assert (Hla52 : Z.log2 a < 53) by (apply Z.log2_lt_pow2; lia).
  assert (Hlb52 : Z.log2 b < 53) by (apply Z.log2_lt_pow2; lia).
  set (la := Z.log2 a) in *. set (lb := Z.log2 b) in *.
  replace (Z.max (la - lb - 53) (-1074)) with (la - lb - 53) in He' by lia.
  (* the exact ceiling *)
  set (c := (a + b - 1) / b).
  assert (Hc : (c - 1) * b < a <= c * b).
  { pose proof (Z.div_mod (a + b - 1) b ltac:(lia)) as Hdm.
    pose proof (Z.mod_pos_bound (a + b - 1) b ltac:(lia)) as Hr.
    fold c in Hdm. nia. }
  (* the rounded quotient at the exponent e' <= 0 *)
  set (t := - e').
  assert (Ht : 0 <= t) by (unfold t; lia).
  assert (HT : 0 < 2 ^ t) by (apply Z.pow_pos_nonneg; lia).
  assert (HbT : b < 2 * 2 ^ t).
  { apply Z.lt_le_trans with (m := 2 ^ (lb + 1)).
    - replace (lb + 1) with (Z.succ lb) by lia. lia.
    - replace (2 * 2 ^ t) with (2 ^ (t + 1)) by (rewrite Z.pow_add_r by lia; lia).
      apply Z.pow_le_mono_r; unfold t; lia. }
  assert (Hq : (c - 1) * 2 ^ t < quotient_at a b e' <= c * 2 ^ t).
  { unfold quotient_at, scaled_num, scaled_den.
    replace (Z.max (- e') 0) with t by (unfold t; lia).
    replace (Z.max e' 0) with 0 by lia. change (2 ^ 0) with 1. rewrite Z.mul_1_r.
    split.
    - apply Z.lt_le_trans with (m := (c - 1) * 2 ^ t + 1); [lia |].
      apply round_half_even_above_half; [lia |]. nia.
    - apply round_half_even_le; [lia |]. nia. }
  rewrite <- Hval in Hq.
  assert (Hmpos : 0 < m).
  { destruct Hnorm as [Hn | Hn]; [| lia]. change (2 ^ 52) with 4503599627370496 in Hn. lia. }
  destruct m as [| p | p]; [lia | | lia].
  destruct (Z.leb_spec e 971) as [_ | ?]; [| lia].
  eexists. split; [exact Htd |].
  unfold math_ceil. rewrite Prim2SF_SF2Prim_finite by lia.
  f_equal. fold c.
  apply is_ceiling_unique with (num := sf_num (S754_finite false p e))
                               (den := sf_den (S754_finite false p e));
    [apply sf_den_pos | apply ceiling_div, sf_den_pos |].
  unfold is_ceiling. cbn [sf_num sf_den].
  destruct (Z.eq_dec e e') as [-> | Hne].
  - rewrite Z.sub_diag in Hq. change (2 ^ 0) with 1 in Hq.
    replace (Z.max e' 0) with 0 by lia. replace (Z.max (- e') 0) with t by (unfold t; lia).
    change (2 ^ 0) with 1. lia.
  - assert (e = e' + 1) as -> by lia.
    replace (e' + 1 - e') with 1 in Hq by lia. change (2 ^ 1) with 2 in Hq.
    destruct (Z.eq_dec e' 0) as [-> | He'0].
    + change (2 ^ t) with 1 in Hq.
      change (Z.max (0 + 1) 0) with 1. change (Z.max (- (0 + 1)) 0) with 0.
      change (2 ^ 0) with 1. change (2 ^ 1) with 2. lia.
    + replace (Z.max (e' + 1) 0) with 0 by lia.
      replace (Z.max (- (e' + 1)) 0) with (t - 1) by (unfold t; lia).
      change (2 ^ 0) with 1.
      replace (2 ^ t) with (2 * 2 ^ (t - 1)) in Hq
        by (rewrite <- Z.pow_succ_r by (unfold t; lia); f_equal; lia).
      lia.
Qed.

Example truediv_matches_float_division :
  truediv 115512 1000 = Ok (115512 / 1000)%float
  /\ truediv 7000 57000 = Ok (7000 / 57000)%float
  /\ truediv (-1) 3 = Ok (-1 / 3)%float
  /\ truediv 1 0 = Raise "ZeroDivisionError"
  /\ truediv (2 ^ 1024) 1 = Raise "OverflowError".
Proof. repeat split; vm_compute; reflexivity. Qed.

(** ** Doubling a float is exact *)

Lemma Prim2SF_two : Prim2SF 2%float = S754_finite false 4503599627370496 (-51).
Proof. reflexivity. Qed.

Lemma shr_1_iter_52 (m : positive) :
  SpecFloat.iter_pos shr_1 52
    {| shr_m := Z.pos (m * 4503599627370496); shr_r := false; shr_s := false |}
  = {| shr_m := Z.pos m; shr_r := false; shr_s := false |}.
Proof.
  change 4503599627370496%positive with (Pos.iter xO 1%positive 52).
  cbn [Pos.iter]. rewrite !Pos.mul_xO_r, Pos.mul_1_r. reflexivity.
Qed.

Lemma shr_1_iter_51 (m : positive) :
  SpecFloat.iter_pos shr_1 51
    {| shr_m := Z.pos (m * 4503599627370496); shr_r := false; shr_s := false |}
  = {| shr_m := Z.pos m~0; shr_r := false; shr_s := false |}.
Proof.
  change 4503599627370496%positive with (Pos.iter xO 1%positive 52).
  cbn [Pos.iter]. rewrite !Pos.mul_xO_r, Pos.mul_1_r. reflexivity.
Qed.

Lemma digits2_shifted (m : positive) :
  Z.pos (digits2_pos (m * 4503599627370496)) = Z.pos (digits2_pos m) + 52.
Proof.
  rewrite !digits2_log2, Pos2Z.inj_mul. change (Z.pos 4503599627370496) with (2 ^ 52).
  rewrite Z.log2_mul_pow2 by lia. lia.
Qed.

Lemma valid_finite_inv (s : bool) (m : positive) (e : Z) :
  valid_binary (S754_finite s m e) = true ->
  e <= 971 /\
  ((Z.pos (digits2_pos m) = 53 /\ -1074 <= e) \/ (Z.pos (digits2_pos m) < 53 /\ e = -1074)).
Proof.
  unfold valid_binary, bounded, canonical_mantissa, fexp, SpecFloat.emin.
  unfold FloatOps.prec, FloatOps.emax.
  intros H. apply andb_prop in H as [Hc He].
  apply Z.eqb_eq in Hc. apply Z.leb_le in He. lia.
Qed.

(** The product of a float of the format by 2.0: the exponent goes up by
    one, or, below the normal range, the mantissa is doubled. *)
Lemma SFmul_two (s : bool) (m : positive) (e : Z) :
  valid_binary (S754_finite s m e) = true ->
  SF64mul (S754_finite s m e) (S754_finite false 4503599627370496 (-51))
  = if Z.pos (digits2_pos m) =? 53
    then if e + 1 <=? 971 then S754_finite s m (e + 1) else S754_infinity s
    else S754_finite s m~0 e.
Proof.
  intros Hv. apply valid_finite_inv in Hv as [He [[Hd Hmin] | [Hd ->]]].
  - rewrite Hd. cbn [Z.eqb Pos.eqb].
    unfold SF64mul, SFmul, binary_round_aux, shr_fexp, fexp, SpecFloat.emin.
    unfold FloatOps.prec, FloatOps.emax. cbn [Zdigits2 shr_record_of_loc].
    rewrite digits2_shifted, Hd.
    replace (Z.max (53 + 52 + (e + -51) - 53) (3 - 1024 - 53) - (e + -51)) with 52 by lia.
    cbn [shr]. rewrite shr_1_iter_52. cbn [shr_m loc_of_shr_record round_nearest_even Zdigits2].
    rewrite Hd.
    replace (Z.max (53 + (e + -51 + 52) - 53) (3 - 1024 - 53) - (e + -51 + 52)) with 0 by lia.
    cbn [shr shr_m xorb]. rewrite xorb_false_r.
    replace (e + -51 + 52) with (e + 1) by lia. reflexivity.
  - destruct (Z.eqb_spec (Z.pos (digits2_pos m)) 53) as [? | _]; [lia |].
    unfold SF64mul, SFmul, binary_round_aux, shr_fexp, fexp, SpecFloat.emin.
    unfold FloatOps.prec, FloatOps.emax. cbn [Zdigits2 shr_record_of_loc].
    rewrite digits2_shifted.
    replace (Z.max (Z.pos (digits2_pos m) + 52 + (-1074 + -51) - 53) (3 - 1024 - 53)
             - (-1074 + -51)) with 51 by lia.
    cbn [shr]. rewrite shr_1_iter_51. cbn [shr_m loc_of_shr_record round_nearest_even Zdigits2].
    cbn [digits2_pos]. rewrite Pos2Z.inj_succ.
    replace (Z.max (Z.succ (Z.pos (digits2_pos m)) + (-1074 + -51 + 51) - 53) (3 - 1024 - 53)
             - (-1074 + -51 + 51)) with 0 by lia.
    cbn [shr shr_m]. rewrite xorb_false_r. reflexivity.
Qed.

(** Twice a float, when it is finite, is twice its exact value. *)
Lemma double_exact (x : float) :
  is_finite (x * 2) = true ->
  sf_num (Prim2SF (x * 2)) * sf_den (Prim2SF x)
  = 2 * sf_num (Prim2SF x) * sf_den (Prim2SF (x * 2)).
Proof.
  unfold is_finite. rewrite mul_spec, Prim2SF_two.
  pose proof (Prim2SF_valid x) as Hv.
  destruct (Prim2SF x) as [s | s | | s m e] eqn:Hx.
  - intros _. reflexivity.
  - discriminate.
  - discriminate.
  - rewrite (SFmul_two s m e Hv).
    apply valid_finite_inv in Hv as [He [[Hd Hmin] | [Hd ->]]].
    + rewrite Hd. cbn [Z.eqb Pos.eqb].
      destruct (Z.leb_spec (e + 1) 971) as [_ | _]; [intros _ | discriminate].
      cbn [sf_num sf_den].
      assert (Hpow : 2 ^ Z.max (e + 1) 0 * 2 ^ Z.max (- e) 0
                     = 2 * 2 ^ Z.max e 0 * 2 ^ Z.max (- (e + 1)) 0).
      { replace (2 * 2 ^ Z.max e 0) with (2 ^ (Z.max e 0 + 1))
          by (rewrite Z.pow_add_r by lia; lia).
        rewrite <- !Z.pow_add_r by lia. f_equal. lia. }
      destruct s; nia.
    + destruct (Z.eqb_spec (Z.pos (digits2_pos m)) 53) as [? | _]; [lia |].
      intros _. cbn [sf_num sf_den]. destruct s; lia.
Qed.

(** A finite float is at most [(2^53 - 1) * 2^971] in magnitude. *)
Lemma finite_magnitude (x : float) :
  Z.abs (sf_num (Prim2SF x)) <= (2 ^ 53 - 1) * 2 ^ 971 * sf_den (Prim2SF x).
Proof.
  pose proof (Prim2SF_valid x) as Hv.
  destruct (Prim2SF x) as [s | s | | s m e] eqn:Hx; try (cbn; lia).
  apply valid_finite_inv in Hv as [He Hd].
  assert (Hm : Z.pos m < 2 ^ 53).
  { apply Z.log2_lt_pow2; [lia |]. pose proof (digits2_log2 m). lia. }
  cbn [sf_num sf_den].
  assert (Hpow : 2 ^ Z.max e 0 * 2 ^ (971 - e) = 2 ^ 971 * 2 ^ Z.max (- e) 0).
  { rewrite <- !Z.pow_add_r by lia. f_equal. lia. }
  assert (1 <= 2 ^ (971 - e)) by (assert (0 < 2 ^ (971 - e)) by (apply Z.pow_pos_nonneg; lia); lia).
  assert (0 < 2 ^ Z.max e 0) by (apply Z.pow_pos_nonneg; lia).
  assert (0 < 2 ^ Z.max (- e) 0) by (apply Z.pow_pos_nonneg; lia).
  change (2 ^ 53) with 9007199254740992 in *.
  replace (Z.abs ((if s then Z.neg m else Z.pos m) * 2 ^ Z.max e 0))
    with (Z.pos m * 2 ^ Z.max e 0) by (destruct s; lia).
  apply Z.le_trans with (m := (9007199254740992 - 1) * (2 ^ Z.max e 0 * 2 ^ (971 - e))).
  - apply Z.le_trans with (m := (9007199254740992 - 1) * 2 ^ Z.max e 0); [nia |].
    apply Z.mul_le_mono_nonneg_l; [lia |]. nia.
  - rewrite Hpow. lia.
Qed.

Lemma ceiling_magnitude (k num den bound : Z) :
  0 < den -> 0 <= bound -> Z.abs num <= bound * den -> is_ceiling k num den ->
  Z.abs k <= bound.
Proof. unfold is_ceiling. intros Hd Hb Hn Hk. nia. Qed.

(** ** Planning *)

Lemma planning_copies_agree {W} `{Libs W} (base_p mde_target : float) (dau : Z) (w : W) :
  Bayesian.planning base_p mde_target dau w = AbSim.planning base_p mde_target dau w.
Proof. reflexivity. Qed.


(** The planning run to its end: the library gives an effect size and a
    finite sample size per group, and the daily volume is not zero. *)
Lemma plan_body_run {W} `{Libs W} (base_p mde_target : float) (dau : Z)
      (w w1 w2 : W) (e n : float) :
  proportion_effectsize (base_p * (1 + mde_target))%float base_p w = (Ok e, w1) ->
  solve_power e f_0_05 f_0_8 1%float w1 = (Ok n, w2) ->
  is_finite (n * 2) = true ->
  dau <> 0 ->
  exists k q d,
    math_ceil (n * 2)%float = Ok k /\ truediv k dau = Ok q /\ math_ceil q = Ok d /\
    AbSim.plan_body base_p mde_target dau w
    = (Ok {| p2_mde := (base_p * (1 + mde_target))%float; es := e;
             req_n_per_group := n; req_n := k; est_days := d |}, w2).
Proof.
  intros Hes Hn Hfin Hdau.
  destruct (math_ceil_finite _ Hfin) as (k & Hk & Hkc).
  assert (Hmag : Z.abs k <= (2 ^ 53 - 1) * 2 ^ 971).
  { apply (ceiling_magnitude k (sf_num (Prim2SF (n * 2))) (sf_den (Prim2SF (n * 2))));
      [apply sf_den_pos | vm_compute; discriminate | apply finite_magnitude | exact Hkc]. }
  destruct (truediv_total k dau Hmag Hdau) as (q & Hq & Hqfin).
  destruct (math_ceil_finite _ Hqfin) as (d & Hd & _).
  exists k, q, d. repeat (split; [assumption |]).
  unfold AbSim.plan_body, bind, lift, ret. rewrite Hes, Hn, Hk, Hq, Hd. reflexivity.
Qed.

(** ** The target rate within the sliders' ranges *)












Lemma is_ceiling_scale (k n1 d1 n2 d2 : Z) :
  0 < d1 -> 0 < d2 -> n1 * d2 = n2 * d1 -> is_ceiling k n1 d1 -> is_ceiling k n2 d2.
Proof.
  unfold is_ceiling. intros Hd1 Hd2 Heq [Hlo Hhi]. split.
  - apply (Z.mul_lt_mono_pos_r d1); [exact Hd1 |]. rewrite <- Heq.
    replace ((k - 1) * d2 * d1) with ((k - 1) * d1 * d2) by ring.
    apply Z.mul_lt_mono_pos_r; assumption.
  - apply (Z.mul_le_mono_pos_r _ _ d1); [exact Hd1 |]. rewrite <- Heq.
    replace (k * d2 * d1) with (k * d1 * d2) by ring.
    apply Z.mul_le_mono_nonneg_r; [lia | assumption].
Qed.

Lemma ceiling_exact (a b : Z) : 0 < b -> is_ceiling ((a + b - 1) / b) a b.
Proof.
  intros Hb. unfold is_ceiling.
  pose proof (Z.div_mod (a + b - 1) b ltac:(lia)) as Hdm.
  pose proof (Z.mod_pos_bound (a + b - 1) b Hb) as Hr.
  nia.
Qed.

Example planning_example :
  AbSim.planning (H := canned plan_example) 0x1.999999999999ap-4%float
    0x1.999999999999ap-5%float 1000 tt
  = (Ok (Planned {| p2_mde := 0x1.ae147ae147ae2p-4%float;
                    es := 0x1.0e1c38925acap-6%float;
                    req_n_per_group := 0x1.c3378f9a0e933p+15%float;
                    req_n := 115512; est_days := 116 |}), tt).
Proof. vm_compute. reflexivity. Qed.

(** C8. The totals of the plan. Let the power solve give a sample size [n]
    per group whose double is a finite float, and let the daily volume be
    positive. Then the planning of either script completes; the total
    required sample size is the least integer not below [2 n], for the exact
    value of [n]; the required days are the least integer not below the
    (float) quotient of the total by the daily volume, and, when the total
    and the daily volume are positive and below [2^53], the least integer
    not below their exact quotient. *)
Theorem planning_totals :
  forall (W : Type) (L : Libs W) (base_p mde_target : float) (dau : Z)
         (w w1 w2 : W) (e n : float),
    proportion_effectsize (base_p * (1 + mde_target))%float base_p w = (Ok e, w1) ->
    solve_power e f_0_05 f_0_8 1%float w1 = (Ok n, w2) ->
    is_finite (n * 2) = true ->
    0 < dau ->
    exists p q,
      AbSim.planning base_p mde_target dau w = (Ok (Planned p), w2) /\
      Bayesian.planning base_p mde_target dau w = (Ok (Planned p), w2) /\
      req_n_per_group p = n /\
      is_ceiling (req_n p) (2 * sf_num (Prim2SF n)) (sf_den (Prim2SF n)) /\
      truediv (req_n p) dau = Ok q /\
      is_ceiling (est_days p) (sf_num (Prim2SF q)) (sf_den (Prim2SF q)) /\
      (0 < req_n p < 2 ^ 53 -> dau < 2 ^ 53 -> is_ceiling (est_days p) (req_n p) dau).
Proof.
  intros W L base_p mde_target dau w w1 w2 e n Hes Hn Hfin Hdau.
  destruct (plan_body_run base_p mde_target dau w w1 w2 e n Hes Hn Hfin ltac:(lia))
    as (k & q & d & Hk & Hq & Hd & Hrun).
  eexists. exists q.
  assert (Hplan : AbSim.planning base_p mde_target dau w
                  = (Ok (Planned {| p2_mde := (base_p * (1 + mde_target))%float; es := e;
                                    req_n_per_group := n; req_n := k; est_days := d |}), w2)).
  { unfold AbSim.planning, try_except, bind, ret. rewrite Hrun. reflexivity. }
  split; [exact Hplan |]. split; [exact Hplan |].
  cbn [req_n_per_group req_n est_days].
  split; [reflexivity |].
  split.
  { apply (is_ceiling_scale k (sf_num (Prim2SF (n * 2))) (sf_den (Prim2SF (n * 2))));
      [apply sf_den_pos | apply sf_den_pos | | apply math_ceil_is_ceiling, Hk].
    rewrite double_exact by exact Hfin. ring. }
  split; [exact Hq |].
  split; [apply math_ceil_is_ceiling, Hd |].
  intros Hk53 Hd53.
  destruct (truediv_exact_ceiling k dau Hk53 ltac:(lia)) as (q' & Hq' & Hc).
  rewrite Hq in Hq'. injection Hq' as <-. rewrite Hd in Hc. injection Hc as ->.
  apply ceiling_exact, Hdau.
Qed.

Lemma planning_totals_witness :
  exists p q,
    AbSim.planning (H := canned plan_example) 0x1.999999999999ap-4%float
      0x1.999999999999ap-5%float 1000 tt = (Ok (Planned p), tt) /\
    Bayesian.planning (H := canned plan_example) 0x1.999999999999ap-4%float
      0x1.999999999999ap-5%float 1000 tt = (Ok (Planned p), tt) /\
    req_n_per_group p = 0x1.c3378f9a0e933p+15%float /\
    is_ceiling (req_n p) (2 * sf_num (Prim2SF 0x1.c3378f9a0e933p+15%float))
      (sf_den (Prim2SF 0x1.c3378f9a0e933p+15%float)) /\
    truediv (req_n p) 1000 = Ok q /\
    is_ceiling (est_days p) (sf_num (Prim2SF q)) (sf_den (Prim2SF q)) /\
    (0 < req_n p < 2 ^ 53 -> 1000 < 2 ^ 53 -> is_ceiling (est_days p) (req_n p) 1000).
Proof.
  apply (planning_totals unit (canned plan_example) 0x1.999999999999ap-4%float
           0x1.999999999999ap-5%float 1000 tt tt tt
           0x1.0e1c38925acap-6%float 0x1.c3378f9a0e933p+15%float);
    vm_compute; reflexivity.
Defined.

(** ** Signs of float operations *)

Lemma iter_pos_invariant {A} (P : A -> Prop) (f : A -> A) :
  (forall x, P x -> P (f x)) ->
  forall p x, P x -> P (SpecFloat.iter_pos f p x).
Proof.
  intros Hf. induction p as [p IH | p IH |]; intros x Hx; cbn [SpecFloat.iter_pos]; auto.
Qed.

Lemma shr_1_nonneg (mrs : shr_record) : 0 <= shr_m mrs -> 0 <= shr_m (shr_1 mrs).
Proof.
  destruct mrs as [m r s]. cbn [shr_m shr_1].
  destruct m as [| [p | p |] | p]; cbn [shr_m]; lia.
Qed.

Lemma shr_fexp_nonneg (m e : Z) (l : location) :
  0 <= m -> 0 <= shr_m (fst (shr_fexp FloatOps.prec FloatOps.emax m e l)).
Proof.
  intros Hm. unfold shr_fexp, shr.
  assert (H0 : 0 <= shr_m (shr_record_of_loc m l)) by (destruct l as [| []]; exact Hm).
  destruct (fexp _ _ _ - e) as [| p | p]; cbn [fst]; try exact H0.
  apply iter_pos_invariant; [apply shr_1_nonneg | exact H0].
Qed.

Lemma round_nearest_even_nonneg (m : Z) (l : location) :
  0 <= m -> 0 <= round_nearest_even m l.
Proof.
  intros Hm. destruct l as [| []]; cbn [round_nearest_even]; try lia.
  destruct (Z.even m); lia.
Qed.

Lemma binary_round_aux_sign (s : bool) (m e : Z) (l : location) :
  0 <= m -> has_sign s (binary_round_aux FloatOps.prec FloatOps.emax s m e l).
Proof.
  intros Hm. unfold binary_round_aux.
  pose proof (shr_fexp_nonneg m e l Hm) as H1.
  destruct (shr_fexp FloatOps.prec FloatOps.emax m e l) as [mrs' e'].
  cbn [fst] in H1.
  pose proof (shr_fexp_nonneg _ e' loc_Exact
                (round_nearest_even_nonneg _ (loc_of_shr_record mrs') H1)) as H2.
  destruct (shr_fexp _ _ (round_nearest_even _ _) e' loc_Exact) as [mrs'' e''].
  cbn [fst] in H2.
  destruct (shr_m mrs'') as [| p | p]; [reflexivity | | lia].
  destruct (e'' <=? _); reflexivity.
Qed.

Lemma binary_normalize_number (m e : Z) (sz : bool) :
  sf_number (binary_normalize FloatOps.prec FloatOps.emax m e sz).
Proof.
  unfold binary_normalize, binary_round.
  destruct m as [| p | p]; [exact I | |];
    destruct (shl_align _ _ _) as [mz ez];
    match goal with
    | |- sf_number (binary_round_aux _ _ ?s ?m ?e ?l) =>
        pose proof (binary_round_aux_sign s m e l ltac:(lia)) as H;
        destruct (binary_round_aux _ _ s m e l); (exact I || contradiction)
    end.
Qed.

Lemma binary_normalize_pos (p : positive) (e : Z) (sz : bool) :
  sf_nonneg (binary_normalize FloatOps.prec FloatOps.emax (Z.pos p) e sz).
Proof.
  unfold binary_normalize, binary_round.
  destruct (shl_align _ _ _) as [mz ez].
  pose proof (binary_round_aux_sign false (Z.pos mz) ez loc_Exact ltac:(lia)) as H.
  destruct (binary_round_aux _ _ false (Z.pos mz) ez loc_Exact) as [s | s | | s m' e'];
    cbn in H |- *; subst; (exact I || contradiction).
Qed.

Lemma SFadd_nonneg (x y : spec_float) :
  sf_nonneg x -> sf_nonneg y -> sf_nonneg (SF64add x y).
Proof.
  unfold SF64add, SFadd.
  destruct x as [sx | [] | | [] mx ex]; destruct y as [sy | [] | | [] my ey];
    cbn [sf_nonneg]; try contradiction; intros _ _; try exact I.
  - destruct sx, sy; exact I.
  - unfold cond_Zopp. apply binary_normalize_pos.
Qed.

Lemma SFsub_number (x y : spec_float) :
  sf_nonneg x -> sf_nonneg y -> x <> S754_infinity false -> y <> S754_infinity false ->
  sf_number (SF64sub x y).
Proof.
  unfold SF64sub, SFsub.
  destruct x as [sx | [] | | [] mx ex]; destruct y as [sy | [] | | [] my ey];
    cbn [sf_nonneg]; try contradiction; intros _ _ Hx Hy; try congruence; try exact I.
  - destruct sx, sy; exact I.
  - apply binary_normalize_number.
Qed.

Lemma SFdiv_nonneg (x : spec_float) (p : positive) (e : Z) :
  sf_nonneg x -> sf_nonneg (SF64div x (S754_finite false p e)).
Proof.
  unfold SF64div, SFdiv.
  destruct x as [sx | [] | | [] mx ex]; cbn [sf_nonneg]; try contradiction; intros _; try exact I.
  unfold SFdiv_core_binary.
  set (m' := match _ - _ with Z0 => _ | Z.pos _ => _ | Z.neg _ => _ end).
  assert (Hm' : 0 <= m').
  { unfold m'. destruct (_ - _); [lia | apply Z.shiftl_nonneg; lia | lia]. }
  pose proof (Z.div_pos m' (Z.pos p) Hm' ltac:(lia)) as Hq.
  unfold Z.div in Hq. destruct (Z.div_eucl m' (Z.pos p)) as [q r]. cbn [fst] in Hq.
  pose proof (binary_round_aux_sign (xorb false false) q
                (Z.min (fexp FloatOps.prec FloatOps.emax
                          (Zdigits2 (Z.pos mx) + ex - (Zdigits2 (Z.pos p) + e))) (ex - e))
                (new_location (Z.pos p) r) Hq) as H.
  destruct (binary_round_aux _ _ _ q _ _) as [s | s | | s m'' e'']; cbn in H |- *;
    subst; (exact I || contradiction).
Qed.

Lemma leb_zero_nonneg (x : float) :
  (0 <=? x)%float = true <-> sf_nonneg (Prim2SF x).
Proof.
  rewrite FloatAxioms.leb_spec. change (Prim2SF 0) with (S754_zero false).
  destruct (Prim2SF x) as [s | [] | | [] m e]; cbn; split; intros H;
    first [exact I | reflexivity | discriminate | contradiction].
Qed.

Lemma in_unit_inv (x : float) :
  in_unit x = true ->
  sf_nonneg (Prim2SF x) /\ Prim2SF x <> S754_infinity false.
Proof.
  unfold in_unit. intros H. apply andb_prop in H as [H0 H1].
  split; [apply leb_zero_nonneg, H0 |].
  intros Hinf. rewrite FloatAxioms.leb_spec, Hinf in H1.
  change (Prim2SF 1) with (S754_finite false 4503599627370496 (-52)) in H1.
  discriminate.
Qed.

Lemma add_nonneg (x y : float) :
  (0 <=? x)%float = true -> (0 <=? y)%float = true -> (0 <=? x + y)%float = true.
Proof.
  rewrite !leb_zero_nonneg, FloatAxioms.add_spec. apply SFadd_nonneg.
Qed.

Lemma eqb_refl_number (x : float) : sf_number (Prim2SF x) -> (x =? x)%float = true.
Proof.
  rewrite FloatAxioms.eqb_spec. unfold SFeqb, SFcompare.
  destruct (Prim2SF x) as [s | [] | | [] m e]; cbn [sf_number];
    intros H; try contradiction; try reflexivity;
    rewrite Z.compare_refl, Pos.compare_cont_refl; reflexivity.
Qed.

(** The loss of a paired draw is not negative. *)
Lemma loss_of_draw_nonneg (a b : float) :
  in_unit a = true -> in_unit b = true -> (0 <=? loss_of_draw a b)%float = true.
Proof.
  intros Ha Hb. apply in_unit_inv in Ha as [Ha Ha']. apply in_unit_inv in Hb as [Hb Hb'].
  pose proof (SFsub_number _ _ Ha Hb Ha' Hb') as Hd. rewrite <- FloatAxioms.sub_spec in Hd.
  unfold loss_of_draw, np_maximum. rewrite (eqb_refl_number _ Hd), orb_false_r.
  destruct (0 <=? a - b)%float eqn:Hle; [exact Hle | reflexivity].
Qed.

Lemma nth_nonneg (xs : list float) (i : nat) :
  Forall (fun x => (0 <=? x)%float = true) xs -> (0 <=? nth i xs 0)%float = true.
Proof.
  intros Hxs. destruct (Nat.lt_ge_cases i (List.length xs)) as [Hlt | Hge].
  - rewrite Forall_forall in Hxs. apply Hxs. apply list_elem_of_In, nth_In, Hlt.
  - rewrite nth_overflow by exact Hge. reflexivity.
Qed.

(** A sum of floats that are not negative, in whatever order, is not
    negative. *)
Lemma addtree_eval_nonneg (xs : list float) (t : addtree) :
  Forall (fun x => (0 <=? x)%float = true) xs -> (0 <=? addtree_eval xs t)%float = true.
Proof.
  intros Hxs. induction t as [i | l IHl r IHr]; cbn [addtree_eval].
  - apply nth_nonneg, Hxs.
  - apply add_nonneg; assumption.
Qed.

Lemma Prim2SF_20000 :
  Prim2SF (float_of_Z 20000) = S754_finite false 5497558138880000 (-38).
Proof. vm_compute. reflexivity. Qed.

Lemma mean_20000_nonneg {W} `{Libs W} (xs : list float) :
  Z.of_nat (List.length xs) = 20000 ->
  Forall (fun x => (0 <=? x)%float = true) xs ->
  (0 <=? np_mean xs)%float = true.
Proof.
  intros Hlen Hxs. unfold np_mean.
  destruct xs as [| x xs']; [discriminate |].
  rewrite Hlen.
  apply leb_zero_nonneg. rewrite FloatAxioms.div_spec, Prim2SF_20000.
  apply SFdiv_nonneg, leb_zero_nonneg, addtree_eval_nonneg, Hxs.
Qed.

(** A count of at most 20000 over 20000 is a float between 0 and 1:
    checked on each of the 20001 counts. *)
Lemma all_from_spec (f : Z -> bool) (n : nat) :
  forall k i, all_from f k n = true -> k <= i < k + Z.of_nat n -> f i = true.
Proof.
  induction n as [| n IH]; intros k i H Hi; [lia |].
  cbn [all_from] in H. apply andb_prop in H as [H0 H1].
  destruct (Z.eq_dec i k) as [-> | Hne]; [exact H0 |].
  apply (IH (Z.succ k)); [exact H1 | lia].
Qed.

Lemma fraction_of_20000 (k : Z) :
  0 <= k <= 20000 ->
  in_unit (float_of_Z k / float_of_Z 20000)%float = true.
Proof.
  intros Hk.
  apply (all_from_spec
           (fun i => in_unit (float_of_Z i / float_of_Z 20000)%float)
           (Z.to_nat 20001) 0); [vm_compute; reflexivity | lia].
Qed.

Lemma filter_length_le {A} (f : A -> bool) (l : list A) :
  (List.length (List.filter f l) <= List.length l)%nat.
Proof.
  induction l as [| x l IH]; cbn [List.filter List.length]; [lia |].
  destruct (f x); cbn [List.length]; lia.
Qed.

Lemma b_wins_count_range (a_samples b_samples : list float) :
  0 <= b_wins_count a_samples b_samples <= Z.of_nat (List.length a_samples).
Proof.
  unfold b_wins_count.
  pose proof (filter_length_le (fun ab : float * float => (fst ab <? snd ab)%float)
                (combine a_samples b_samples)) as Hle.
  rewrite length_combine in Hle. lia.
Qed.

(** The array [b_samples > a_samples] has as many [True] as there are
    paired draws in which B's draw exceeds A's. *)
Lemma b_wins_zip (a_samples b_samples : list float) :
  List.length (List.filter (fun b : bool => b)
                 (zip_with (fun b a => (a <? b)%float) b_samples a_samples))
  = List.length (List.filter (fun ab : float * float => (fst ab <? snd ab)%float)
                   (combine a_samples b_samples)).
Proof.
  revert b_samples. induction a_samples as [| a l IH]; intros [| b l'];
    cbn [zip_with combine List.filter List.length]; try reflexivity.
  cbn [fst snd]. destruct (a <? b)%float; cbn [List.length]; rewrite IH; reflexivity.
Qed.

Lemma loss_zip (a_samples b_samples : list float) :
  map (fun d => np_maximum d 0%float) (zip_with (fun a b => (a - b)%float) a_samples b_samples)
  = zip_with loss_of_draw a_samples b_samples.
Proof.
  revert b_samples. induction a_samples as [| a l IH]; intros [| b l'];
    cbn [zip_with map]; try reflexivity.
  rewrite IH. reflexivity.
Qed.

Lemma loss_zip_nonneg (a_samples b_samples : list float) :
  Forall (fun x => in_unit x = true) a_samples ->
  Forall (fun x => in_unit x = true) b_samples ->
  Forall (fun x => (0 <=? x)%float = true) (zip_with loss_of_draw a_samples b_samples).
Proof.
  intros Ha. revert b_samples. induction Ha as [| a l Ha Hl IH]; intros b_samples Hb.
  - constructor.
  - destruct Hb as [| b l' Hb Hl']; cbn [zip_with]; constructor.
    + apply loss_of_draw_nonneg; assumption.
    + apply IH, Hl'.
Qed.

(** ** The Bayesian comparison *)

(** C7. The Bayesian comparison. For counts with [0 <= clicks <= n] in
    both groups, and a generator that honours [NumpyContract],
    [run_bayesian_analysis] asks for 20000 draws of
    Beta(1 + clicks, 1 + n - clicks) for group A, then for group B; it
    returns as [prob_b_better] the number of paired draws in which B's draw
    exceeds A's, over 20000, and as [expected_loss] the mean (in NumPy's
    order of summation, each draw entering once) of [max(a - b, 0)] over
    the paired draws. Hence [prob_b_better] lies between 0 and 1 and
    [expected_loss] is not negative. *)
Theorem bayesian_comparison :
  forall (W : Type) (L : Libs W),
    NumpyContract L ->
    forall (c_clicks c_n t_clicks t_n : Z) (w : W),
      0 <= c_clicks <= c_n ->
      0 <= t_clicks <= t_n ->
      exists (a_samples b_samples : list float) (w1 w2 : W),
        np_random_beta (1 + c_clicks) (1 + c_n - c_clicks) 20000 w = (Ok a_samples, w1) /\
        np_random_beta (1 + t_clicks) (1 + t_n - t_clicks) 20000 w1 = (Ok b_samples, w2) /\
        Z.of_nat (List.length a_samples) = 20000 /\
        Z.of_nat (List.length b_samples) = 20000 /\
        Permutation (addtree_leaves (np_add_order (List.length a_samples)))
          (seq 0 (List.length a_samples)) /\
        let wins := b_wins_count a_samples b_samples in
        let prob_b_better := (float_of_Z wins / float_of_Z 20000)%float in
        let expected_loss := np_mean (zip_with loss_of_draw a_samples b_samples) in
        Bayesian.run_bayesian_analysis c_clicks c_n t_clicks t_n w
        = (Ok (prob_b_better, expected_loss), w2) /\
        0 <= wins <= 20000 /\
        (0 <=? prob_b_better)%float = true /\
        (prob_b_better <=? 1)%float = true /\
        (0 <=? expected_loss)%float = true.
Proof.
  intros W L C c_clicks c_n t_clicks t_n w Hc Ht.
  destruct (beta_draws (1 + c_clicks) (1 + c_n - c_clicks) 20000 w
              ltac:(lia) ltac:(lia) ltac:(lia)) as (a_samples & w1 & Ha & Hla & Hua).
  destruct (beta_draws (1 + t_clicks) (1 + t_n - t_clicks) 20000 w1
              ltac:(lia) ltac:(lia) ltac:(lia)) as (b_samples & w2 & Hb & Hlb & Hub).
  exists a_samples, b_samples, w1, w2.
  assert (Hlen : List.length a_samples = List.length b_samples) by lia.
  pose proof (b_wins_count_range a_samples b_samples) as Hwins.
  split; [exact Ha |]. split; [exact Hb |]. split; [exact Hla |]. split; [exact Hlb |].
  split; [apply add_order_leaves; lia |].
  intros wins prob_b_better expected_loss.
  assert (Hprob : in_unit prob_b_better = true) by (apply fraction_of_20000; lia).
  apply andb_prop in Hprob as [Hp0 Hp1].
  split; [| split; [lia | split; [exact Hp0 | split; [exact Hp1 |]]]].
  - unfold Bayesian.run_bayesian_analysis, bind, lift, ret, np_zip. cbv zeta.
    rewrite Ha, Hb.
    replace (List.length b_samples =? List.length a_samples)%nat with true
      by (symmetry; apply Nat.eqb_eq; lia).
    replace (List.length a_samples =? List.length b_samples)%nat with true
      by (symmetry; apply Nat.eqb_eq; lia).
    rewrite loss_zip. unfold np_mean_bool.
    rewrite b_wins_zip, length_zip_with_l_eq by lia.
    rewrite Hlb. reflexivity.
  - apply mean_20000_nonneg.
    + rewrite length_zip_with_l_eq by lia. exact Hla.
    + apply loss_zip_nonneg; assumption.
Qed.

Lemma left_order_leaves (n : nat) :
  (0 < n)%nat -> addtree_leaves (left_order n) = seq 0 n.
Proof.
  destruct n as [| n]; [lia |]. intros _.
  induction n as [| n IH]; [reflexivity |].
  change (left_order (S (S n))) with (Plus (left_order (S n)) (Leaf (S n))).
  cbn [addtree_leaves]. rewrite IH. symmetry. apply (seq_S (S n) 0).
Qed.

Lemma small_run_contract : NumpyContract (canned small_run).
Proof.
  split.
  - intros a b size [] Ha Hb Hsize.
    exists (repeat (if a <? b then 0.25%float else 0.75%float) (Z.to_nat size)), tt.
    split; [| split].
    + cbn. unfold lift, crude_beta.
      destruct (Z.ltb_spec 0 a); [| lia]. destruct (Z.ltb_spec 0 b); [| lia]. reflexivity.
    + rewrite repeat_length. lia.
    + apply Forall_forall. intros x Hx. apply list_elem_of_In, repeat_spec in Hx. subst x.
      destruct (a <? b); reflexivity.
  - intros n Hn. cbn. rewrite left_order_leaves by exact Hn. reflexivity.
Qed.

Lemma bayesian_comparison_witness :
  exists prob_b_better expected_loss,
    Bayesian.run_bayesian_analysis (H := canned small_run) 1 2 2 2 tt
    = (Ok (prob_b_better, expected_loss), tt)
    /\ (0 <=? prob_b_better)%float = true
    /\ (prob_b_better <=? 1)%float = true
    /\ (0 <=? expected_loss)%float = true.
Proof.
  destruct (bayesian_comparison unit (canned small_run) small_run_contract 1 2 2 2 tt
              ltac:(lia) ltac:(lia))
    as (a_samples & b_samples & [] & [] & _ & _ & _ & _ & _ & Hrun & _ & H0 & H1 & Hloss).
  eexists. eexists. split; [exact Hrun |]. split; [exact H0 |]. split; [exact H1 | exact Hloss].
Defined.

(** ** The two-proportion analysis *)

Lemma groupby_step_lookup (rows : list row) (m : gmap string (Z * Z)) (label : string) :
  fold_left
    (fun (m : gmap string (Z * Z)) (r : row) =>
       let '(n, s) := default (0, 0) (m !! fst r) in
       <[fst r := (n + 1, s + snd r)]> m)
    rows m !! label
  = match m !! label with
    | Some (n0, s0) => Some (n0 + count_of label rows, s0 + sum_of label rows)
    | None =>
        if count_of label rows =? 0 then None
        else Some (count_of label rows, sum_of label rows)
    end.
Proof.
  revert m. induction rows as [| [g c] rows IH]; intros m.
  - change (count_of label []) with 0. change (sum_of label []) with 0.
    cbn [fold_left]. destruct (m !! label) as [[n0 s0] |]; [| reflexivity].
    rewrite !Z.add_0_r. reflexivity.
  - cbn [fold_left fst snd]. rewrite IH. clear IH.
    unfold count_of, sum_of. cbn [List.filter fst].
    destruct (String.eqb_spec g label) as [-> | Hne].
    + cbn [List.length map fold_right snd].
      destruct (m !! label) as [[n0 s0] |] eqn:Hm; cbn [default from_option id];
        rewrite lookup_insert_eq.
      * do 2 f_equal; lia.
      * destruct (Z.eqb_spec (Z.of_nat (S (List.length
                   (List.filter (fun r : row => String.eqb (fst r) label) rows)))) 0);
          [lia |].
        do 2 f_equal; lia.
    + destruct (default (0, 0) (m !! g)) as [n s].
      rewrite lookup_insert_ne by exact Hne. reflexivity.
Qed.

(** The aggregate has a row for a label exactly when the label has
    observations, and the row holds their number and their sum. *)
Lemma groupby_agg_lookup (rows : list row) (label : string) :
  groupby_agg rows !! label
  = if count_of label rows =? 0 then None
    else Some (count_of label rows, sum_of label rows).
Proof. unfold groupby_agg. rewrite groupby_step_lookup, lookup_empty. reflexivity. Qed.

Lemma loc_present (rows : list row) (label : string) :
  0 < count_of label rows ->
  loc (groupby_agg rows) label "count" = Ok (count_of label rows) /\
  loc (groupby_agg rows) label "sum" = Ok (sum_of label rows).
Proof.
  intros Hn. unfold loc. rewrite groupby_agg_lookup.
  destruct (Z.eqb_spec (count_of label rows) 0) as [? | _]; [lia |].
  split; reflexivity.
Qed.

Lemma loc_absent (rows : list row) (label column : string) :
  count_of label rows = 0 ->
  loc (groupby_agg rows) label column = Raise "KeyError".
Proof.
  intros Hn. unfold loc. rewrite groupby_agg_lookup, Hn. reflexivity.
Qed.

Lemma count_of_nonneg (label : string) (rows : list row) : 0 <= count_of label rows.
Proof. unfold count_of. lia. Qed.

Example observed_lift_of_small_run :
  AbSim.analysis (H := canned small_run)
    (groupby_agg [("A", 0); ("B", 1); ("A", 0); ("B", 0)]) tt
  = (Ok {| AbSim.ca := 0%float; AbSim.cb := 0.5%float; AbSim.obs_lift := PyInt 0;
           AbSim.z := 0x1.279a74590331dp+0%float;
           AbSim.p_val := 0x1.fc5723859c08p-3%float |}, tt).
Proof. vm_compute. reflexivity. Qed.

(** C5, as stated, fails. With observations of group B only, the lookup
    of group A in the aggregate raises [KeyError] in both scripts, not an
    error of the kind [InsufficientData]. With two observations in each
    group and no click in group A, both counts are positive and the rate of
    A is 0: [ab_sim.py] gives the observed lift 0, which is not
    [rate_b / rate_a - 1], an infinity; [bayesian.py] divides by the zero
    rate and gives that infinity. *)
Lemma analysis_without_group_or_clicks :
  AbSim.analysis (H := canned small_run) (groupby_agg [("B", 1); ("B", 0)]) tt
    = (Raise "KeyError", tt)
  /\ Bayesian.analysis (H := canned small_run) (groupby_agg [("B", 1); ("B", 0)]) tt
    = (Raise "KeyError", tt)
  /\ groupby_agg [("A", 0); ("B", 1); ("A", 0); ("B", 0)] !! "A" = Some (2, 0)
  /\ groupby_agg [("A", 0); ("B", 1); ("A", 0); ("B", 0)] !! "B" = Some (2, 1)
  /\ (exists st,
        AbSim.analysis (H := canned small_run)
          (groupby_agg [("A", 0); ("B", 1); ("A", 0); ("B", 0)]) tt = (Ok st, tt)
        /\ AbSim.obs_lift st = PyInt 0)
  /\ (np_true_divide 1 2 / np_true_divide 0 2 - 1)%float = infinity
  /\ Bayesian.observed_lift 2 0 2 1 = infinity.
Proof.
  split; [vm_compute; reflexivity |].
  split; [vm_compute; reflexivity |].
  split; [vm_compute; reflexivity |].
  split; [vm_compute; reflexivity |].
  split; [eexists; split; [vm_compute; reflexivity | reflexivity] |].
  split; vm_compute; reflexivity.
Qed.

(** C5, amended. When a group has no observation, the aggregate has no
    row for it and the analysis of either script fails with [KeyError]
    (there is no [InsufficientData]), before any test is run. When both
    groups have observations, the z statistic and the p-value are what
    [proportions_ztest] returns on the counts of B and A. In [bayesian.py]
    the observed lift is [rate_b / rate_a - 1] in float arithmetic, an
    infinity or a NaN when the rate of A is 0; in [ab_sim.py] it is
    [rate_b / rate_a - 1] when the rate of A is positive, and 0
    otherwise. *)
Theorem analysis_lookup_and_lift :
  forall (W : Type) (L : Libs W) (rows : list row) (w : W),
    let res := groupby_agg rows in
    let n_a := count_of "A" rows in
    let s_a := sum_of "A" rows in
    let n_b := count_of "B" rows in
    let s_b := sum_of "B" rows in
    let rate_a := np_true_divide s_a n_a in
    let rate_b := np_true_divide s_b n_b in
    (n_a = 0 \/ n_b = 0 ->
     AbSim.analysis res w = (Raise "KeyError", w) /\
     Bayesian.analysis res w = (Raise "KeyError", w)) /\
    (0 < n_a -> 0 < n_b ->
     forall (zp : float * float) (w1 : W),
       proportions_ztest [s_b; s_a] [n_b; n_a] w = (Ok zp, w1) ->
       AbSim.analysis res w
       = (Ok {| AbSim.ca := rate_a; AbSim.cb := rate_b;
                AbSim.obs_lift :=
                  if (0 <? rate_a)%float then PyFloat (rate_b / rate_a - 1)%float
                  else PyInt 0;
                AbSim.z := fst zp; AbSim.p_val := snd zp |}, w1) /\
       forall (bayes : float * float) (w2 : W),
         Bayesian.run_bayesian_analysis s_a n_a s_b n_b w1 = (Ok bayes, w2) ->
         Bayesian.analysis res w
         = (Ok {| Bayesian.z := fst zp; Bayesian.p_val := snd zp;
                  Bayesian.prob_b_wins := fst bayes; Bayesian.exp_loss := snd bayes;
                  Bayesian.obs_lift := (rate_b / rate_a - 1)%float |}, w2) /\
         Bayesian.observed_lift n_a s_a n_b s_b = (rate_b / rate_a - 1)%float).
Proof.
  intros W L rows w res n_a s_a n_b s_b rate_a rate_b.
  pose proof (count_of_nonneg "A" rows) as Hna. pose proof (count_of_nonneg "B" rows) as Hnb.
  fold n_a in Hna. fold n_b in Hnb.
  split.
  - intros Hzero.
    unfold AbSim.analysis, Bayesian.analysis, bind, lift. fold res.
    destruct (Z.eq_dec n_a 0) as [Ha | Ha].
    + unfold res. rewrite !(loc_absent rows "A") by exact Ha. split; reflexivity.
    + destruct (loc_present rows "A" ltac:(fold n_a; lia)) as [Hc Hs].
      assert (Hb : n_b = 0) by lia.
      unfold res. rewrite Hc, Hs, !(loc_absent rows "B") by exact Hb. split; reflexivity.
  - intros Ha Hb zp w1 Hz.
    destruct (loc_present rows "A" Ha) as [Hca Hsa].
    destruct (loc_present rows "B" Hb) as [Hcb Hsb].
    unfold AbSim.analysis, Bayesian.analysis, bind, lift, ret. fold res.
    unfold res. rewrite Hca, Hsa, Hcb, Hsb.
    fold n_a s_a n_b s_b. rewrite Hz. fold rate_a rate_b.
    split; [reflexivity |].
    intros bayes w2 Hbayes. rewrite Hbayes. split; reflexivity.
Qed.

Lemma analysis_lookup_and_lift_witness :
  (AbSim.analysis (H := canned small_run) (groupby_agg [("B", 1); ("B", 0)]) tt
     = (Raise "KeyError", tt)
   /\ Bayesian.analysis (H := canned small_run) (groupby_agg [("B", 1); ("B", 0)]) tt
     = (Raise "KeyError", tt))
  /\ exists st,
       AbSim.analysis (H := canned small_run)
         (groupby_agg [("A", 1); ("B", 1); ("A", 0); ("B", 1)]) tt = (Ok st, tt)
       /\ AbSim.obs_lift st = PyFloat 1.
Proof.
  split.
  - apply (proj1 (analysis_lookup_and_lift unit (canned small_run) [("B", 1); ("B", 0)] tt)).
    left. reflexivity.
  - eexists. split.
    + apply (proj2 (analysis_lookup_and_lift unit (canned small_run)
                      [("A", 1); ("B", 1); ("A", 0); ("B", 1)] tt)
               ltac:(reflexivity) ltac:(reflexivity)
               (0x1.279a74590331dp+0, 0x1.fc5723859c08p-3)%float tt
               ltac:(reflexivity)).
    + vm_compute. reflexivity.
Defined.

(** * The rest of the scripts *)

(** ** Loops and frames *)

Lemma bind_ext {W A B} (m : Py W A) (k k' : A -> Py W B) (w : W) :
  (forall a w', k a w' = k' a w') -> bind m k w = bind m k' w.
Proof.
  intros Hk. unfold bind. destruct (m w) as [[a | e] w']; [apply Hk | reflexivity].
Qed.

Lemma bind_ok {W A B} (m : Py W A) (k : A -> Py W B) (w w' : W) (a : A) :
  m w = (Ok a, w') -> bind m k w = k a w'.
Proof. intros H. unfold bind. rewrite H. reflexivity. Qed.

Lemma bind_inv {W A B} (m : Py W A) (k : A -> Py W B) (w w' : W) (b : B) :
  bind m k w = (Ok b, w') ->
  exists a w1, m w = (Ok a, w1) /\ k a w1 = (Ok b, w').
Proof.
  unfold bind. destruct (m w) as [[a | e] w1]; [| discriminate].
  intros H. exists a, w1. split; [reflexivity | exact H].
Qed.

Lemma for_each_pure {W A B} (body : A -> Py W B) (f : A -> B) (xs : list A) (w : W) :
  (forall x w0, body x w0 = (Ok (f x), w0)) ->
  for_each body xs w = (Ok (map f xs), w).
Proof.
  intros Hbody. induction xs as [| x xs IH]; [reflexivity |].
  cbn [for_each map]. unfold bind. rewrite Hbody, IH. reflexivity.
Qed.

Lemma for_each_inv {W A B} (body : A -> Py W B) (P : A -> B -> Prop) :
  (forall x w y w', body x w = (Ok y, w') -> P x y) ->
  forall xs w ys w', for_each body xs w = (Ok ys, w') -> Forall2 P xs ys.
Proof.
  intros Hbody. induction xs as [| x xs IH]; intros w ys w' Hrun.
  - injection Hrun as <- _. constructor.
  - cbn [for_each] in Hrun. unfold bind in Hrun.
    destruct (body x w) as [[y | e] w1] eqn:Hx; [| discriminate].
    destruct (for_each body xs w1) as [[ys' | e] w2] eqn:Hxs; [| discriminate].
    injection Hrun as <- _. constructor; [eapply Hbody, Hx | eapply IH, Hxs].
Qed.

Lemma range_length (n : Z) : Z.of_nat (List.length (range n)) = Z.max 0 n.
Proof. unfold range. rewrite length_map, length_seq. lia. Qed.

Lemma range_empty (n : Z) : n <= 0 -> range n = [].
Proof. intros Hn. unfold range. replace (Z.to_nat n) with 0%nat by lia. reflexivity. Qed.

Lemma range_lookup (n i : Z) : 0 <= i < n -> range n !! Z.to_nat i = Some i.
Proof.
  intros Hi. unfold range. rewrite list_lookup_fmap, lookup_seq_lt by lia.
  cbn. f_equal. lia.
Qed.

Lemma range_NoDup (n : Z) : NoDup (range n).
Proof.
  unfold range. apply (NoDup_fmap_2 Z.of_nat), NoDup_seq.
Qed.

Lemma values_map {A} (mk : A -> record) (g : A -> string) (name : string) (l : list A) :
  (forall x, assoc name (mk x) = Some (g x)) ->
  values name (map mk l) = Ok (map g l).
Proof.
  intros Hmk. induction l as [| x l IH]; [reflexivity |].
  cbn [map values]. rewrite Hmk, IH. reflexivity.
Qed.

Lemma df_column_map {A} (mk : A -> record) (g : A -> string) (name : string) (l : list A) :
  (forall x, assoc name (mk x) = Some (g x)) ->
  df_column (map mk l) name
  = match l with [] => Raise "KeyError" | _ => Ok (map g l) end.
Proof.
  intros Hmk. destruct l as [| x l]; [reflexivity |].
  exact (values_map mk g name (x :: l) Hmk).
Qed.

Lemma absim_user_data_run {W} (salt_1 salt_2 : string) (current_n : Z) (w : W) :
  AbSim.user_data salt_1 salt_2 current_n w
  = (Ok (map (absim_user salt_1 salt_2) (range current_n)), w).
Proof.
  unfold AbSim.user_data. apply for_each_pure. intros i w0.
  unfold bind, ret. rewrite !get_group_run. reflexivity.
Qed.

Lemma bayesian_user_data_run {W} (salt_1 : string) (current_n : Z) (w : W) :
  Bayesian.user_data salt_1 current_n w
  = (Ok (map (bayesian_user salt_1) (range current_n)), w).
Proof.
  unfold Bayesian.user_data. apply for_each_pure. intros i w0.
  unfold bind, ret. rewrite bayesian_get_group_run. reflexivity.
Qed.

Lemma user_id_inj (i j : Z) : "user_" ++ pretty i = "user_" ++ pretty j -> i = j.
Proof. intros H. apply pretty_Z_inj, (String.app_inj "user_"), H. Qed.

(** ** The simulated users *)

(** X1. The simulated users. For every salt and every live count, the
    loop that builds [user_data] completes without touching the state of
    the process and yields one record per [i] in [range(current_n)] (none
    when the count is not positive); the record of [i] has the ID
    ["user_" ++ i] and, for each layer, the variant that [get_group] gives
    this ID; no two records share an ID. *)
Theorem user_data_rows :
  forall (W : Type) (w : W) (salt_1 salt_2 : string) (current_n : Z),
    (exists rows,
        AbSim.user_data salt_1 salt_2 current_n w = (Ok rows, w) /\
        Z.of_nat (List.length rows) = Z.max 0 current_n /\
        NoDup (map (assoc "ID") rows) /\
        forall i, 0 <= i < current_n ->
          rows !! Z.to_nat i
          = Some [("ID", "user_" ++ pretty i);
                  ("L1", assign_spec ("user_" ++ pretty i) "L1" salt_1);
                  ("L2", assign_spec ("user_" ++ pretty i) "L2" salt_2)]) /\
    (exists rows,
        Bayesian.user_data salt_1 current_n w = (Ok rows, w) /\
        Z.of_nat (List.length rows) = Z.max 0 current_n /\
        NoDup (map (assoc "ID") rows) /\
        forall i, 0 <= i < current_n ->
          rows !! Z.to_nat i
          = Some [("ID", "user_" ++ pretty i);
                  ("G", assign_spec ("user_" ++ pretty i) "L1" salt_1)]).
Proof.
  intros W w salt_1 salt_2 current_n.
  assert (Hids : forall (mk : Z -> record),
             (forall i, assoc "ID" (mk i) = Some ("user_" ++ pretty i)) ->
             NoDup (map (assoc "ID") (map mk (range current_n)))).
  { intros mk Hmk. rewrite map_map.
    rewrite (map_ext _ (fun i => Some ("user_" ++ pretty i)) Hmk).
    assert (Hinj : Inj (=) (=) (fun i : Z => Some ("user_" ++ pretty i))).
    { intros i j Hij. apply user_id_inj. congruence. }
    apply (NoDup_fmap_2 _), range_NoDup. }
  split.
  - exists (map (absim_user salt_1 salt_2) (range current_n)).
    split; [apply absim_user_data_run |].
    split; [rewrite length_map; apply range_length |].
    split; [apply Hids; reflexivity |].
    intros i Hi. rewrite list_lookup_fmap, range_lookup by exact Hi. reflexivity.
  - exists (map (bayesian_user salt_1) (range current_n)).
    split; [apply bayesian_user_data_run |].
    split; [rewrite length_map; apply range_length |].
    split; [apply Hids; reflexivity |].
    intros i Hi. rewrite list_lookup_fmap, range_lookup by exact Hi. reflexivity.
Qed.

(** ** The live aggregate *)

Lemma absim_live_data_run {W} {T : Host W}
    (salt_1 salt_2 : string) (base_p true_lift : float) (current_n : Z) (w : W) :
  AbSim.live_data salt_1 salt_2 base_p true_lift current_n w
  = aggregate_of base_p true_lift (live_labels salt_1 current_n) w.
Proof.
  unfold AbSim.live_data, aggregate_of, live_labels.
  unfold bind at 1. rewrite absim_user_data_run.
  rewrite (df_column_map (absim_user salt_1 salt_2)
             (fun i => assign_spec ("user_" ++ pretty i) "L1" salt_1))
    by reflexivity.
  reflexivity.
Qed.

Lemma bayesian_live_data_run {W} {T : Host W}
    (salt_1 : string) (base_p true_lift : float) (current_n : Z) (w : W) :
  Bayesian.live_data salt_1 base_p true_lift current_n w
  = aggregate_of base_p true_lift (live_labels salt_1 current_n) w.
Proof.
  unfold Bayesian.live_data, aggregate_of, live_labels.
  unfold bind at 1. rewrite bayesian_user_data_run.
  rewrite (df_column_map (bayesian_user salt_1)
             (fun i => assign_spec ("user_" ++ pretty i) "L1" salt_1))
    by reflexivity.
  reflexivity.
Qed.

(** X2. No traffic. When the live count is not positive the list of users
    is empty, the frame built from it has no column, and the lookup of the
    column of variants raises [KeyError] before any click is drawn: the
    state of the generator is untouched. *)
Theorem live_data_without_traffic :
  forall (W : Type) (T : Host W) (salt_1 salt_2 : string) (base_p true_lift : float)
         (current_n : Z) (w : W),
    current_n <= 0 ->
    AbSim.live_data salt_1 salt_2 base_p true_lift current_n w = (Raise "KeyError", w) /\
    Bayesian.live_data salt_1 base_p true_lift current_n w = (Raise "KeyError", w).
Proof.
  intros W T salt_1 salt_2 base_p true_lift current_n w Hn.
  rewrite absim_live_data_run, bayesian_live_data_run.
  unfold aggregate_of, live_labels. rewrite range_empty by exact Hn.
  split; reflexivity.
Qed.

Lemma live_data_without_traffic_witness :
  AbSim.live_data (T := first_run) "UI_EXP" "ALG_EXP" 0.5%float 0.25%float 0 tt
    = (Raise "KeyError", tt)
  /\ Bayesian.live_data (T := first_run) "UI_EXP" 0.5%float 0.25%float 0 tt
    = (Raise "KeyError", tt).
Proof.
  apply (live_data_without_traffic unit first_run "UI_EXP" "ALG_EXP" 0.5%float 0.25%float 0 tt).
  lia.
Defined.

(** X3. One aggregate. The aggregate that [ab_sim.py] analyses does not
    depend on the salt of the second layer, whose variants are computed
    and never read, and neither does anything else that a run of the script
    computes or shows; and for one salt of the first layer, one pair of
    rates and one state of the generator, [bayesian.py] builds the same
    aggregate, with the same draws. *)
Theorem live_data_ignores_second_layer :
  forall (W : Type) (L : Libs W) (T : Host W) (salt_1 salt_2 salt_2' : string)
         (base_p true_lift : float) (current_n : Z) (w : W),
    AbSim.live_data salt_1 salt_2 base_p true_lift current_n w
    = AbSim.live_data salt_1 salt_2' base_p true_lift current_n w /\
    Bayesian.live_data salt_1 base_p true_lift current_n w
    = AbSim.live_data salt_1 salt_2 base_p true_lift current_n w /\
    forall (dau : Z) (mde_target : float) (aa_button : bool),
      AbSim.script
        {| AbSim.dau := dau; AbSim.base_p := base_p; AbSim.salt_1 := salt_1;
           AbSim.salt_2 := salt_2; AbSim.true_lift := true_lift;
           AbSim.mde_target := mde_target; AbSim.aa_button := aa_button |} w
      = AbSim.script
          {| AbSim.dau := dau; AbSim.base_p := base_p; AbSim.salt_1 := salt_1;
             AbSim.salt_2 := salt_2'; AbSim.true_lift := true_lift;
             AbSim.mde_target := mde_target; AbSim.aa_button := aa_button |} w.
Proof.
  intros W L T salt_1 salt_2 salt_2' base_p true_lift current_n w.
  split; [rewrite !absim_live_data_run; reflexivity |].
  split; [rewrite absim_live_data_run, bayesian_live_data_run; reflexivity |].
  intros dau mde_target aa_button.
  unfold AbSim.script.
  cbn [AbSim.dau AbSim.base_p AbSim.salt_1 AbSim.salt_2 AbSim.true_lift
       AbSim.mde_target AbSim.aa_button].
  apply bind_ext. intros pl w1. apply bind_ext. intros aa w2.
  apply bind_ext. intros d w3. cbv zeta.
  unfold bind. rewrite !absim_live_data_run. reflexivity.
Qed.

Lemma count_of_cons (label : string) (r : row) (rows : list row) :
  count_of label (r :: rows)
  = (if String.eqb (fst r) label then 1 else 0) + count_of label rows.
Proof.
  unfold count_of. cbn [List.filter].
  destruct (String.eqb (fst r) label); cbn [List.length]; lia.
Qed.

Lemma sum_of_cons (label : string) (r : row) (rows : list row) :
  sum_of label (r :: rows)
  = (if String.eqb (fst r) label then snd r else 0) + sum_of label rows.
Proof.
  unfold sum_of. cbn [List.filter].
  destruct (String.eqb (fst r) label); cbn [map fold_right]; lia.
Qed.

(** Rows whose labels are "A" or "B": each row counts in one group. *)
Lemma count_of_two_groups (rows : list row) :
  Forall (fun r : row => fst r = "A" \/ fst r = "B") rows ->
  count_of "A" rows + count_of "B" rows = Z.of_nat (List.length rows).
Proof.
  induction 1 as [| r rows Hr _ IH]; [reflexivity |].
  rewrite !count_of_cons. cbn [List.length].
  destruct Hr as [-> | ->]; cbn [String.eqb Ascii.eqb Bool.eqb]; lia.
Qed.

(** Rows whose clicks are 0 or 1: a group has at most as many clicks as
    observations. *)
Lemma sum_of_clicks (label : string) (rows : list row) :
  Forall (fun r : row => 0 <= snd r <= 1) rows ->
  0 <= sum_of label rows <= count_of label rows.
Proof.
  induction 1 as [| r rows Hr _ IH].
  - change (sum_of label []) with 0. change (count_of label []) with 0. lia.
  - rewrite count_of_cons, sum_of_cons. destruct (String.eqb (fst r) label); lia.
Qed.

Lemma count_of_label (label : string) (rows : list row) :
  0 < count_of label rows -> exists r, In r rows /\ fst r = label.
Proof.
  induction rows as [| r rows IH].
  - change (count_of label []) with 0. lia.
  - rewrite count_of_cons. destruct (String.eqb_spec (fst r) label) as [Heq | _].
    + intros _. exists r. split; [left; reflexivity | exact Heq].
    + intros Hpos. destruct (IH ltac:(lia)) as (r' & Hin & Hr').
      exists r'. split; [right; exact Hin | exact Hr'].
Qed.

Lemma group_count_agg (rows : list row) (label : string) :
  group_count (groupby_agg rows) label = count_of label rows.
Proof.
  unfold group_count. rewrite groupby_agg_lookup.
  destruct (Z.eqb_spec (count_of label rows) 0) as [-> | _]; reflexivity.
Qed.

Lemma live_labels_inv (salt_1 : string) (current_n : Z) (labels : list string) :
  live_labels salt_1 current_n = Ok labels ->
  1 <= current_n /\
  Z.of_nat (List.length labels) = current_n /\
  Forall (fun l => l = "A" \/ l = "B") labels.
Proof.
  unfold live_labels. intros H.
  destruct (Z_le_gt_dec current_n 0) as [Hle | Hgt].
  { rewrite range_empty in H by exact Hle. discriminate. }
  assert (Hl : labels
               = map (fun i => assign_spec ("user_" ++ pretty i) "L1" salt_1) (range current_n)).
  { destruct (range current_n); [discriminate | congruence]. }
  split; [lia |]. subst labels. split.
  - rewrite length_map, range_length. lia.
  - apply Forall_forall. intros l Hin. apply list_elem_of_In, in_map_iff in Hin.
    destruct Hin as (i & <- & _). apply assign_spec_variant.
Qed.

(** The aggregate of clicks drawn for labels "A" and "B". *)
Lemma aggregate_of_inv {W} {T : Host W} (C : BinomialContract T)
    (base_p true_lift : float) (labels : list string)
    (w w' : W) (res : gmap string (Z * Z)) :
  Forall (fun l => l = "A" \/ l = "B") labels ->
  aggregate_of base_p true_lift (Ok labels) w = (Ok res, w') ->
  group_count res "A" + group_count res "B" = Z.of_nat (List.length labels) /\
  forall label n s, res !! label = Some (n, s) ->
    (label = "A" \/ label = "B") /\ 1 <= n /\ 0 <= s <= n.
Proof.
  intros Hlabels. unfold aggregate_of, bind, lift, ret.
  destruct (for_each _ labels w) as [[click | e] w1] eqn:Hclick; [| discriminate].
  intros [= <- <-].
  apply (for_each_inv _ (fun _ k => 0 <= k <= 1)) in Hclick;
    [| intros x w0 k w0' Hdraw; exact (binomial_range _ _ _ _ _ Hdraw)].
  assert (Hrows : Forall (fun r : row => (fst r = "A" \/ fst r = "B") /\ 0 <= snd r <= 1)
                    (combine labels click)).
  { clear w w1. induction Hclick as [| l k labels click Hk _ IH]; cbn [combine].
    - constructor.
    - inversion Hlabels; subst. constructor; [split; assumption | apply IH; assumption]. }
  assert (Hlen : List.length (combine labels click) = List.length labels).
  { rewrite length_combine. apply Forall2_length in Hclick. lia. }
  split.
  - rewrite !group_count_agg, <- Hlen. apply count_of_two_groups.
    eapply Forall_impl; [exact Hrows |]. intros r [Hr _]. exact Hr.
  - intros label n s. rewrite groupby_agg_lookup.
    destruct (Z.eqb_spec (count_of label (combine labels click)) 0) as [? | Hne];
      [discriminate |].
    intros [= <- <-].
    pose proof (count_of_nonneg label (combine labels click)) as Hnn.
    destruct (count_of_label label (combine labels click) ltac:(lia)) as (r & Hin & <-).
    rewrite Forall_forall in Hrows.
    split; [apply (Hrows r), list_elem_of_In, Hin |]. split; [lia |].
    apply sum_of_clicks. apply Forall_forall. intros r' Hr'. apply (Hrows r' Hr').
Qed.

(** X4. The counts of the live aggregate. When the binomial draws of one
    trial are 0 or 1 and the simulation completes, the live count is
    positive, every row of the aggregate is the row of variant "A" or of
    variant "B", it holds at least one observation and between 0 and that
    many clicks, and the observations of the two variants add up to the
    live count. In particular the parameters [1 + clicks] and
    [1 + n - clicks] that [run_bayesian_analysis] forms are at least 1. *)
Theorem live_data_counts :
  forall (W : Type) (T : Host W),
    BinomialContract T ->
    forall (salt_1 salt_2 : string) (base_p true_lift : float) (current_n : Z)
           (w w' : W) (res : gmap string (Z * Z)),
      AbSim.live_data salt_1 salt_2 base_p true_lift current_n w = (Ok res, w')
      \/ Bayesian.live_data salt_1 base_p true_lift current_n w = (Ok res, w') ->
      1 <= current_n /\
      group_count res "A" + group_count res "B" = current_n /\
      forall label n s, res !! label = Some (n, s) ->
        (label = "A" \/ label = "B") /\ 1 <= n /\ 0 <= s <= n /\
        1 <= 1 + s /\ 1 <= 1 + n - s.
Proof.
  intros W T C salt_1 salt_2 base_p true_lift current_n w w' res Hrun.
  rewrite absim_live_data_run, bayesian_live_data_run in Hrun.
  assert (Hagg : aggregate_of base_p true_lift (live_labels salt_1 current_n) w = (Ok res, w'))
    by (destruct Hrun; assumption).
  destruct (live_labels salt_1 current_n) as [labels | e] eqn:Hl; [| discriminate].
  destruct (live_labels_inv _ _ _ Hl) as (Hn & Hlen & Hab).
  destruct (aggregate_of_inv C base_p true_lift labels w w' res Hab Hagg) as [Hsum Hrows].
  split; [exact Hn |]. split; [lia |].
  intros label n s Hrow. destruct (Hrows label n s Hrow) as (Hlab & Hn1 & Hs).
  split; [exact Hlab |]. split; [exact Hn1 |]. split; [exact Hs | lia].
Qed.

Lemma first_run_contract : BinomialContract first_run.
Proof.
  split. intros n p [] [] k. cbn. unfold throw, ret.
  destruct (Z.ltb_spec n 0) as [? | Hn]; [discriminate |].
  intros [= <-]. destruct (_ <? p)%float; lia.
Qed.

Lemma live_data_counts_witness :
  exists res,
    AbSim.live_data (T := first_run) "UI_EXP" "ALG_EXP" 0.5%float 0.25%float 4 tt = (Ok res, tt)
    /\ group_count res "A" + group_count res "B" = 4.
Proof.
  eexists. split; [vm_compute; reflexivity |].
  refine (proj1 (proj2 (live_data_counts unit first_run first_run_contract
                          "UI_EXP" "ALG_EXP" 0.5%float 0.25%float 4 tt tt _ _))).
  left. vm_compute. reflexivity.
Defined.

(** ** After the planning *)

Lemma planning_inv {W} {L : Libs W} (base_p mde_target : float) (dau : Z)
    (w w' : W) (p : plan) :
  AbSim.planning base_p mde_target dau w = (Ok (Planned p), w') ->
  AbSim.plan_body base_p mde_target dau w = (Ok p, w').
Proof.
  unfold AbSim.planning, try_except, bind, ret.
  destruct (AbSim.plan_body base_p mde_target dau w) as [[p' | e] w1]; congruence.
Qed.

(** The totals of a plan come from the two roundings of lines 51 and 52. *)
Lemma plan_body_inv {W} {L : Libs W} (base_p mde_target : float) (dau : Z)
    (w w' : W) (p : plan) :
  AbSim.plan_body base_p mde_target dau w = (Ok p, w') ->
  math_ceil (req_n_per_group p * 2)%float = Ok (req_n p) /\
  exists q, truediv (req_n p) dau = Ok q /\ math_ceil q = Ok (est_days p).
Proof.
  unfold AbSim.plan_body, bind, lift, ret.
  destruct (proportion_effectsize _ base_p w) as [[e | ?] w1]; [| discriminate].
  destruct (solve_power e f_0_05 f_0_8 1%float w1) as [[n | ?] w2]; [| discriminate].
  destruct (math_ceil (n * 2)) as [k | ?] eqn:Hk; [| discriminate].
  destruct (truediv k dau) as [q | ?] eqn:Hq; [| discriminate].
  destruct (math_ceil q) as [d | ?] eqn:Hd; [| discriminate].
  intros [= <- <-]. cbn [req_n_per_group req_n est_days].
  split; [exact Hk |]. exists q. split; [exact Hq | exact Hd].
Qed.

(** With a total and a daily volume that are positive and below [2^53], the
    days of the plan are the least number of days whose traffic reaches the
    total. *)
Lemma plan_days {W} {L : Libs W} (base_p mde_target : float) (dau : Z)
    (w w' : W) (p : plan) :
  AbSim.planning base_p mde_target dau w = (Ok (Planned p), w') ->
  0 < req_n p < 2 ^ 53 -> 0 < dau < 2 ^ 53 ->
  is_ceiling (est_days p) (req_n p) dau.
Proof.
  intros Hplan Hreq Hdau.
  destruct (plan_body_inv _ _ _ _ _ _ (planning_inv _ _ _ _ _ _ Hplan)) as (_ & q & Hq & Hd).
  destruct (truediv_exact_ceiling (req_n p) dau Hreq Hdau) as (q' & Hq' & Hc).
  rewrite Hq in Hq'. injection Hq' as <-. rewrite Hd in Hc. injection Hc as ->.
  apply ceiling_exact. lia.
Qed.

(** The names that the planning binds, and what it shows. *)
Lemma planning_names_spec {W} {L : Libs W} (base_p mde_target : float) (dau : Z) (w : W) :
  exists nm w',
    planning_names base_p mde_target dau w = (Ok nm, w') /\
    AbSim.planning base_p mde_target dau w = (Ok (planned_of nm), w') /\
    (bound_est_days nm = None \/ exists p, nm = names_of p).
Proof.
  unfold planning_names, AbSim.planning, AbSim.plan_body, try_except, bind, lift, ret.
  destruct (proportion_effectsize _ base_p w) as [[e | ?] w1];
    [| eexists; eexists; split; [reflexivity |]; split; [reflexivity | left; reflexivity]].
  destruct (solve_power e f_0_05 f_0_8 1%float w1) as [[n | ?] w2];
    [| eexists; eexists; split; [reflexivity |]; split; [reflexivity | left; reflexivity]].
  destruct (math_ceil (n * 2)) as [k | ?];
    [| eexists; eexists; split; [reflexivity |]; split; [reflexivity | left; reflexivity]].
  destruct (truediv k dau) as [q | ?];
    [| eexists; eexists; split; [reflexivity |]; split; [reflexivity | left; reflexivity]].
  destruct (math_ceil q) as [d | ?];
    [| eexists; eexists; split; [reflexivity |]; split; [reflexivity | left; reflexivity]].
  eexists. eexists. split; [reflexivity |]. split; [reflexivity |].
  right. exists {| p2_mde := (base_p * (1 + mde_target))%float; es := e;
                   req_n_per_group := n; req_n := k; est_days := d |}.
  reflexivity.
Qed.

Lemma planned_of_names (p : plan) : planned_of (names_of p) = Planned p.
Proof. destruct p. reflexivity. Qed.

Lemma planning_names_planned {W} {L : Libs W} (base_p mde_target : float) (dau : Z)
    (w w1 : W) (p : plan) :
  AbSim.planning base_p mde_target dau w = (Ok (Planned p), w1) ->
  planning_names base_p mde_target dau w = (Ok (names_of p), w1).
Proof.
  intros Hplan.
  destruct (planning_names_spec base_p mde_target dau w) as (nm & w' & Hnm & Hp & Hb).
  rewrite Hp in Hplan. injection Hplan as Hplan <-. rewrite Hnm. do 2 f_equal.
  destruct Hb as [Hnone | [p' ->]].
  - unfold planned_of in Hplan. rewrite Hnone in Hplan.
    destruct (bound_p2_mde nm), (bound_es nm), (bound_req_n_per_group nm), (bound_req_n nm);
      discriminate.
  - rewrite planned_of_names in Hplan. congruence.
Qed.

Lemma planning_names_failed {W} {L : Libs W} (base_p mde_target : float) (dau : Z)
    (w w1 : W) (shown : st_call) :
  AbSim.planning base_p mde_target dau w = (Ok (PlanFailed shown), w1) ->
  exists nm, planning_names base_p mde_target dau w = (Ok nm, w1) /\
             bound_est_days nm = None.
Proof.
  intros Hplan.
  destruct (planning_names_spec base_p mde_target dau w) as (nm & w' & Hnm & Hp & Hb).
  rewrite Hp in Hplan. injection Hplan as Hplan <-.
  exists nm. split; [exact Hnm |].
  destruct Hb as [Hnone | [p' ->]]; [exact Hnone |].
  rewrite planned_of_names in Hplan. discriminate.
Qed.

(** A planning whose last name is bound ended with a plan. *)
Lemma planning_names_bound {W} {L : Libs W} (base_p mde_target : float) (dau : Z)
    (w w1 : W) (nm : names) (d : Z) :
  planning_names base_p mde_target dau w = (Ok nm, w1) ->
  bound_est_days nm = Some d ->
  exists p, nm = names_of p /\
            AbSim.planning base_p mde_target dau w = (Ok (Planned p), w1).
Proof.
  intros Hnm Hd.
  destruct (planning_names_spec base_p mde_target dau w) as (nm' & w' & Hnm' & Hp & Hb).
  rewrite Hnm in Hnm'. injection Hnm' as <- <-.
  destruct Hb as [Hnone | [p ->]]; [congruence |].
  exists p. split; [reflexivity |]. rewrite Hp, planned_of_names. reflexivity.
Qed.

Lemma math_ceil_not_finite (x : float) :
  is_finite x = false -> exists e, math_ceil x = Raise e.
Proof.
  unfold is_finite, math_ceil.
  destruct (Prim2SF x); first [discriminate | intros _; eexists; reflexivity].
Qed.

(** X5. What makes the planning fail. When the library returns an effect
    size and a sample size [n] per group, the planning of either script
    shows its failure message exactly when [n * 2] is a NaN or an infinity
    (which [math.ceil] refuses) or the daily volume is 0 (a division by
    zero); in every other case, a negative daily volume included, it ends
    with a plan. *)
Theorem planning_failure_causes :
  forall (W : Type) (L : Libs W) (base_p mde_target : float) (dau : Z)
         (w w1 w2 : W) (e n : float),
    proportion_effectsize (base_p * (1 + mde_target))%float base_p w = (Ok e, w1) ->
    solve_power e f_0_05 f_0_8 1%float w1 = (Ok n, w2) ->
    (is_finite (n * 2) = false \/ dau = 0 <->
     AbSim.planning base_p mde_target dau w
     = (Ok (PlanFailed (st_error "计算失败，请调整参数。")), w2)) /\
    (is_finite (n * 2) = true /\ dau <> 0 <->
     exists p, AbSim.planning base_p mde_target dau w = (Ok (Planned p), w2)) /\
    Bayesian.planning base_p mde_target dau w = AbSim.planning base_p mde_target dau w.
Proof.
  intros W L base_p mde_target dau w w1 w2 e n Hes Hn.
  assert (Hfail : is_finite (n * 2) = false \/ dau = 0 ->
                  AbSim.planning base_p mde_target dau w
                  = (Ok (PlanFailed (st_error "计算失败，请调整参数。")), w2)).
  { intros Hcause.
    unfold AbSim.planning, try_except, AbSim.plan_body, bind, lift, ret.
    rewrite Hes, Hn.
    destruct (is_finite (n * 2)) eqn:Hfin.
    - destruct Hcause as [? | ->]; [discriminate |].
      destruct (math_ceil_finite _ Hfin) as (k & -> & _). reflexivity.
    - destruct (math_ceil_not_finite _ Hfin) as (x & ->). reflexivity. }
  assert (Hok : is_finite (n * 2) = true -> dau <> 0 ->
                exists p, AbSim.planning base_p mde_target dau w = (Ok (Planned p), w2)).
  { intros Hfin Hdau.
    destruct (plan_body_run base_p mde_target dau w w1 w2 e n Hes Hn Hfin Hdau)
      as (k & q & d & _ & _ & _ & Hrun).
    eexists. unfold AbSim.planning, try_except, bind, ret. rewrite Hrun. reflexivity. }
  split; [| split; [| reflexivity]].
  - split; [exact Hfail |]. intros Hplan.
    destruct (is_finite (n * 2)) eqn:Hfin; [| left; reflexivity].
    destruct (Z.eq_dec dau 0) as [? | Hdau]; [right; assumption |].
    destruct (Hok eq_refl Hdau) as (p & Hp). congruence.
  - split; [intros [Hfin Hdau]; apply Hok; assumption |].
    intros (p & Hp).
    destruct (is_finite (n * 2)) eqn:Hfin.
    + split; [reflexivity |]. intros ->.
      rewrite (Hfail (or_intror eq_refl)) in Hp. discriminate.
    + rewrite (Hfail (or_introl eq_refl)) in Hp. discriminate.
Qed.

Lemma planning_failure_causes_witness :
  AbSim.planning (H := canned plan_example) 0x1.999999999999ap-4%float
    0x1.999999999999ap-5%float 0 tt
  = (Ok (PlanFailed (st_error "计算失败，请调整参数。")), tt).
Proof.
  refine (proj1 (proj1 (planning_failure_causes unit (canned plan_example)
                          0x1.999999999999ap-4%float 0x1.999999999999ap-5%float 0 tt tt tt
                          0x1.0e1c38925acap-6%float 0x1.c3378f9a0e933p+15%float _ _)) _);
    [vm_compute; reflexivity | vm_compute; reflexivity | right; reflexivity].
Defined.

(** X6. A failed planning ends the run. The name [est_days] is bound by
    the last statement of the planning that can raise. When the [except]
    was taken it is unbound: the script of either file shows the failure
    message and never reaches its end. With the button of the AA check not
    pressed it stops with [NameError] at the slider of the days run,
    before any traffic is simulated and before the audit; with the button
    pressed and [req_n] unbound it stops with [NameError] at the first line
    of the AA check. *)
Theorem failed_planning_ends_script :
  forall (W : Type) (L : Libs W) (T : Host W)
         (dau : Z) (base_p : float) (salt_1 salt_2 : string)
         (true_lift mde_target : float) (aa_button : bool)
         (w w1 : W) (shown : st_call),
    AbSim.planning base_p mde_target dau w = (Ok (PlanFailed shown), w1) ->
    let absim_inputs :=
      {| AbSim.dau := dau; AbSim.base_p := base_p; AbSim.salt_1 := salt_1;
         AbSim.salt_2 := salt_2; AbSim.true_lift := true_lift;
         AbSim.mde_target := mde_target; AbSim.aa_button := aa_button |} in
    let bayesian_inputs :=
      {| Bayesian.dau := dau; Bayesian.base_p := base_p; Bayesian.salt_1 := salt_1;
         Bayesian.salt_2 := salt_2; Bayesian.true_lift := true_lift;
         Bayesian.mde_target := mde_target; Bayesian.aa_button := aa_button |} in
    exists nm : names,
      planning_names base_p mde_target dau w = (Ok nm, w1) /\
      bound_est_days nm = None /\
      (forall w2 : W,
          AbSim.days_run nm w2 = (Raise "NameError", w2) /\
          Bayesian.days_run nm w2 = (Raise "NameError", w2)) /\
      (aa_button = false \/ bound_req_n nm = None ->
       AbSim.script absim_inputs w = (Raise "NameError", w1) /\
       Bayesian.script bayesian_inputs w = (Raise "NameError", w1)) /\
      (forall r w', AbSim.script absim_inputs w <> (Ok r, w')) /\
      (forall r w', Bayesian.script bayesian_inputs w <> (Ok r, w')).
Proof.
  intros W L T dau base_p salt_1 salt_2 true_lift mde_target aa_button w w1 shown Hplan
    absim_inputs bayesian_inputs.
  destruct (planning_names_failed _ _ _ _ _ _ Hplan) as (nm & Hnm & Hdays).
  exists nm. split; [exact Hnm |]. split; [exact Hdays |].
  assert (Hslider : forall w2 : W,
             AbSim.days_run nm w2 = (Raise "NameError", w2) /\
             Bayesian.days_run nm w2 = (Raise "NameError", w2)).
  { intros w2. unfold AbSim.days_run, Bayesian.days_run. rewrite Hdays. split; reflexivity. }
  split; [exact Hslider |].
  split; [| split].
  - intros Hcase. split.
    + unfold AbSim.script, absim_inputs.
      cbn [AbSim.base_p AbSim.mde_target AbSim.dau AbSim.aa_button AbSim.salt_1].
      rewrite (bind_ok _ _ _ _ _ Hnm).
      destruct aa_button.
      * destruct Hcase as [? | Hreq]; [discriminate |].
        unfold AbSim.aa_check. rewrite Hreq. reflexivity.
      * unfold AbSim.days_run. rewrite Hdays. reflexivity.
    + unfold Bayesian.script, bayesian_inputs.
      cbn [Bayesian.base_p Bayesian.mde_target Bayesian.dau Bayesian.aa_button
           Bayesian.salt_1].
      rewrite (bind_ok _ _ _ _ _ Hnm).
      destruct aa_button.
      * destruct Hcase as [? | Hreq]; [discriminate |].
        unfold Bayesian.aa_check. rewrite Hreq. reflexivity.
      * unfold Bayesian.days_run. rewrite Hdays. reflexivity.
  - intros r w' Hrun. unfold AbSim.script in Hrun.
    apply bind_inv in Hrun as (nm' & w2 & Hnm' & Hrun).
    apply bind_inv in Hrun as (aa & w3 & _ & Hrun).
    apply bind_inv in Hrun as (d & w4 & Hd & _).
    unfold absim_inputs in Hnm'.
    cbn [AbSim.base_p AbSim.mde_target AbSim.dau] in Hnm'.
    rewrite Hnm in Hnm'. injection Hnm' as <- <-.
    rewrite (proj1 (Hslider w3)) in Hd. discriminate.
  - intros r w' Hrun. unfold Bayesian.script in Hrun.
    apply bind_inv in Hrun as (nm' & w2 & Hnm' & Hrun).
    apply bind_inv in Hrun as (aa & w3 & _ & Hrun).
    apply bind_inv in Hrun as (d & w4 & Hd & _).
    unfold bayesian_inputs in Hnm'.
    cbn [Bayesian.base_p Bayesian.mde_target Bayesian.dau] in Hnm'.
    rewrite Hnm in Hnm'. injection Hnm' as <- <-.
    rewrite (proj2 (Hslider w3)) in Hd. discriminate.
Qed.

Lemma failed_planning_ends_script_witness :
  AbSim.script (L := canned no_answers) (T := first_run)
    {| AbSim.dau := 1000; AbSim.base_p := 0.5%float; AbSim.salt_1 := "UI_EXP";
       AbSim.salt_2 := "ALG_EXP"; AbSim.true_lift := 0.25%float;
       AbSim.mde_target := 0.125%float; AbSim.aa_button := false |} tt
  = (Raise "NameError", tt).
Proof.
  destruct (failed_planning_ends_script unit (canned no_answers) first_run
              1000 0.5%float "UI_EXP" "ALG_EXP" 0.25%float 0.125%float false tt tt
              (st_error "计算失败，请调整参数。") ltac:(vm_compute; reflexivity))
    as (nm & _ & _ & _ & Hscript & _).
  exact (proj1 (Hscript (or_introl eq_refl))).
Defined.

(** X7. The slider of the days run. After a planning that ends with a plan
    whose total and whose daily volume are positive and below [2^53], all
    the names of the planning are bound, the days of the plan are at least
    1, and the slider of either script is asked for a value between 1 and
    [max(30, est_days + 7)] with the default [min(7, est_days)]: the
    default lies within the bounds and the planned number of days can be
    selected. *)
Theorem days_slider_bounds :
  forall (W : Type) (L : Libs W) (T : Host W) (base_p mde_target : float) (dau : Z)
         (w w1 : W) (p : plan),
    AbSim.planning base_p mde_target dau w = (Ok (Planned p), w1) ->
    0 < req_n p < 2 ^ 53 ->
    0 < dau < 2 ^ 53 ->
    let max_value := Z.max 30 (est_days p + 7) in
    let value := Z.min 7 (est_days p) in
    planning_names base_p mde_target dau w = (Ok (names_of p), w1) /\
    1 <= est_days p /\
    1 <= value <= max_value /\
    est_days p <= max_value /\
    (forall w2 : W,
        AbSim.days_run (names_of p) w2
          = st_slider "实验已运行天数" 1 max_value value w2 /\
        Bayesian.days_run (names_of p) w2
          = st_slider "实验已运行天数" 1 max_value value w2).
Proof.
  intros W L T base_p mde_target dau w w1 p Hplan Hreq Hdau max_value value.
  pose proof (plan_days _ _ _ _ _ _ Hplan Hreq Hdau) as Hc. unfold is_ceiling in Hc.
  assert (Hd : 1 <= est_days p) by nia.
  split; [apply planning_names_planned, Hplan |].
  split; [exact Hd |]. unfold max_value, value.
  split; [lia |]. split; [lia |].
  intros w2. split; reflexivity.
Qed.

Lemma days_slider_bounds_witness :
  AbSim.days_run (T := first_run)
    (names_of {| p2_mde := 0x1.ae147ae147ae2p-4%float;
                 es := 0x1.0e1c38925acap-6%float;
                 req_n_per_group := 0x1.c3378f9a0e933p+15%float;
                 req_n := 115512; est_days := 116 |}) tt
  = st_slider (Host := first_run) "实验已运行天数" 1 123 7 tt.
Proof.
  refine (proj1 (proj2 (proj2 (proj2 (proj2
    (days_slider_bounds unit (canned plan_example) first_run
       0x1.999999999999ap-4%float 0x1.999999999999ap-5%float 1000 tt tt _ _ _ _)))) tt));
    [vm_compute; reflexivity | vm_compute; split; reflexivity | vm_compute; split; reflexivity].
Defined.

(** X8. The sample check and the planned days. Under the same conditions,
    for every number of days run that the slider can give (at least 1),
    the live count [dau * days_run] reaches the required total exactly
    when the days run reach the planned days: the first check of the audit
    of either script awards its 40 points from the planned day on, and
    never before. *)
Theorem sample_check_from_planned_days :
  forall (W : Type) (L : Libs W) (base_p mde_target : float) (dau : Z)
         (w w1 : W) (p : plan),
    AbSim.planning base_p mde_target dau w = (Ok (Planned p), w1) ->
    0 < req_n p < 2 ^ 53 ->
    0 < dau < 2 ^ 53 ->
    forall days_run : Z,
      1 <= days_run ->
      (dau * days_run >= req_n p <-> days_run >= est_days p) /\
      forall (st : audit_state) (w2 : W),
        (exists line,
            AbSim.sample_check (dau * days_run) (req_n p) st w2
            = (Ok {| score := score st + (if days_run >=? est_days p then 40 else 0);
                     audit_log := audit_log st ++ [line] |}, w2)) /\
        (exists line,
            Bayesian.sample_check (dau * days_run) (req_n p) st w2
            = (Ok {| score := score st + (if days_run >=? est_days p then 40 else 0);
                     audit_log := audit_log st ++ [line] |}, w2)).
Proof.
  intros W L base_p mde_target dau w w1 p Hplan Hreq Hdau days_run Hdays.
  pose proof (plan_days _ _ _ _ _ _ Hplan Hreq Hdau) as Hc. unfold is_ceiling in Hc.
  assert (Hiff : dau * days_run >= req_n p <-> days_run >= est_days p) by (split; nia).
  split; [exact Hiff |].
  intros st w2.
  assert (Hb : (dau * days_run >=? req_n p) = (days_run >=? est_days p)).
  { destruct (Z.geb_spec (dau * days_run) (req_n p)), (Z.geb_spec days_run (est_days p));
      (reflexivity || lia). }
  rewrite <- Hb.
  split; [apply absim_sample_check_run | apply bayesian_sample_check_run]; nia.
Qed.

Lemma sample_check_from_planned_days_witness :
  115 * 1000 < 115512 <= 116 * 1000
  /\ (1000 * 116 >= 115512 <-> 116 >= 116).
Proof.
  split; [lia |].
  refine (proj1 (sample_check_from_planned_days unit (canned plan_example)
                   0x1.999999999999ap-4%float 0x1.999999999999ap-5%float 1000 tt tt
                   {| p2_mde := 0x1.ae147ae147ae2p-4%float;
                      es := 0x1.0e1c38925acap-6%float;
                      req_n_per_group := 0x1.c3378f9a0e933p+15%float;
                      req_n := 115512; est_days := 116 |} _ _ _ 116 _));
    [vm_compute; reflexivity | vm_compute; split; reflexivity
    | vm_compute; split; reflexivity | lia].
Defined.

(** [math.ceil] of a quotient of a total that is not negative by a
    negative volume is not positive. *)
Lemma ceil_of_negative_quotient (a b : Z) (q : float) (d : Z) :
  0 <= a -> b < 0 -> truediv a b = Ok q -> math_ceil q = Ok d -> d <= 0.
Proof.
  intros Ha Hb Hq Hd.
  destruct (Z.eq_dec a 0) as [-> | Hnz].
  { unfold truediv in Hq. destruct (Z.eqb_spec b 0) as [? | _]; [lia |].
    cbn [Z.eqb] in Hq. injection Hq as <-.
    unfold math_ceil in Hd. destruct (b <? 0); vm_compute in Hd; injection Hd as <-; lia. }
  destruct (truediv_cases a b Hnz ltac:(lia)) as (m & e & e' & Hm & Hnorm & He' & He & _ & Htd).
  rewrite Htd in Hq. clear Htd.
  replace (xorb (a <? 0) (b <? 0)) with true in Hq
    by (destruct (Z.ltb_spec a 0), (Z.ltb_spec b 0); (reflexivity || lia)).
  destruct m as [| m | m]; [| | lia].
  - assert (Hq' : q = SF2Prim (S754_zero true)) by congruence.
    rewrite Hq' in Hd. vm_compute in Hd. injection Hd as <-. lia.
  - destruct (Z.leb_spec e 971) as [Hle | _]; [| discriminate].
    assert (Hq' : q = SF2Prim (S754_finite true m e)) by congruence.
    rewrite Hq' in Hd. unfold math_ceil in Hd.
    rewrite Prim2SF_SF2Prim_finite in Hd by lia.
    injection Hd as <-. cbn [sf_num sf_den].
    assert (0 < 2 ^ Z.max e 0) by (apply Z.pow_pos_nonneg; lia).
    assert (0 < 2 ^ Z.max (- e) 0) by (apply Z.pow_pos_nonneg; lia).
    assert (0 <= - (Z.neg m * 2 ^ Z.max e 0) / 2 ^ Z.max (- e) 0)
      by (apply Z.div_pos; lia).
    lia.
Qed.

(** X9. A negative daily volume. The widget of the daily volume sets no
    lower bound. With a negative volume and a total that is not negative,
    a planning that ends with a plan gives a number of days that is not
    positive: the default of the slider, [min(7, est_days)], is then below
    the lower bound 1 of the slider, and for every number of days run from
    1 on the live count is negative and the simulation of either script
    raises [KeyError]. *)
Theorem negative_daily_volume :
  forall (W : Type) (L : Libs W) (T : Host W) (base_p mde_target : float) (dau : Z)
         (w w1 : W) (p : plan),
    AbSim.planning base_p mde_target dau w = (Ok (Planned p), w1) ->
    dau < 0 ->
    0 <= req_n p ->
    est_days p <= 0 /\
    Z.min 7 (est_days p) < 1 /\
    forall (days_run : Z) (salt_1 salt_2 : string) (true_lift : float) (w2 : W),
      1 <= days_run ->
      AbSim.live_data salt_1 salt_2 base_p true_lift (dau * days_run) w2
        = (Raise "KeyError", w2) /\
      Bayesian.live_data salt_1 base_p true_lift (dau * days_run) w2
        = (Raise "KeyError", w2).
Proof.
  intros W L T base_p mde_target dau w w1 p Hplan Hdau Hreq.
  destruct (plan_body_inv _ _ _ _ _ _ (planning_inv _ _ _ _ _ _ Hplan)) as (_ & q & Hq & Hd).
  pose proof (ceil_of_negative_quotient _ _ _ _ Hreq Hdau Hq Hd) as Hdays.
  split; [exact Hdays |]. split; [lia |].
  intros days_run salt_1 salt_2 true_lift w2 Hrun.
  rewrite absim_live_data_run, bayesian_live_data_run.
  unfold aggregate_of, live_labels. rewrite range_empty by nia.
  split; reflexivity.
Qed.

Lemma negative_daily_volume_witness :
  AbSim.planning (H := canned plan_example) 0x1.999999999999ap-4%float
    0x1.999999999999ap-5%float (-1000) tt
  = (Ok (Planned {| p2_mde := 0x1.ae147ae147ae2p-4%float;
                    es := 0x1.0e1c38925acap-6%float;
                    req_n_per_group := 0x1.c3378f9a0e933p+15%float;
                    req_n := 115512; est_days := -115 |}), tt)
  /\ -115 <= 0.
Proof.
  split; [vm_compute; reflexivity |].
  refine (proj1 (negative_daily_volume unit (canned plan_example) first_run
                   0x1.999999999999ap-4%float 0x1.999999999999ap-5%float (-1000) tt tt
                   {| p2_mde := 0x1.ae147ae147ae2p-4%float;
                      es := 0x1.0e1c38925acap-6%float;
                      req_n_per_group := 0x1.c3378f9a0e933p+15%float;
                      req_n := 115512; est_days := -115 |} _ _ _));
    [vm_compute; reflexivity | lia | vm_compute; discriminate].
Defined.

(** ** The audit on unusual values *)

Lemma leb_nan_r (x y : float) : is_nan y -> (x <=? y)%float = false.
Proof.
  unfold is_nan. intros Hy. rewrite FloatAxioms.leb_spec, Hy.
  destruct (Prim2SF x); reflexivity.
Qed.

Lemma ltb_nan_l (x y : float) : is_nan x -> (x <? y)%float = false.
Proof.
  unfold is_nan. intros Hx. rewrite FloatAxioms.ltb_spec, Hx. reflexivity.
Qed.

Lemma format_percent1_nan (x : float) : is_nan x -> format_percent1 x = "nan%".
Proof.
  unfold is_nan, format_percent1, format_f1. intros Hx.
  rewrite FloatAxioms.mul_spec, Hx. reflexivity.
Qed.

Lemma format_f4_nan (x : float) : is_nan x -> format_f4 x = "nan".
Proof. unfold is_nan, format_f4. intros ->. reflexivity. Qed.

(** What a completed audit has computed. *)
Lemma absim_audit_inv {W} (current_n req_n : Z) (curr_power p_val : float)
    (w w' : W) (a : audit_state) :
  AbSim.audit current_n req_n curr_power p_val w = (Ok a, w') ->
  w' = w /\
  score a = score_spec current_n req_n curr_power p_val /\
  List.length (audit_log a) = 3%nat.
Proof.
  unfold AbSim.audit, AbSim.sample_check, AbSim.power_check, AbSim.significance_check,
    score_spec, bind, lift, ret.
  destruct (current_n >=? req_n); [| destruct (truediv current_n req_n); [| discriminate]];
    destruct (f_0_8 <=? curr_power)%float, (p_val <? f_0_05)%float;
    intros [= <- <-]; cbn [score audit_log app List.length]; repeat split; lia.
Qed.

Lemma bayesian_audit_inv {W} (current_n req_n : Z) (curr_power p_val : float)
    (w w' : W) (a : audit_state) :
  Bayesian.audit current_n req_n curr_power p_val w = (Ok a, w') ->
  w' = w /\
  score a = score_spec current_n req_n curr_power p_val /\
  List.length (audit_log a) = if (p_val <? f_0_05)%float then 3%nat else 2%nat.
Proof.
  unfold Bayesian.audit, Bayesian.sample_check, Bayesian.power_check,
    Bayesian.significance_check, score_spec, bind, lift, ret.
  destruct (current_n >=? req_n); [| destruct (truediv current_n req_n); [| discriminate]];
    destruct (f_0_8 <=? curr_power)%float, (p_val <? f_0_05)%float;
    intros [= <- <-]; cbn [score audit_log app List.length]; repeat split; lia.
Qed.

(** X10. A NaN never scores. A comparison with a NaN is false, so the
    check of a power or of a p-value that is a NaN fails in the audit of
    either script: the score is at most 70 and the verdict is never the
    high confidence; a power that is a NaN is reported by the low-power
    warning as "nan%". For the same reason a p-value that is a NaN is shown
    as not significant by the frequentist panel, and as a pass, with
    "P=nan", by the AA check, which reports a failure only below 0.05. *)
Theorem nan_never_scores :
  forall (W : Type) (w : W) (current_n req_n : Z) (curr_power p_val : float),
    0 <= current_n ->
    is_nan curr_power \/ is_nan p_val ->
    exists st_a st_b,
      AbSim.audit current_n req_n curr_power p_val w = (Ok st_a, w) /\
      Bayesian.audit current_n req_n curr_power p_val w = (Ok st_b, w) /\
      score st_a <= 70 /\ score st_b <= 70 /\
      confidence_of (AbSim.verdict (score st_a)) <> High /\
      confidence_of (Bayesian.verdict (score st_b)) <> High /\
      (is_nan curr_power ->
       nth 1 (audit_log st_a) ""
         = "❌ **低功效警告**：Power 仅 nan%。小心‘赢家诅咒’（虚高收益）。" /\
       nth 1 (audit_log st_b) ""
         = "❌ **低功效警告**：Power 仅 nan%。小心‘赢家诅咒’。") /\
      (is_nan p_val ->
       Bayesian.frequentist_panel p_val = st_error "❌ 不显著。差异可能来自随机波动。" /\
       AbSim.aa_report p_val
         = st_success "✅ AA通过 (P=nan)：分流公平，实验环境纯净。" /\
       Bayesian.aa_report p_val
         = st_success "✅ AA通过 (P=nan)：分流公平，实验环境纯净。").
Proof.
  intros W w current_n req_n curr_power p_val Hn Hnan.
  destruct (absim_audit_run current_n req_n curr_power p_val w Hn) as (l1 & l2 & l3 & Ha).
  destruct (bayesian_audit_run current_n req_n curr_power p_val w Hn) as (k1 & k2 & k3 & Hb).
  eexists. eexists. split; [exact Ha |]. split; [exact Hb |].
  cbn [score].
  assert (Hs : score_spec current_n req_n curr_power p_val <= 70).
  { unfold score_spec. destruct Hnan as [Hp | Hp].
    - rewrite (leb_nan_r _ _ Hp).
      destruct (current_n >=? req_n), (p_val <? f_0_05)%float; lia.
    - rewrite (ltb_nan_l _ _ Hp).
      destruct (current_n >=? req_n), (f_0_8 <=? curr_power)%float; lia. }
  split; [exact Hs |]. split; [exact Hs |].
  split; [rewrite (proj1 (absim_verdict_levels _)); lia |].
  split; [rewrite (proj1 (bayesian_verdict_levels _)); lia |].
  split.
  2: { intros Hp.
       unfold Bayesian.frequentist_panel, AbSim.aa_report, Bayesian.aa_report.
       rewrite (ltb_nan_l _ _ Hp), (format_f4_nan _ Hp). repeat split. }
  intros Hp. revert Ha Hb.
  unfold AbSim.audit, Bayesian.audit.
  destruct (absim_sample_check_run current_n req_n {| score := 0; audit_log := [] |} w Hn)
    as [a1 Ha1].
  destruct (bayesian_sample_check_run current_n req_n {| score := 0; audit_log := [] |} w Hn)
    as [b1 Hb1].
  unfold bind at 1. rewrite Ha1. unfold bind at 2. rewrite Hb1.
  unfold bind, AbSim.power_check, Bayesian.power_check,
    AbSim.significance_check, Bayesian.significance_check, ret.
  rewrite (leb_nan_r _ _ Hp), (format_percent1_nan _ Hp). cbn [score audit_log app].
  destruct (p_val <? f_0_05)%float; intros [= _ <- <- <-] [= _ <- <-]; split; reflexivity.
Qed.

Lemma nan_never_scores_witness :
  exists st_a,
    AbSim.audit 7000 57000 nan 0.5%float tt = (Ok st_a, tt)
    /\ score st_a <= 70.
Proof.
  destruct (nan_never_scores unit tt 7000 57000 nan 0.5%float
              (Pos2Z.is_nonneg 7000) (or_introl eq_refl))
    as (st_a & st_b & Ha & _ & Hs & _).
  exists st_a. split; [exact Ha | exact Hs].
Defined.

(** X11. A failed power computation in the audit. When the power
    computation at the live sample size raises, whatever the exception,
    the audit that follows receives the power 0.0: its second check fails,
    the log reports a power of only "0.0%", as for a power that was
    computed and found to be zero, the score is at most 70, and the verdict
    is never the high confidence. *)
Theorem failed_power_in_audit :
  forall (W : Type) (L : Libs W) (es : float) (current_n req_n : Z) (p_val : float)
         (w w1 : W) (e : exn),
    0 <= current_n ->
    AbSim.power_try es current_n w = (Raise e, w1) ->
    exists st_a st_b,
      (curr_power <- AbSim.curr_power es current_n ;;
       AbSim.audit current_n req_n curr_power p_val)%py w = (Ok st_a, w1) /\
      (curr_power <- Bayesian.curr_power es current_n ;;
       Bayesian.audit current_n req_n curr_power p_val)%py w = (Ok st_b, w1) /\
      nth 1 (audit_log st_a) ""
        = "❌ **低功效警告**：Power 仅 0.0%。小心‘赢家诅咒’（虚高收益）。" /\
      nth 1 (audit_log st_b) ""
        = "❌ **低功效警告**：Power 仅 0.0%。小心‘赢家诅咒’。" /\
      score st_a <= 70 /\ score st_b <= 70 /\
      confidence_of (AbSim.verdict (score st_a)) <> High /\
      confidence_of (Bayesian.verdict (score st_b)) <> High.
Proof.
  intros W L es current_n req_n p_val w w1 e Hn Hraise.
  assert (Hpa : AbSim.curr_power es current_n w = (Ok 0%float, w1)).
  { unfold AbSim.curr_power, try_except. rewrite Hraise. reflexivity. }
  assert (Hpb : Bayesian.curr_power es current_n w = (Ok 0%float, w1)).
  { rewrite curr_power_copies_agree. exact Hpa. }
  assert (Hv : forall s, s <= 70 ->
             confidence_of (AbSim.verdict s) <> High /\
             confidence_of (Bayesian.verdict s) <> High).
  { intros s Hs. rewrite (proj1 (absim_verdict_levels s)), (proj1 (bayesian_verdict_levels s)).
    lia. }
  assert (HA : exists st_a,
             (curr_power <- AbSim.curr_power es current_n ;;
              AbSim.audit current_n req_n curr_power p_val)%py w = (Ok st_a, w1) /\
             nth 1 (audit_log st_a) ""
               = "❌ **低功效警告**：Power 仅 0.0%。小心‘赢家诅咒’（虚高收益）。" /\
             score st_a <= 70).
  { unfold bind at 1. rewrite Hpa. unfold AbSim.audit.
    destruct (absim_sample_check_run current_n req_n {| score := 0; audit_log := [] |} w1 Hn)
      as [a1 Ha1].
    unfold bind at 1. rewrite Ha1.
    unfold bind, AbSim.power_check, AbSim.significance_check, ret.
    change (f_0_8 <=? 0)%float with false.
    change (format_percent1 0) with "0.0%".
    cbn [score audit_log app].
    destruct (p_val <? f_0_05)%float, (current_n >=? req_n);
      eexists; (split; [reflexivity |]); cbn [score audit_log nth app];
      (split; [reflexivity | lia]). }
  assert (HB : exists st_b,
             (curr_power <- Bayesian.curr_power es current_n ;;
              Bayesian.audit current_n req_n curr_power p_val)%py w = (Ok st_b, w1) /\
             nth 1 (audit_log st_b) ""
               = "❌ **低功效警告**：Power 仅 0.0%。小心‘赢家诅咒’。" /\
             score st_b <= 70).
  { unfold bind at 1. rewrite Hpb. unfold Bayesian.audit.
    destruct (bayesian_sample_check_run current_n req_n {| score := 0; audit_log := [] |} w1 Hn)
      as [b1 Hb1].
    unfold bind at 1. rewrite Hb1.
    unfold bind, Bayesian.power_check, Bayesian.significance_check, ret.
    change (f_0_8 <=? 0)%float with false.
    change (format_percent1 0) with "0.0%".
    cbn [score audit_log app].
    destruct (p_val <? f_0_05)%float, (current_n >=? req_n);
      eexists; (split; [reflexivity |]); cbn [score audit_log nth app];
      (split; [reflexivity | lia]). }
  destruct HA as (st_a & Ha & Hla & Hsa). destruct HB as (st_b & Hb & Hlb & Hsb).
  exists st_a, st_b.
  split; [exact Ha |]. split; [exact Hb |]. split; [exact Hla |]. split; [exact Hlb |].
  split; [exact Hsa |]. split; [exact Hsb |].
  split; [apply (Hv _ Hsa) | apply (Hv _ Hsb)].
Qed.

Lemma failed_power_in_audit_witness :
  exists st_a,
    (curr_power <- AbSim.curr_power (H := canned power_fails) 0.5%float 1000 ;;
     AbSim.audit 1000 57000 curr_power 0.5%float)%py tt = (Ok st_a, tt)
    /\ score st_a <= 70.
Proof.
  destruct (failed_power_in_audit unit (canned power_fails) 0.5%float 1000 57000 0.5%float
              tt tt "ValueError" (Pos2Z.is_nonneg 1000) eq_refl)
    as (st_a & st_b & Ha & _ & _ & _ & Hs & _).
  exists st_a. split; [exact Ha | exact Hs].
Defined.

(** X12. When the audit itself fails. The only computation of the audit
    that can raise is the percentage of the shortfall message,
    [current_n / req_n]. With a required total of 0 and a negative live
    count the audit of either script raises [ZeroDivisionError]; with a
    required total other than 0 and a live count that a float can hold,
    negative or not, it completes with the score of the three checks. *)
Theorem audit_division :
  forall (W : Type) (w : W) (current_n req_n : Z) (curr_power p_val : float),
    (current_n < 0 -> req_n = 0 ->
     AbSim.audit current_n req_n curr_power p_val w = (Raise "ZeroDivisionError", w) /\
     Bayesian.audit current_n req_n curr_power p_val w = (Raise "ZeroDivisionError", w)) /\
    (req_n <> 0 -> Z.abs current_n <= (2 ^ 53 - 1) * 2 ^ 971 ->
     exists st_a st_b,
       AbSim.audit current_n req_n curr_power p_val w = (Ok st_a, w) /\
       Bayesian.audit current_n req_n curr_power p_val w = (Ok st_b, w) /\
       score st_a = score_spec current_n req_n curr_power p_val /\
       score st_b = score_spec current_n req_n curr_power p_val).
Proof.
  intros W w current_n req_n curr_power p_val. split.
  - intros Hn ->.
    unfold AbSim.audit, Bayesian.audit, AbSim.sample_check, Bayesian.sample_check,
      bind, lift.
    destruct (Z.geb_spec current_n 0) as [? | _]; [lia |].
    unfold truediv. cbn [Z.eqb]. split; reflexivity.
  - intros Hreq Hmag.
    destruct (truediv_total current_n req_n Hmag Hreq) as (q & Hq & _).
    assert (Ha : exists st, AbSim.audit current_n req_n curr_power p_val w = (Ok st, w)).
    { unfold AbSim.audit, AbSim.sample_check, AbSim.power_check,
        AbSim.significance_check, bind, lift, ret. rewrite Hq.
      destruct (current_n >=? req_n), (f_0_8 <=? curr_power)%float, (p_val <? f_0_05)%float;
        eexists; reflexivity. }
    assert (Hb : exists st, Bayesian.audit current_n req_n curr_power p_val w = (Ok st, w)).
    { unfold Bayesian.audit, Bayesian.sample_check, Bayesian.power_check,
        Bayesian.significance_check, bind, lift, ret. rewrite Hq.
      destruct (current_n >=? req_n), (f_0_8 <=? curr_power)%float, (p_val <? f_0_05)%float;
        eexists; reflexivity. }
    destruct Ha as [st_a Ha]. destruct Hb as [st_b Hb].
    exists st_a, st_b. split; [exact Ha |]. split; [exact Hb |].
    split; [apply (absim_audit_inv _ _ _ _ _ _ _ Ha) | apply (bayesian_audit_inv _ _ _ _ _ _ _ Hb)].
Qed.

Lemma audit_division_witness :
  AbSim.audit (-1000) 0 0.5%float 0.5%float tt = (Raise "ZeroDivisionError", tt)
  /\ exists st_a, AbSim.audit (-1000) 57000 0.5%float 0.5%float tt = (Ok st_a, tt).
Proof.
  split.
  - apply (proj1 (audit_division unit tt (-1000) 0 0.5%float 0.5%float)); reflexivity.
  - destruct (proj2 (audit_division unit tt (-1000) 57000 0.5%float 0.5%float)
                ltac:(discriminate) ltac:(vm_compute; discriminate))
      as (st_a & _ & Ha & _).
    exists st_a. exact Ha.
Defined.

(** ** The AA self-check *)

#[local] Instance label_le_total : Total label_le.
Proof.
  intros x y. unfold label_le. apply String.leb_total.
Qed.

(** The rows of an aggregate of labels "A" and "B", in the order of
    [groupby]. *)
Lemma sorted_rows_two_groups (rows : list row) :
  Forall (fun r : row => fst r = "A" \/ fst r = "B") rows ->
  sorted_rows (groupby_agg rows)
  = ((if 0 <? count_of "A" rows then [("A", (count_of "A" rows, sum_of "A" rows))] else [])
     ++ (if 0 <? count_of "B" rows then [("B", (count_of "B" rows, sum_of "B" rows))] else []))%list.
Proof.
  intros Hrows. unfold sorted_rows.
  pose proof (Sorted_merge_sort label_le (map_to_list (groupby_agg rows))) as Hsorted.
  pose proof (merge_sort_Permutation label_le (map_to_list (groupby_agg rows))) as Hperm.
  match goal with |- _ = ?e => set (expected := e) end.
  assert (Hexp : map_to_list (groupby_agg rows) ≡ₚ expected).
  { apply NoDup_Permutation; [apply NoDup_map_to_list | |].
    - unfold expected.
      destruct (0 <? count_of "A" rows), (0 <? count_of "B" rows); cbn [app];
        [| apply NoDup_singleton | apply NoDup_singleton | constructor].
      apply NoDup_cons. split; [| apply NoDup_singleton].
      rewrite list_elem_of_singleton. discriminate.
    - intros [label [n s]]. rewrite elem_of_map_to_list, groupby_agg_lookup.
      pose proof (count_of_nonneg label rows) as Hnn.
      unfold expected. split.
      + destruct (Z.eqb_spec (count_of label rows) 0) as [? | Hne]; [discriminate |].
        intros [= <- <-].
        destruct (count_of_label label rows ltac:(lia)) as (r & Hin & <-).
        rewrite Forall_forall in Hrows.
        destruct (Hrows r (proj2 (list_elem_of_In _ _) Hin)) as [Hr | Hr]; rewrite Hr in *.
        * destruct (Z.ltb_spec 0 (count_of "A" rows)); [| lia]. set_solver.
        * destruct (Z.ltb_spec 0 (count_of "B" rows)); [| lia].
          destruct (0 <? count_of "A" rows); set_solver.
      + intros Hin.
        assert (Hcase : (label = "A" \/ label = "B") /\ 0 < count_of label rows /\
                        n = count_of label rows /\ s = sum_of label rows).
        { destruct (Z.ltb_spec 0 (count_of "A" rows)), (Z.ltb_spec 0 (count_of "B" rows));
            cbn [app] in Hin; set_unfold in Hin; intuition (simplify_eq; auto). }
        destruct Hcase as (_ & Hpos & -> & ->).
        destruct (Z.eqb_spec (count_of label rows) 0); [lia | reflexivity]. }
  apply (fun H => Permutation_trans H Hexp) in Hperm. clear Hexp.
  revert Hsorted Hperm. generalize (merge_sort label_le (map_to_list (groupby_agg rows))).
  intros l Hsorted Hperm. unfold expected in *. clear expected.
  apply Permutation_sym in Hperm.
  destruct (0 <? count_of "A" rows), (0 <? count_of "B" rows); cbn [app] in *.
  - apply Permutation_length_2_inv in Hperm as [-> | ->]; [reflexivity |].
    exfalso. apply Sorted_inv in Hsorted as [_ Hhd]. apply HdRel_inv in Hhd.
    unfold label_le in Hhd. cbn in Hhd. discriminate.
  - apply Permutation_length_1_inv in Hperm. exact Hperm.
  - apply Permutation_length_1_inv in Hperm. exact Hperm.
  - apply Permutation_nil in Hperm. exact Hperm.
Qed.

Lemma combine_labels (labels : list string) (clicks : list Z) :
  Forall (fun l => l = "A" \/ l = "B") labels ->
  Forall (fun r : row => fst r = "A" \/ fst r = "B") (combine labels clicks).
Proof.
  intros Hl. revert clicks. induction Hl as [| l labels Hl _ IH]; intros [| k clicks];
    cbn [combine]; constructor; [exact Hl | apply IH].
Qed.

Lemma aa_labels_variants (salt_1 : string) (req_n : Z) :
  Forall (fun l => l = "A" \/ l = "B") (aa_labels salt_1 req_n).
Proof.
  apply Forall_forall. intros l Hin. apply list_elem_of_In, in_map_iff in Hin.
  destruct Hin as (i & <- & _). apply assign_spec_variant.
Qed.

(** The two columns that the z-test receives, reversed: "B" first. *)
Lemma series_reversed (rows : list row) :
  Forall (fun r : row => fst r = "A" \/ fst r = "B") rows ->
  series (groupby_agg rows) "sum" = Ok (rev (b_first sum_of rows)) /\
  series (groupby_agg rows) "count" = Ok (rev (b_first count_of rows)).
Proof.
  intros Hrows. unfold series, b_first. cbn [String.eqb Ascii.eqb Bool.eqb].
  rewrite (sorted_rows_two_groups rows Hrows).
  destruct (0 <? count_of "A" rows), (0 <? count_of "B" rows); split; reflexivity.
Qed.

Lemma aa_check_tail {W} {L : Libs W} {T : Host W} (report : float -> st_call)
    (base_p : float) (labels : list string) (w : W) :
  Forall (fun l => l = "A" \/ l = "B") labels ->
  (c_col <- for_each (fun _ => np_random_binomial 1 base_p) labels ;;
   let aa_res := groupby_agg (combine labels c_col) in
   sums <- lift (series aa_res "sum") ;;
   counts <- lift (series aa_res "count") ;;
   zp <- proportions_ztest (rev sums) (rev counts) ;;
   ret (report (snd zp)))%py w
  = (clicks <- for_each (fun _ => np_random_binomial 1 base_p) labels ;;
     zp <- proportions_ztest (b_first sum_of (combine labels clicks))
             (b_first count_of (combine labels clicks)) ;;
     ret (report (snd zp)))%py w.
Proof.
  intros Hl. unfold bind at 1 5.
  destruct (for_each _ labels w) as [[clicks | e] w1]; [| reflexivity].
  cbv zeta.
  destruct (series_reversed (combine labels clicks) (combine_labels _ clicks Hl)) as [-> ->].
  unfold bind, lift. rewrite !rev_involutive. reflexivity.
Qed.

Lemma absim_aa_check_run {W} {L : Libs W} {T : Host W}
    (nm : names) (req_n : Z) (salt_1 : string) (base_p : float) (w : W) :
  bound_req_n nm = Some req_n ->
  AbSim.aa_check nm salt_1 base_p w = aa_core AbSim.aa_report req_n salt_1 base_p w.
Proof.
  intros Hreq. unfold AbSim.aa_check, aa_core. rewrite Hreq. unfold name.
  unfold bind at 1. unfold ret at 1. cbv zeta. unfold bind at 1.
  rewrite (for_each_pure _
             (fun i => [("ID", "u_" ++ pretty i);
                        ("G", assign_spec ("u_" ++ pretty i) "L1" salt_1)]))
    by (intros i w0; unfold bind, ret; rewrite get_group_run; reflexivity).
  rewrite (df_column_map _ (fun i => assign_spec ("u_" ++ pretty i) "L1" salt_1))
    by reflexivity.
  fold (aa_labels salt_1 req_n).
  unfold bind at 1 5, lift.
  destruct (range (Z.min req_n 5000)); [reflexivity |].
  apply aa_check_tail, aa_labels_variants.
Qed.

Lemma bayesian_aa_check_run {W} {L : Libs W} {T : Host W}
    (nm : names) (req_n : Z) (salt_1 : string) (base_p : float) (w : W) :
  bound_req_n nm = Some req_n ->
  Bayesian.aa_check nm salt_1 base_p w = aa_core Bayesian.aa_report req_n salt_1 base_p w.
Proof.
  intros Hreq. unfold Bayesian.aa_check, aa_core. rewrite Hreq. unfold name.
  unfold bind at 1. unfold ret at 1. cbv zeta. unfold bind at 1.
  rewrite (for_each_pure _
             (fun i => [("ID", "u_" ++ pretty i);
                        ("G", assign_spec ("u_" ++ pretty i) "L1" salt_1)]))
    by (intros i w0; unfold bind, ret; rewrite bayesian_get_group_run; reflexivity).
  rewrite (df_column_map _ (fun i => assign_spec ("u_" ++ pretty i) "L1" salt_1))
    by reflexivity.
  fold (aa_labels salt_1 req_n).
  unfold bind at 1 5, lift.
  destruct (range (Z.min req_n 5000)); [reflexivity |].
  apply aa_check_tail, aa_labels_variants.
Qed.

(** X13. What the AA check compares. When the AA check of [ab_sim.py]
    completes, the name [req_n] was bound, to a total of at least 1; the
    check buckets [min(req_n, 5000)] users "u_0", "u_1", ... in layer "L1",
    draws one click for each at the baseline rate, whatever the variant,
    and hands to the z-test the clicks and the observations of the variants
    that occur, those of "B" before those of "A", the order of the live
    analysis: reversing the columns of the aggregate undoes the sorting of
    [groupby]. The message shown is the report on the p-value of that test,
    and the check of [bayesian.py], from the same state, runs the same
    test. *)
Theorem aa_check_compares_b_to_a :
  forall (W : Type) (L : Libs W) (T : Host W) (nm : names) (salt_1 : string)
         (base_p : float) (w w' : W) (shown : st_call),
    AbSim.aa_check nm salt_1 base_p w = (Ok shown, w') ->
    exists req_n : Z,
      bound_req_n nm = Some req_n /\
      let labels := aa_labels salt_1 req_n in
      1 <= req_n /\
      Z.of_nat (List.length labels) = Z.min req_n 5000 /\
      exists (clicks : list Z) (w1 : W) (z p_aa : float),
        for_each (fun _ => np_random_binomial 1 base_p) labels w = (Ok clicks, w1) /\
        proportions_ztest (b_first sum_of (combine labels clicks))
          (b_first count_of (combine labels clicks)) w1 = (Ok (z, p_aa), w') /\
        shown = AbSim.aa_report p_aa /\
        Bayesian.aa_check nm salt_1 base_p w = (Ok (Bayesian.aa_report p_aa), w').
Proof.
  intros W L T nm salt_1 base_p w w' shown Hrun.
  destruct (bound_req_n nm) as [req_n |] eqn:Hreq;
    [| unfold AbSim.aa_check in Hrun; rewrite Hreq in Hrun; discriminate].
  exists req_n. split; [reflexivity |].
  rewrite (absim_aa_check_run nm req_n) in Hrun by exact Hreq.
  rewrite (bayesian_aa_check_run nm req_n) by exact Hreq.
  intros labels. revert Hrun.
  unfold aa_core, bind, lift, ret. fold labels.
  destruct (Z_le_gt_dec (Z.min req_n 5000) 0) as [Hle | Hgt].
  { rewrite range_empty by exact Hle. discriminate. }
  intros Hrun.
  assert (Hlen : Z.of_nat (List.length labels) = Z.min req_n 5000).
  { unfold labels, aa_labels. rewrite length_map, range_length. lia. }
  destruct (range (Z.min req_n 5000)) as [| i0 l0]; [discriminate |].
  destruct (for_each _ labels w) as [[clicks | e] w1] eqn:Hclicks; [| discriminate].
  destruct (proportions_ztest _ _ w1) as [[[z p_aa] | e] w2] eqn:Hz; [| discriminate].
  injection Hrun as <- <-.
  split; [lia |]. split; [exact Hlen |].
  exists clicks, w1, z, p_aa.
  split; [reflexivity |]. split; [exact Hz |]. split; reflexivity.
Qed.

Lemma aa_check_compares_b_to_a_witness :
  exists clicks z p_aa,
    for_each (W := unit) (fun _ => np_random_binomial (Host := first_run) 1 0.5%float)
      (aa_labels "UI_EXP" 7) tt = (Ok clicks, tt)
    /\ proportions_ztest (Libs := canned small_run)
         (b_first sum_of (combine (aa_labels "UI_EXP" 7) clicks))
         (b_first count_of (combine (aa_labels "UI_EXP" 7) clicks)) tt
       = (Ok (z, p_aa), tt).
Proof.
  destruct (aa_check_compares_b_to_a unit (canned small_run) first_run
              {| bound_p2_mde := None; bound_es := None; bound_req_n_per_group := None;
                 bound_req_n := Some 7; bound_est_days := None |}
              "UI_EXP" 0.5%float tt tt
              (st_success "✅ AA通过 (P=0.2482)：分流公平，实验环境纯净。")
              ltac:(vm_compute; reflexivity))
    as (req_n & Hreq & _ & _ & clicks & [] & z & p_aa & Hclicks & Hz & _).
  injection Hreq as <-.
  exists clicks, z, p_aa. split; [exact Hclicks | exact Hz].
Defined.

(** X14. A daily volume of 0. The widget of the daily volume accepts 0.
    When the library returns a sample size whose double is finite, the
    planning then fails at its last statement, the division by the daily
    volume: the failure message is shown, but [req_n] is bound by then, to
    the total of the plan, and only [est_days] is not. The AA check
    therefore still runs, on that total, and the run ends with
    [NameError] at the slider of the days run. *)
Theorem zero_daily_volume :
  forall (W : Type) (L : Libs W) (T : Host W) (base_p mde_target : float)
         (w w1 w2 : W) (e n : float),
    proportion_effectsize (base_p * (1 + mde_target))%float base_p w = (Ok e, w1) ->
    solve_power e f_0_05 f_0_8 1%float w1 = (Ok n, w2) ->
    is_finite (n * 2) = true ->
    exists req_n : Z,
      let nm := {| bound_p2_mde := Some (base_p * (1 + mde_target))%float;
                   bound_es := Some e; bound_req_n_per_group := Some n;
                   bound_req_n := Some req_n; bound_est_days := None |} in
      math_ceil (n * 2)%float = Ok req_n /\
      planning_names base_p mde_target 0 w = (Ok nm, w2) /\
      AbSim.planning base_p mde_target 0 w
        = (Ok (PlanFailed (st_error "计算失败，请调整参数。")), w2) /\
      Bayesian.planning base_p mde_target 0 w
        = (Ok (PlanFailed (st_error "计算失败，请调整参数。")), w2) /\
      forall (salt_1 : string) (w3 : W),
        AbSim.aa_check nm salt_1 base_p w3
          = aa_core AbSim.aa_report req_n salt_1 base_p w3 /\
        Bayesian.aa_check nm salt_1 base_p w3
          = aa_core Bayesian.aa_report req_n salt_1 base_p w3 /\
        AbSim.days_run nm w3 = (Raise "NameError", w3) /\
        Bayesian.days_run nm w3 = (Raise "NameError", w3).
Proof.
  intros W L T base_p mde_target w w1 w2 e n Hes Hn Hfin.
  destruct (math_ceil_finite _ Hfin) as (k & Hk & _).
  exists k. intros nm.
  split; [exact Hk |].
  split; [unfold planning_names; rewrite Hes, Hn, Hk; reflexivity |].
  assert (Hplan : AbSim.planning base_p mde_target 0 w
                  = (Ok (PlanFailed (st_error "计算失败，请调整参数。")), w2)).
  { unfold AbSim.planning, try_except, AbSim.plan_body, bind, lift, ret.
    rewrite Hes, Hn, Hk. reflexivity. }
  split; [exact Hplan |]. split; [exact Hplan |].
  intros salt_1 w3.
  split; [apply absim_aa_check_run; reflexivity |].
  split; [apply bayesian_aa_check_run; reflexivity |].
  split; reflexivity.
Qed.

Lemma zero_daily_volume_witness :
  planning_names (L := canned plan_example) 0x1.999999999999ap-4%float
    0x1.999999999999ap-5%float 0 tt
  = (Ok {| bound_p2_mde := Some 0x1.ae147ae147ae2p-4%float;
           bound_es := Some 0x1.0e1c38925acap-6%float;
           bound_req_n_per_group := Some 0x1.c3378f9a0e933p+15%float;
           bound_req_n := Some 115512; bound_est_days := None |}, tt).
Proof.
  destruct (zero_daily_volume unit (canned plan_example) first_run
              0x1.999999999999ap-4%float 0x1.999999999999ap-5%float tt tt tt
              0x1.0e1c38925acap-6%float 0x1.c3378f9a0e933p+15%float
              ltac:(vm_compute; reflexivity) ltac:(vm_compute; reflexivity)
              ltac:(vm_compute; reflexivity))
    as (req_n & Hk & Hnm & _).
  rewrite Hnm. vm_compute in Hk. injection Hk as <-. reflexivity.
Defined.

(** ** The Bayesian panel *)

Lemma confident_from_19001 (k : Z) :
  0 <= k <= 20000 ->
  (Bayesian.f_0_95 <? float_of_Z k / float_of_Z 20000)%float = (19001 <=? k).
Proof.
  intros Hk.
  assert (H : Bool.eqb (Bayesian.f_0_95 <? float_of_Z k / float_of_Z 20000)%float
                (19001 <=? k) = true).
  { apply (all_from_spec
             (fun i => Bool.eqb (Bayesian.f_0_95 <? float_of_Z i / float_of_Z 20000)%float
                         (19001 <=? i))
             (Z.to_nat 20001) 0); [vm_compute; reflexivity | lia]. }
  apply Bool.eqb_prop, H.
Qed.

(** X15. The threshold of the Bayesian panel. The probability that B is
    better is the mean of the array [b_samples > a_samples] of 20000
    entries. The panel shows its success message exactly when B's draw
    exceeds A's in at least 19001 of the 20000 pairs: 19000 pairs, that is
    95% exactly, do not pass the strict comparison with 0.95. *)
Theorem bayesian_panel_threshold :
  forall b_wins : list bool,
    Z.of_nat (List.length b_wins) = 20000 ->
    let wins := Z.of_nat (List.length (List.filter (fun b : bool => b) b_wins)) in
    (confidence_of (Bayesian.bayesian_panel (np_mean_bool b_wins)) = High
     <-> 19001 <= wins) /\
    (confidence_of (Bayesian.bayesian_panel (np_mean_bool b_wins)) = Medium
     <-> wins <= 19000).
Proof.
  intros b_wins Hlen wins.
  pose proof (filter_length_le (fun b : bool => b) b_wins) as Hle.
  unfold Bayesian.bayesian_panel, np_mean_bool. fold wins. rewrite Hlen.
  rewrite confident_from_19001 by (unfold wins; lia).
  destruct (Z.leb_spec 19001 wins); cbn [confidence_of];
    split; split; intros H'; first [reflexivity | discriminate | lia].
Qed.

Lemma bayesian_panel_threshold_witness :
  confidence_of
    (Bayesian.bayesian_panel
       (np_mean_bool (repeat true (Z.to_nat 19000) ++ repeat false (Z.to_nat 1000))))
  = Medium.
Proof.
  apply (proj2 (bayesian_panel_threshold
                  (repeat true (Z.to_nat 19000) ++ repeat false (Z.to_nat 1000))
                  ltac:(vm_compute; reflexivity))).
  vm_compute. discriminate.
Defined.

(** ** The key of the bucketing *)

(** X16. The joined key. [get_group] sees its three inputs only through
    the string that joins them with underscores, so an underscore inside an
    input moves the boundary unnoticed: a subject whose ID ends in "_x" in
    layer [l] gets the variant of the subject without that ending in layer
    "x_" ++ [l], and likewise between the layer and the salt, in either
    script. *)
Theorem get_group_joined_key :
  forall (W : Type) (w : W) (user_id x layer_name salt : string),
    AbSim.get_group (user_id ++ "_" ++ x) layer_name salt w
    = AbSim.get_group user_id (x ++ "_" ++ layer_name) salt w /\
    AbSim.get_group user_id (layer_name ++ "_" ++ x) salt w
    = AbSim.get_group user_id layer_name (x ++ "_" ++ salt) w /\
    Bayesian.get_group (user_id ++ "_" ++ x) layer_name salt w
    = Bayesian.get_group user_id (x ++ "_" ++ layer_name) salt w /\
    Bayesian.get_group user_id (layer_name ++ "_" ++ x) salt w
    = Bayesian.get_group user_id layer_name (x ++ "_" ++ salt) w.
Proof.
  intros W w user_id x layer_name salt.
  assert (Hassoc : forall a b c : string, (a ++ b) ++ c = a ++ b ++ c).
  { intros a b c. induction a as [| ch a IH]; [reflexivity |].
    change (String ch ((a ++ b) ++ c) = String ch (a ++ b ++ c)). f_equal. exact IH. }
  assert (Hkey : assign_spec (user_id ++ "_" ++ x) layer_name salt
                 = assign_spec user_id (x ++ "_" ++ layer_name) salt /\
                 assign_spec user_id (layer_name ++ "_" ++ x) salt
                 = assign_spec user_id layer_name (x ++ "_" ++ salt)).
  { unfold assign_spec. rewrite !Hassoc. split; reflexivity. }
  destruct Hkey as [Hk1 Hk2].
  split; [rewrite !get_group_run, Hk1; reflexivity |].
  split; [rewrite !get_group_run, Hk2; reflexivity |].
  split; [rewrite !bayesian_get_group_run, Hk1; reflexivity |].
  rewrite !bayesian_get_group_run, Hk2. reflexivity.
Qed.

(** ** A run that reaches its end *)

Lemma name_inv {W A} (binding : option A) (w w' : W) (a : A) :
  name binding w = (Ok a, w') -> binding = Some a /\ w' = w.
Proof.
  destruct binding as [a' |]; [| discriminate].
  intros [= <- <-]. split; reflexivity.
Qed.

(** The aggregate of a simulation that completes, whatever the draws: an
    aggregate of rows, in which the observations of the two variants add up
    to the live count. *)
Lemma aggregate_of_total {W} {T : Host W} (salt_1 : string) (base_p true_lift : float)
    (current_n : Z) (w w' : W) (res : gmap string (Z * Z)) :
  aggregate_of base_p true_lift (live_labels salt_1 current_n) w = (Ok res, w') ->
  exists rows,
    res = groupby_agg rows /\
    count_of "A" rows + count_of "B" rows = current_n.
Proof.
  unfold aggregate_of, bind, lift, ret.
  destruct (live_labels salt_1 current_n) as [labels | e] eqn:Hl; [| discriminate].
  destruct (live_labels_inv _ _ _ Hl) as (_ & Hlen & Hab).
  destruct (for_each _ labels w) as [[click | e] w1] eqn:Hclick; [| discriminate].
  intros [= <- <-].
  apply (for_each_inv _ (fun _ _ => True)) in Hclick; [| intros; exact I].
  apply Forall2_length in Hclick.
  exists (combine labels click). split; [reflexivity |].
  rewrite (count_of_two_groups _ (combine_labels _ click Hab)).
  pose proof (length_combine labels click) as Hc. unfold row. lia.
Qed.

(** The analysis completes only on an aggregate in which both variants
    have observations. *)
Lemma absim_analysis_groups {W} {L : Libs W} (rows : list row) (w w' : W) (st : AbSim.stats) :
  AbSim.analysis (groupby_agg rows) w = (Ok st, w') ->
  1 <= count_of "A" rows /\ 1 <= count_of "B" rows.
Proof.
  pose proof (count_of_nonneg "A" rows) as Ha. pose proof (count_of_nonneg "B" rows) as Hb.
  unfold AbSim.analysis, bind, lift.
  destruct (Z.eq_dec (count_of "A" rows) 0) as [Hza | Hza];
    [rewrite !(loc_absent rows "A") by exact Hza; discriminate |].
  destruct (loc_present rows "A" ltac:(lia)) as [-> ->].
  destruct (Z.eq_dec (count_of "B" rows) 0) as [Hzb | Hzb];
    [rewrite !(loc_absent rows "B") by exact Hzb; discriminate |].
  intros _. lia.
Qed.

Lemma bayesian_analysis_groups {W} {L : Libs W} (rows : list row) (w w' : W)
    (st : Bayesian.stats) :
  Bayesian.analysis (groupby_agg rows) w = (Ok st, w') ->
  1 <= count_of "A" rows /\ 1 <= count_of "B" rows.
Proof.
  pose proof (count_of_nonneg "A" rows) as Ha. pose proof (count_of_nonneg "B" rows) as Hb.
  unfold Bayesian.analysis, bind, lift.
  destruct (Z.eq_dec (count_of "A" rows) 0) as [Hza | Hza];
    [rewrite !(loc_absent rows "A") by exact Hza; discriminate |].
  destruct (loc_present rows "A" ltac:(lia)) as [-> ->].
  destruct (Z.eq_dec (count_of "B" rows) 0) as [Hzb | Hzb];
    [rewrite !(loc_absent rows "B") by exact Hzb; discriminate |].
  intros _. lia.
Qed.

Lemma score_spec_full (live_n required_n : Z) (power_at_live_n p_value : float) :
  score_spec live_n required_n power_at_live_n p_value = 100
  <-> live_n >= required_n /\
      (f_0_8 <=? power_at_live_n)%float = true /\
      (p_value <? f_0_05)%float = true.
Proof.
  unfold score_spec.
  destruct (Z.geb_spec live_n required_n), (f_0_8 <=? power_at_live_n)%float,
    (p_value <? f_0_05)%float; split; intros Hx;
    first [lia | intuition (lia || discriminate)].
Qed.

(** X17. A completed run of [ab_sim.py]. When the script reaches its end,
    the planning had ended with a plan; the live count is the daily volume
    times the days run and is at least 2, since the analysis needs an
    observation of each variant; the AA check was reported
    exactly when its button was pressed; the score is the sum of the
    weights of the checks that pass on the live count, the live power and
    the p-value of the report, with one line of log per check; and the
    verdict shown is the high confidence exactly when the live count has
    reached the required total, the live power is at least 0.8 and the
    p-value is below 0.05. *)
Theorem absim_completed_run :
  forall (W : Type) (L : Libs W) (T : Host W) (i : AbSim.inputs) (w w' : W)
         (r : AbSim.report),
    AbSim.script i w = (Ok r, w') ->
    exists (p : plan) (w1 : W),
      AbSim.planning (AbSim.base_p i) (AbSim.mde_target i) (AbSim.dau i) w
        = (Ok (Planned p), w1) /\
      AbSim.live_n r = AbSim.dau i * AbSim.days r /\
      2 <= AbSim.live_n r /\
      (AbSim.aa_shown r = None <-> AbSim.aa_button i = false) /\
      score (AbSim.audited r)
        = score_spec (AbSim.live_n r) (req_n p) (AbSim.live_power r)
            (AbSim.p_val (AbSim.observed r)) /\
      List.length (audit_log (AbSim.audited r)) = 3%nat /\
      AbSim.verdict_shown r = AbSim.verdict (score (AbSim.audited r)) /\
      (confidence_of (AbSim.verdict_shown r) = High <->
       AbSim.live_n r >= req_n p /\
       (f_0_8 <=? AbSim.live_power r)%float = true /\
       (AbSim.p_val (AbSim.observed r) <? f_0_05)%float = true).
Proof.
  intros W L T i w w' r Hrun. unfold AbSim.script in Hrun.
  apply bind_inv in Hrun as (nm & w1 & Hnm & Hrun).
  apply bind_inv in Hrun as (aa & w2 & Haa & Hrun).
  apply bind_inv in Hrun as (d & w3 & Hdays & Hrun).
  cbv zeta in Hrun.
  apply bind_inv in Hrun as (res & w4 & Hlive & Hrun).
  apply bind_inv in Hrun as (st & w5 & Hst & Hrun).
  apply bind_inv in Hrun as (pw & w6 & Hpw & Hrun).
  apply bind_inv in Hrun as (rn & w7 & Hrn & Hrun).
  apply bind_inv in Hrun as (a & w8 & Haudit & Hrun).
  injection Hrun as <- <-.
  assert (Hdays' : exists e : Z, bound_est_days nm = Some e).
  { unfold AbSim.days_run in Hdays. apply bind_inv in Hdays as (e & w9 & He & _).
    apply name_inv in He as [He _]. exists e. exact He. }
  destruct Hdays' as [e He].
  destruct (planning_names_bound _ _ _ _ _ _ _ Hnm He) as (p & -> & Hplan).
  apply name_inv in Hrn as [[= <-] ->].
  rewrite absim_live_data_run in Hlive.
  apply aggregate_of_total in Hlive as (rows & -> & Htotal).
  apply absim_analysis_groups in Hst as [Hga Hgb].
  assert (Hlive : 2 <= AbSim.dau i * d) by lia.
  destruct (absim_audit_inv _ _ _ _ _ _ _ Haudit) as (_ & Hscore & Hlog).
  exists p, w1.
  cbn [AbSim.live_n AbSim.days AbSim.aa_shown AbSim.audited AbSim.live_power
       AbSim.observed AbSim.verdict_shown].
  split; [exact Hplan |]. split; [reflexivity |]. split; [exact Hlive |].
  split.
  { destruct (AbSim.aa_button i).
    - apply bind_inv in Haa as (shown & w9 & _ & Hret). injection Hret as <- _.
      split; discriminate.
    - injection Haa as <- _. split; reflexivity. }
  split; [exact Hscore |]. split; [exact Hlog |]. split; [reflexivity |].
  rewrite (proj1 (absim_verdict_levels _)), Hscore. apply score_spec_full.
Qed.

(** X18. A completed run of [bayesian.py]. When the script reaches its
    end, the planning had ended with a plan and the live count is the
    daily volume times the days run, at least 2, since the analysis needs
    an observation of each variant. The frequentist panel and
    the third check of the audit read one p-value against one threshold:
    the panel shows its success message exactly when the audit logs its
    third line, and the verdict is the high confidence only then. The
    message of the Bayesian panel does not enter the score. *)
Theorem bayesian_completed_run :
  forall (W : Type) (L : Libs W) (T : Host W) (i : Bayesian.inputs) (w w' : W)
         (r : Bayesian.report),
    Bayesian.script i w = (Ok r, w') ->
    exists (p : plan) (w1 : W),
      Bayesian.planning (Bayesian.base_p i) (Bayesian.mde_target i) (Bayesian.dau i) w
        = (Ok (Planned p), w1) /\
      Bayesian.live_n r = Bayesian.dau i * Bayesian.days r /\
      2 <= Bayesian.live_n r /\
      Bayesian.frequentist_shown r
        = Bayesian.frequentist_panel (Bayesian.p_val (Bayesian.observed r)) /\
      Bayesian.bayesian_shown r
        = Bayesian.bayesian_panel (Bayesian.prob_b_wins (Bayesian.observed r)) /\
      score (Bayesian.audited r)
        = score_spec (Bayesian.live_n r) (req_n p) (Bayesian.live_power r)
            (Bayesian.p_val (Bayesian.observed r)) /\
      (confidence_of (Bayesian.frequentist_shown r) = High <->
       List.length (audit_log (Bayesian.audited r)) = 3%nat) /\
      (confidence_of (Bayesian.frequentist_shown r) = Low <->
       List.length (audit_log (Bayesian.audited r)) = 2%nat) /\
      (confidence_of (Bayesian.verdict_shown r) = High <->
       Bayesian.live_n r >= req_n p /\
       (f_0_8 <=? Bayesian.live_power r)%float = true /\
       confidence_of (Bayesian.frequentist_shown r) = High).
Proof.
  intros W L T i w w' r Hrun. unfold Bayesian.script in Hrun.
  apply bind_inv in Hrun as (nm & w1 & Hnm & Hrun).
  apply bind_inv in Hrun as (aa & w2 & Haa & Hrun).
  apply bind_inv in Hrun as (d & w3 & Hdays & Hrun).
  cbv zeta in Hrun.
  apply bind_inv in Hrun as (res & w4 & Hlive & Hrun).
  apply bind_inv in Hrun as (st & w5 & Hst & Hrun).
  apply bind_inv in Hrun as (pw & w6 & Hpw & Hrun).
  apply bind_inv in Hrun as (rn & w7 & Hrn & Hrun).
  apply bind_inv in Hrun as (a & w8 & Haudit & Hrun).
  injection Hrun as <- <-.
  assert (Hdays' : exists e : Z, bound_est_days nm = Some e).
  { unfold Bayesian.days_run in Hdays. apply bind_inv in Hdays as (e & w9 & He & _).
    apply name_inv in He as [He _]. exists e. exact He. }
  destruct Hdays' as [e He].
  destruct (planning_names_bound _ _ _ _ _ _ _ Hnm He) as (p & -> & Hplan).
  apply name_inv in Hrn as [[= <-] ->].
  rewrite bayesian_live_data_run in Hlive.
  apply aggregate_of_total in Hlive as (rows & -> & Htotal).
  apply bayesian_analysis_groups in Hst as [Hga Hgb].
  assert (Hlive : 2 <= Bayesian.dau i * d) by lia.
  destruct (bayesian_audit_inv _ _ _ _ _ _ _ Haudit) as (_ & Hscore & Hlog).
  exists p, w1.
  cbn [Bayesian.live_n Bayesian.days Bayesian.audited Bayesian.live_power
       Bayesian.observed Bayesian.verdict_shown Bayesian.frequentist_shown
       Bayesian.bayesian_shown].
  split; [rewrite planning_copies_agree; exact Hplan |].
  split; [reflexivity |]. split; [exact Hlive |].
  split; [reflexivity |]. split; [reflexivity |]. split; [exact Hscore |].
  rewrite Hlog, (proj1 (bayesian_verdict_levels _)), Hscore, score_spec_full.
  unfold Bayesian.frequentist_panel.
  destruct (Bayesian.p_val st <? f_0_05)%float; cbn [confidence_of];
    (split; [| split]); (split; intros Hx);
    first [reflexivity | discriminate | tauto
          | destruct Hx as (_ & _ & Hx); discriminate].
Qed.

Lemma absim_completed_run_witness :
  exists r,
    AbSim.script (L := canned full_run) (T := first_run)
      {| AbSim.dau := 1; AbSim.base_p := 0x1.999999999999ap-4%float;
         AbSim.salt_1 := "UI_EXP"; AbSim.salt_2 := "ALG_EXP";
         AbSim.true_lift := 0x1.999999999999ap-5%float;
         AbSim.mde_target := 0x1.999999999999ap-5%float;
         AbSim.aa_button := false |} tt = (Ok r, tt)
    /\ 2 <= AbSim.live_n r.
Proof.
  eexists. split; [vm_compute; reflexivity |].
  match goal with
  | |- 2 <= AbSim.live_n ?r =>
      destruct (absim_completed_run unit (canned full_run) first_run
                  {| AbSim.dau := 1; AbSim.base_p := 0x1.999999999999ap-4%float;
                     AbSim.salt_1 := "UI_EXP"; AbSim.salt_2 := "ALG_EXP";
                     AbSim.true_lift := 0x1.999999999999ap-5%float;
                     AbSim.mde_target := 0x1.999999999999ap-5%float;
                     AbSim.aa_button := false |} tt tt r ltac:(vm_compute; reflexivity))
        as (p & w1 & _ & _ & Hpos & _)
  end.
  exact Hpos.
Defined.

Lemma bayesian_completed_run_witness :
  exists r,
    Bayesian.script (L := canned full_run) (T := first_run)
      {| Bayesian.dau := 1; Bayesian.base_p := 0x1.999999999999ap-4%float;
         Bayesian.salt_1 := "UI_EXP"; Bayesian.salt_2 := "ALG_EXP";
         Bayesian.true_lift := 0x1.999999999999ap-5%float;
         Bayesian.mde_target := 0x1.999999999999ap-5%float;
         Bayesian.aa_button := false |} tt = (Ok r, tt)
    /\ 2 <= Bayesian.live_n r.
Proof.
  eexists. split; [vm_compute; reflexivity |].
  match goal with
  | |- 2 <= Bayesian.live_n ?r =>
      destruct (bayesian_completed_run unit (canned full_run) first_run
                  {| Bayesian.dau := 1; Bayesian.base_p := 0x1.999999999999ap-4%float;
                     Bayesian.salt_1 := "UI_EXP"; Bayesian.salt_2 := "ALG_EXP";
                     Bayesian.true_lift := 0x1.999999999999ap-5%float;
                     Bayesian.mde_target := 0x1.999999999999ap-5%float;
                     Bayesian.aa_button := false |} tt tt r ltac:(vm_compute; reflexivity))
        as (p & w1 & _ & _ & Hpos & _)
  end.
  exact Hpos.
Defined.
